(** * PyGlove symbolic objects: a shallow embedding of
      [pyglove/core/symbolic/object.py]

    The development follows the layout of the Python module.  Python values
    are a first-order data type, exceptions are an inductive type, and the
    methods of [Object] are written in a small state-and-exception monad whose
    state holds the instance ([self]), the log of fired event hooks and the
    thread-local scopes.  The collaborators of [object.py] that live in other
    modules ([pg_typing], [pg_dict], [base], [object_utils], [schema_utils])
    are modelled next to the code that calls them and are marked as such. *)

From Stdlib Require Import String Ascii List ZArith Bool Arith Lia Setoid
  DecimalString.
Import ListNotations.
Local Open Scope list_scope.
Local Open Scope string_scope.

Set Implicit Arguments.
Set Warnings "-register-all".

(* ================================================================== *)
(** * Python values                                                     *)
(* ================================================================== *)

(** A reference to a class: the identity of the class object together with
    the key under which its instances are serialized. *)
Record ClassRef := { ref_id : nat; ref_key : string }.

(** The values that can be bound to a symbolic field.  A symbolic object
    nested in another one carries its address (its identity), its class and
    its own attribute store. *)
Inductive Any : Type :=
| PyNone
| MISSING_VALUE
| PyBool (b : bool)
| PyInt (z : Z)
| PyStr (s : string)
| PyList (xs : list Any)
| PyDict (items : list (string * Any))
| PyObject (addr : nat) (cls : ClassRef) (attrs : list (string * Any)).

Definition KeyPath := list string.

Inductive exn : Type :=
| TypeError (msg : string)
| ValueError (msg : string)
| KeyError (msg : string)
| AttributeError (msg : string)
| AssertionError
| WritePermissionError (msg : string).

(** Python dicts keep insertion order and have unique keys: association
    lists read and written through these functions. *)
Definition items_get {V} (k : string) (d : list (string * V)) : option V :=
  option_map snd (find (fun kv => String.eqb (fst kv) k) d).

Definition items_has {V} (k : string) (d : list (string * V)) : bool :=
  existsb (fun kv => String.eqb (fst kv) k) d.

Fixpoint items_set {V} (k : string) (v : V) (d : list (string * V))
  : list (string * V) :=
  match d with
  | [] => [(k, v)]
  | (k', v') :: d' =>
      if String.eqb k' k then (k, v) :: d' else (k', v') :: items_set k v d'
  end.

Definition items_del {V} (k : string) (d : list (string * V))
  : list (string * V) :=
  filter (fun kv => negb (String.eqb (fst kv) k)) d.

Definition keys {V} (d : list (string * V)) : list string := map fst d.

(** [str.startswith]. *)
Definition startswith (s p : string) : bool := String.prefix p s.

(** [s] occurs in [msg]. *)
Definition mentions (s msg : string) : Prop :=
  exists a b, msg = a ++ s ++ b.


Definition is_nil {A} (l : list A) : bool :=
  match l with [] => true | _ => false end.

Definition is_some {A} (o : option A) : bool :=
  match o with Some _ => true | None => false end.

(** Python truth value. *)
Definition truthy (v : Any) : bool :=
  match v with
  | PyNone => false
  | MISSING_VALUE => true
  | PyBool b => b
  | PyInt z => negb (Z.eqb z 0)
  | PyStr s => negb (String.eqb s "")
  | PyList xs => negb (is_nil xs)
  | PyDict items => negb (is_nil items)
  | PyObject _ _ _ => true
  end.

(* ================================================================== *)
(** * [pg_typing]: keys, value specifications, fields, schemas          *)
(* ================================================================== *)

(** Modelled from the spec: [pg_typing.KeySpec] is not in this module.  A
    field key is "a constant string, or a pattern matching a family of
    dynamic string keys". *)
Inductive KeySpec : Type :=
| ConstStrKey (text : string)
| StrKey (regex : string).

Definition is_const (k : KeySpec) : bool :=
  match k with ConstStrKey _ => true | StrKey _ => false end.

Definition KeySpec_eqb (a b : KeySpec) : bool :=
  match a, b with
  | ConstStrKey s, ConstStrKey t => String.eqb s t
  | StrKey s, StrKey t => String.eqb s t
  | _, _ => false
  end.

(** [str(key)]. *)
Definition KeySpec_str (k : KeySpec) : string :=
  match k with ConstStrKey s => s | StrKey r => r end.

(** Modelled from the spec: [pg_typing.ValueSpec] is not in this module.  A
    value specification is "a type/constraint descriptor (range, nullability,
    default) used to validate and optionally coerce a value": [apply]
    returns the accepted (possibly converted) value or the reason of the
    rejection. *)
Record ValueSpec := {
  has_default : bool;
  default : Any;
  apply : Any -> exn + Any
}.

(** Modelled from the spec: [pg_typing.Field] is not in this module.  A
    field is "a schema entry binding a key to a value specification and
    description". *)
Record Field := {
  key : KeySpec;
  value : ValueSpec;
  description : string
}.

(** Modelled from the spec: [pg_typing.Schema] is not in this module.  A
    schema is "an ordered mapping from Field-key to Field, plus metadata
    (including the computed constructor argument order)"; the metadata
    entry read by this module is ['init_arg_list']. *)
Record Schema := {
  name : string;
  fields : list Field;
  init_arg_list_md : list string
}.

(** What the interpreter and the helper modules supply and this module only
    calls: the rendering of a value inside a message
    ([str(object_utils.quote_if_str v)]), the path prefix of an error
    message, regular-expression matching of a dynamic key, the
    compatibility check of a field override, and the hash primitives. *)
Class Runtime := {
  quote_str : Any -> string;
  format_str : Any -> string;
  message_on_path : string -> KeyPath -> string;
  regex_match : string -> string -> bool;
  Field_extend : Field -> Field -> exn + Field;
  hash_none : Z;
  hash_missing : Z;
  hash_int : Z -> Z;
  hash_str : string -> Z;
  hash_tuple : list Z -> Z;
  hash_type : nat -> Z;
  hash_id : nat -> Z
}.

Section WithRuntime.
Context {RT : Runtime}.

Definition KeySpec_match (k : KeySpec) (s : string) : bool :=
  match k with
  | ConstStrKey t => String.eqb t s
  | StrKey r => regex_match r s
  end.


(** Modelled from the spec: [Schema.get_field] is not in this module.  A
    constant key claims its own name; "a pattern key may coexist with
    concrete keys not otherwise claimed". *)
Definition get_field (s : Schema) (k : string) : option Field :=
  match find (fun f => KeySpec_eqb (key f) (ConstStrKey k)) (fields s) with
  | Some f => Some f
  | None =>
      find (fun f => negb (is_const (key f)) && KeySpec_match (key f) k)
           (fields s)
  end.

(** Modelled from the spec: [Schema.resolve] is not in this module.  The
    second component, the only one read here, lists the "unresolved keys" in
    the order they were given. *)
Definition resolve (s : Schema) (ks : list string)
  : list (string * Field) * list string :=
  (flat_map (fun k => match get_field s k with
                      | Some f => [(k, f)] | None => [] end) ks,
   filter (fun k => match get_field s k with
                    | Some _ => false | None => true end) ks).

(* ================================================================== *)
(** * [object_utils]: message helpers and dict merging                  *)
(* ================================================================== *)

Definition str_of_nat (n : nat) : string :=
  NilEmpty.string_of_uint (Nat.to_uint n).

(** Modelled from the spec: [object_utils.auto_plural] is not in this module.
    It picks the singular form for one item and the plural form (by default
    the singular followed by an s) otherwise. *)
Definition auto_plural (number : nat) (singular : string)
  (plural : option string) : string :=
  let plural := match plural with Some p => p | None => singular ++ "s" end in
  if Nat.eqb number 1 then singular else plural.

(** Modelled from the spec: [object_utils.comma_delimited_str] is not in this
    module.  The messages built with it are "enumerating every offending
    key": the rendering of every element, separated by commas. *)
Definition comma_delimited_str (value_list : list Any) : string :=
  String.concat ", " (map quote_str value_list).

(** Modelled from the spec: [object_utils.merge] is not in this module.  The
    serialized mapping is the "reserved type-identifier key plus one entry per
    field": entries of later dicts are written over the earlier ones. *)
Definition merge (ds : list (list (string * Any))) : list (string * Any) :=
  fold_left (fun acc d =>
               fold_left (fun acc kv => items_set (fst kv) (snd kv) acc) d acc)
            ds [].

(** [base._TYPE_NAME_KEY]; the docstring of [from_json] spells it. *)
Definition _TYPE_NAME_KEY : string := "_type".

(** Modelled from the spec: [base.to_json] is not in this module.  It gives
    the "plain nested mapping representation": lists and dicts element by
    element, a symbolic object as its type-identifier key plus one entry per
    field, a primitive as itself. *)
Definition map_values (f : Any -> Any) (items : list (string * Any))
  : list (string * Any) :=
  map (fun kv => (fst kv, f (snd kv))) items.

Fixpoint to_json (v : Any) : Any :=
  match v with
  | PyList xs => PyList (map to_json xs)
  | PyDict items => PyDict (map_values to_json items)
  | PyObject _ c attrs =>
      PyDict (merge [[(_TYPE_NAME_KEY, PyStr (ref_key c))];
                     map_values to_json attrs])
  | _ => v
  end.

Definition items_to_json (items : list (string * Any)) : list (string * Any) :=
  map_values to_json items.

(* ================================================================== *)
(** * [pg_dict.Dict]: the attribute store                               *)
(* ================================================================== *)

Definition default_value (vs : ValueSpec) : Any :=
  if has_default vs then default vs else MISSING_VALUE.

Fixpoint mapM {A B} (f : A -> exn + B) (l : list A) : exn + list B :=
  match l with
  | [] => inr []
  | a :: l' =>
      match f a with
      | inl e => inl e
      | inr b =>
          match mapM f l' with
          | inl e => inl e
          | inr bs => inr (b :: bs)
          end
      end
  end.

(** Modelled from the spec: [Field.apply] is not in this module.  "Required
    fields must have an assigned value unless the object was explicitly
    constructed as partial"; any other value is validated and coerced by the
    value specification. *)
Definition Field_apply (f : Field) (v : Any) (allow_partial : bool)
  : exn + Any :=
  match v with
  | MISSING_VALUE =>
      if allow_partial then inr MISSING_VALUE
      else inl (ValueError
                  ("Required value is not specified: " ++ KeySpec_str (key f)))
  | _ => apply (value f) v
  end.

Definition is_const_key_of (s : Schema) (k : string) : bool :=
  existsb (fun f => KeySpec_eqb (key f) (ConstStrKey k)) (fields s).

(** Modelled from the spec: [Schema.apply], by which the store validates
    the resolved constructor arguments, is not in this module.  Every
    constant-key field gets an entry, in field order (the given value, else
    the default, else the missing marker); every other given key is
    validated against the field that resolves it. *)
Definition const_entry (dict_obj : list (string * Any)) (allow_partial : bool)
  (f : Field) : exn + (string * Any) :=
  let k := KeySpec_str (key f) in
  let v := match items_get k dict_obj with
           | Some v => v | None => MISSING_VALUE end in
  let v := match v with
           | MISSING_VALUE => default_value (value f) | _ => v end in
  match Field_apply f v allow_partial with
  | inl e => inl e
  | inr v' => inr (k, v')
  end.

Definition dynamic_entry (s : Schema) (allow_partial : bool)
  (kv : string * Any) : exn + (string * Any) :=
  match get_field s (fst kv) with
  | None => inl (KeyError (fst kv))
  | Some f =>
      match Field_apply f (snd kv) allow_partial with
      | inl e => inl e
      | inr v' => inr (fst kv, v')
      end
  end.

Definition Schema_apply (s : Schema) (allow_partial : bool)
  (dict_obj : list (string * Any)) : exn + list (string * Any) :=
  match mapM (const_entry dict_obj allow_partial)
             (filter (fun f => is_const (key f)) (fields s)) with
  | inl e => inl e
  | inr const_items =>
      match mapM (dynamic_entry s allow_partial)
                 (filter (fun kv => negb (is_const_key_of s (fst kv)))
                         dict_obj) with
      | inl e => inl e
      | inr dyn_items => inr (const_items ++ dyn_items)%list
      end
  end.

(** Modelled from the spec: [pg_dict.Dict] is not in this module.  The
    store holds "the realized field values for one object instance", the
    schema they were validated against, "a root path", "a parent
    back-reference" (an address), "a sealed flag" and "an accessor-writable
    flag". *)
Record Dict := {
  dict_items : list (string * Any);
  dict_value_spec : Schema;
  dict_allow_partial : bool;
  dict_sealed : bool;
  dict_accessor_writable : bool;
  dict_root_path : KeyPath;
  dict_parent : option nat
}.

(** Modelled from the spec: the constructor of [pg_dict.Dict] is not in
    this module.  The store is "created at construction time from resolved
    constructor arguments validated against the class schema". *)
Definition Dict_new (dict_obj : list (string * Any)) (value_spec : Schema)
  (allow_partial sealed accessor_writable : bool)
  (root_path : option KeyPath) : exn + Dict :=
  match Schema_apply value_spec allow_partial dict_obj with
  | inl e => inl e
  | inr items =>
      inr {| dict_items := items;
             dict_value_spec := value_spec;
             dict_allow_partial := allow_partial;
             dict_sealed := sealed;
             dict_accessor_writable := accessor_writable;
             dict_root_path := match root_path with
                               | Some p => p | None => [] end;
             dict_parent := None |}
  end.

Definition Dict_with_items (d : Dict) (items : list (string * Any)) : Dict :=
  {| dict_items := items;
     dict_value_spec := dict_value_spec d;
     dict_allow_partial := dict_allow_partial d;
     dict_sealed := dict_sealed d;
     dict_accessor_writable := dict_accessor_writable d;
     dict_root_path := dict_root_path d;
     dict_parent := dict_parent d |}.

(** Modelled from the spec: [Dict.sym_setparent] is not in this module.
    "Set-parent updates the weak parent reference only." *)
Definition Dict_sym_setparent (d : Dict) (parent : option nat) : Dict :=
  {| dict_items := dict_items d;
     dict_value_spec := dict_value_spec d;
     dict_allow_partial := dict_allow_partial d;
     dict_sealed := dict_sealed d;
     dict_accessor_writable := dict_accessor_writable d;
     dict_root_path := dict_root_path d;
     dict_parent := parent |}.

(** Modelled from the spec: [Dict.seal] is not in this module.
    "Seal/unseal toggles the mutation-lock flag, and when sealing,
    recursively seals symbolic descendants".  A symbolic value nested in a
    store is, in this model, its address, its class and its own stored
    values: it carries no flag, so the flag of the store is all that is
    written here, and nothing below speaks of the flags of the
    descendants. *)
Definition Dict_seal (d : Dict) (sealed : bool) : Dict :=
  {| dict_items := dict_items d;
     dict_value_spec := dict_value_spec d;
     dict_allow_partial := dict_allow_partial d;
     dict_sealed := sealed;
     dict_accessor_writable := dict_accessor_writable d;
     dict_root_path := dict_root_path d;
     dict_parent := dict_parent d |}.

(** Modelled from the spec: [Dict.set_accessor_writable] and
    [Dict.sym_setpath] are not in this module; they set the
    accessor-writable flag and the root path. *)
Definition Dict_set_accessor_writable (d : Dict) (writable : bool) : Dict :=
  {| dict_items := dict_items d;
     dict_value_spec := dict_value_spec d;
     dict_allow_partial := dict_allow_partial d;
     dict_sealed := dict_sealed d;
     dict_accessor_writable := writable;
     dict_root_path := dict_root_path d;
     dict_parent := dict_parent d |}.

Definition Dict_sym_setpath (d : Dict) (path : KeyPath) : Dict :=
  {| dict_items := dict_items d;
     dict_value_spec := dict_value_spec d;
     dict_allow_partial := dict_allow_partial d;
     dict_sealed := dict_sealed d;
     dict_accessor_writable := dict_accessor_writable d;
     dict_root_path := path;
     dict_parent := dict_parent d |}.

(** [key in self._sym_attributes]. *)
Definition Dict_contains (d : Dict) (k : string) : bool :=
  items_has k (dict_items d).


(** Modelled from the spec: [Dict.to_json] is not in this module.  The
    serialized store has "one entry per field". *)
Definition Dict_to_json (d : Dict) : list (string * Any) :=
  items_to_json (dict_items d).

(** Modelled from the spec: [base.FieldUpdate] is not in this module.  A
    change record says which path changed, from which value to which. *)
Record FieldUpdate := {
  update_path : KeyPath;
  old_value : Any;
  new_value : Any
}.

(* ================================================================== *)
(** * [base]: structural equality and hashing                           *)
(* ================================================================== *)

Definition list_eqb {A} (eqb : A -> A -> bool) : list A -> list A -> bool :=
  fix go (xs ys : list A) : bool :=
    match xs, ys with
    | [], [] => true
    | x :: xs', y :: ys' => eqb x y && go xs' ys'
    | _, _ => false
    end.

(** [k in ys and eq(x, ys[k])]. *)
Definition has_equal (eqb : Any -> Any -> bool) (k : string) (x : Any)
  : list (string * Any) -> bool :=
  fix go (ys : list (string * Any)) : bool :=
    match ys with
    | [] => false
    | (k', y) :: ys' => if String.eqb k' k then eqb x y else go ys'
    end.

(** [k in xs and eq(xs[k], y)]. *)
Definition equal_to (eqb : Any -> Any -> bool) (k : string)
  : list (string * Any) -> Any -> bool :=
  fix go (xs : list (string * Any)) (y : Any) : bool :=
    match xs with
    | [] => false
    | (k', x) :: xs' => if String.eqb k' k then eqb x y else go xs' y
    end.

(** Two dicts are equal as mappings, whatever the order of their entries:
    every key of either is a key of the other, and the two values under it
    are equal. *)
Definition dict_eqb (eqb : Any -> Any -> bool) (xs ys : list (string * Any))
  : bool :=
  forallb (fun p => has_equal eqb (fst p) (snd p) ys) xs
  && forallb (fun q => equal_to eqb (fst q) xs (snd q)) ys.

(** Modelled from the spec: [base.eq] is not in this module.  It is the
    "recursive element-wise equality" of two values; the leaves are compared
    as Python compares them, lists element by element in their order, dicts
    and attribute stores as mappings, and two symbolic objects met on the
    way are compared as [Object.sym_eq] compares them. *)
Fixpoint base_eq (left right : Any) : bool :=
  match left, right with
  | PyNone, PyNone => true
  | MISSING_VALUE, MISSING_VALUE => true
  | PyBool a, PyBool b => Bool.eqb a b
  | PyInt a, PyInt b => Z.eqb a b
  | PyBool a, PyInt b => Z.eqb (Z.b2z a) b
  | PyInt a, PyBool b => Z.eqb a (Z.b2z b)
  | PyStr a, PyStr b => String.eqb a b
  | PyList xs, PyList ys => list_eqb base_eq xs ys
  | PyDict xs, PyDict ys => dict_eqb base_eq xs ys
  | PyObject a c xs, PyObject b d ys =>
      Nat.eqb a b
      || (Nat.eqb (ref_id c) (ref_id d) && dict_eqb base_eq xs ys)
  | _, _ => false
  end.

(** "Structurally equal (recursive element-wise equality)" as a relation:
    the leaves are equal Python values, lists are equal element by element,
    dicts and stores are equal as mappings (the same keys, in any order,
    with equal values), and two symbolic objects are equal when they have
    the same class and equal stores, or when [same] holds of their
    addresses.  With [same] the identity of addresses this is equality
    "unless reference-identical"; with [same] empty it is structure
    alone. *)
Inductive value_equal (same : nat -> nat -> Prop) : Any -> Any -> Prop :=
| equal_none : value_equal same PyNone PyNone
| equal_missing : value_equal same MISSING_VALUE MISSING_VALUE
| equal_bool b : value_equal same (PyBool b) (PyBool b)
| equal_int z : value_equal same (PyInt z) (PyInt z)
| equal_bool_int b : value_equal same (PyBool b) (PyInt (Z.b2z b))
| equal_int_bool b : value_equal same (PyInt (Z.b2z b)) (PyBool b)
| equal_str s : value_equal same (PyStr s) (PyStr s)
| equal_list xs ys :
    Forall2 (value_equal same) xs ys ->
    value_equal same (PyList xs) (PyList ys)
| equal_dict xs ys :
    Forall (fun p => exists y, items_get (fst p) ys = Some y
                               /\ value_equal same (snd p) y) xs ->
    Forall (fun q => exists x, items_get (fst q) xs = Some x
                               /\ value_equal same x (snd q)) ys ->
    value_equal same (PyDict xs) (PyDict ys)
| equal_same_object a b c d xs ys :
    same a b ->
    value_equal same (PyObject a c xs) (PyObject b d ys)
| equal_object a b c d xs ys :
    ref_id c = ref_id d ->
    Forall (fun p => exists y, items_get (fst p) ys = Some y
                               /\ value_equal same (snd p) y) xs ->
    Forall (fun q => exists x, items_get (fst q) xs = Some x
                               /\ value_equal same x (snd q)) ys ->
    value_equal same (PyObject a c xs) (PyObject b d ys).

(** Two stores are equal as mappings: every key of either is a key of the
    other, and the two values under it are equal. *)
Definition stores_equal (same : nat -> nat -> Prop)
  (xs ys : list (string * Any)) : Prop :=
  Forall (fun p => exists y, items_get (fst p) ys = Some y
                             /\ value_equal same (snd p) y) xs
  /\ Forall (fun q => exists x, items_get (fst q) xs = Some x
                                /\ value_equal same x (snd q)) ys.



Definition reference_identical : nat -> nat -> Prop := @eq nat.

(** A stored value "permits round-tripping" when the field that resolves
    its key accepts the serialized value and gives back a value that is
    structurally equal to the stored one (a nested object is built anew, at
    another address). *)
Definition permits_roundtrip (s : Schema) (items : list (string * Any)) : Prop :=
  forall k v f, In (k, v) items -> get_field s k = Some f ->
                exists v', Field_apply f (to_json v) false = inr v'
                           /\ value_equal reference_identical v v'.

(** [base.eq] on two attribute stores. *)
Definition Dict_eq (a b : Dict) : bool :=
  base_eq (PyDict (dict_items a)) (PyDict (dict_items b)).

Definition entry_hash (h : Any -> Z) (kv : string * Any) : Z :=
  hash_tuple [hash_str (fst kv); h (snd kv)].

(** Modelled from the spec: [base.sym_hash] is not in this module.  It is
    the "structural hash" of a value: built from the hashes of the parts,
    and for a symbolic object from its class and the hash of its store. *)
Fixpoint base_sym_hash (v : Any) : Z :=
  match v with
  | PyNone => hash_none
  | MISSING_VALUE => hash_missing
  | PyBool b => hash_int (Z.b2z b)
  | PyInt z => hash_int z
  | PyStr s => hash_str s
  | PyList xs => hash_tuple (map base_sym_hash xs)
  | PyDict items => hash_tuple (map (entry_hash base_sym_hash) items)
  | PyObject _ c attrs =>
      hash_tuple [hash_type (ref_id c);
                  hash_int (hash_tuple (map (entry_hash base_sym_hash) attrs))]
  end.

(** [base.sym_hash] on an attribute store. *)
Definition Dict_sym_hash (d : Dict) : Z :=
  base_sym_hash (PyDict (dict_items d)).

(* ================================================================== *)
(** * Classes, instances and the state of a call                        *)
(* ================================================================== *)

(** A class derived from [pg.Object]: its identity, its bases (a base
    without a schema, such as a plain mixin, is [None]), the schema and the
    serialization key attached by [__init_subclass__], and the class
    properties declared at the top of [Object]. *)
Inductive Class : Type := Build_Class {
  cls_id : nat;
  __module__ : string;
  __name__ : string;
  __bases__ : list (option Class);
  __schema__ : Schema;
  __serialization_key__ : string;
  auto_register : bool;
  allow_symbolic_attribute : bool;
  allow_symbolic_assignment : bool;
  allow_symbolic_mutation : bool;
  use_symbolic_comparison : bool
}.

(** The properties of [ObjectMeta]. *)
Definition schema (cls : Class) : Schema := __schema__ cls.
Definition sym_fields (cls : Class) : Schema := __schema__ cls.
Definition type_name (cls : Class) : string :=
  __module__ cls ++ "." ++ __name__ cls.
Definition serialization_key (cls : Class) : string :=
  __serialization_key__ cls.
Definition init_arg_list (cls : Class) : list string :=
  init_arg_list_md (schema cls).

Definition class_ref (cls : Class) : ClassRef :=
  {| ref_id := cls_id cls; ref_key := serialization_key cls |}.

(** An instance: its address, its class, the attributes set by
    [base.Symbolic.__init__], the store, and the ordinary instance
    attributes.  [__init__] sets [_sym_attributes] last;
    [has_sym_attributes] says whether it has done so, and until then the
    instance has no such attribute, whatever the record holds there. *)
Record Object := {
  addr : nat;
  __class__ : Class;
  _allow_partial : bool;
  _accessor_writable : bool;
  _sealed : bool;
  _sym_parent : option nat;
  _sym_path : KeyPath;
  has_sym_attributes : bool;
  _sym_attributes : Dict;
  __dict__ : list (string * Any)
}.

(** The event hooks a subclass can override; a call is logged. *)
Inductive event : Type :=
| OnInit (self : nat)
| OnBound (self : nat)
| OnChange (self : nat) (field_updates : list FieldUpdate)
| OnPathChange (self : nat) (old_path new_path : KeyPath)
| OnParentChange (self : nat) (old_parent new_parent : option nat).

(** The state a method runs in: the instance, the hooks fired so far and
    the thread-local scopes ([pg.seal], [pg.allow_writable_accessors]). *)
Record State := {
  st_self : Object;
  st_events : list event;
  sealed_scope : option bool;
  accessor_writable_scope : option bool
}.

Definition M (A : Type) : Type := State -> (exn + A) * State.

Definition ret {A} (a : A) : M A := fun st => (inr a, st).

Definition bind {A B} (m : M A) (k : A -> M B) : M B :=
  fun st =>
    match m st with
    | (inl e, st') => (inl e, st')
    | (inr a, st') => k a st'
    end.

Definition raise {A} (e : exn) : M A := fun st => (inl e, st).

Definition get_self : M Object := fun st => (inr (st_self st), st).

Definition put_self (o : Object) : M unit :=
  fun st => (inr tt, {| st_self := o;
                        st_events := st_events st;
                        sealed_scope := sealed_scope st;
                        accessor_writable_scope :=
                          accessor_writable_scope st |}).

Definition get_state : M State := fun st => (inr st, st).

Definition fire (e : event) : M unit :=
  fun st => (inr tt, {| st_self := st_self st;
                        st_events := (st_events st ++ [e])%list;
                        sealed_scope := sealed_scope st;
                        accessor_writable_scope :=
                          accessor_writable_scope st |}).

Definition lift {A} (r : exn + A) : M A :=
  match r with inl e => raise e | inr a => ret a end.

End WithRuntime.

Notation "x <- m ;; k" := (bind m (fun x => k))
  (at level 61, m at next level, right associativity).
Notation "m ;;; k" := (bind m (fun _ => k))
  (at level 61, right associativity).

Section ObjectModule.
Context {RT : Runtime}.

(* ================================================================== *)
(** * [base.Symbolic]: what the base class keeps                        *)
(* ================================================================== *)

(** The instance with [d] as its [_sym_attributes]. *)
Definition with_sym_attributes (o : Object) (d : Dict) : Object :=
  {| addr := addr o; __class__ := __class__ o;
     _allow_partial := _allow_partial o;
     _accessor_writable := _accessor_writable o;
     _sealed := _sealed o; _sym_parent := _sym_parent o;
     _sym_path := _sym_path o;
     has_sym_attributes := true; _sym_attributes := d;
     __dict__ := __dict__ o |}.

Definition with_sealed (o : Object) (sealed : bool) : Object :=
  {| addr := addr o; __class__ := __class__ o;
     _allow_partial := _allow_partial o;
     _accessor_writable := _accessor_writable o;
     _sealed := sealed; _sym_parent := _sym_parent o;
     _sym_path := _sym_path o;
     has_sym_attributes := has_sym_attributes o;
     _sym_attributes := _sym_attributes o;
     __dict__ := __dict__ o |}.

Definition with_accessor_writable (o : Object) (writable : bool) : Object :=
  {| addr := addr o; __class__ := __class__ o;
     _allow_partial := _allow_partial o;
     _accessor_writable := writable;
     _sealed := _sealed o; _sym_parent := _sym_parent o;
     _sym_path := _sym_path o;
     has_sym_attributes := has_sym_attributes o;
     _sym_attributes := _sym_attributes o;
     __dict__ := __dict__ o |}.

Definition with_sym_parent (o : Object) (parent : option nat) : Object :=
  {| addr := addr o; __class__ := __class__ o;
     _allow_partial := _allow_partial o;
     _accessor_writable := _accessor_writable o;
     _sealed := _sealed o; _sym_parent := parent;
     _sym_path := _sym_path o;
     has_sym_attributes := has_sym_attributes o;
     _sym_attributes := _sym_attributes o;
     __dict__ := __dict__ o |}.

Definition with_dict (o : Object) (d : list (string * Any)) : Object :=
  {| addr := addr o; __class__ := __class__ o;
     _allow_partial := _allow_partial o;
     _accessor_writable := _accessor_writable o;
     _sealed := _sealed o; _sym_parent := _sym_parent o;
     _sym_path := _sym_path o;
     has_sym_attributes := has_sym_attributes o;
     _sym_attributes := _sym_attributes o;
     __dict__ := d |}.

(** Modelled from the spec: [base.treats_as_sealed] is not in this module.
    The sealed flag "disallows mutation when true, except under an explicit
    override": the scope of [pg.seal], when one is open, decides. *)
Definition treats_as_sealed (st : State) (sealed : bool) : bool :=
  match sealed_scope st with Some b => b | None => sealed end.

(** Modelled from the spec: [base.writtable_via_accessors] is not in this
    module.  The accessor-writable flag "disallows attribute-style
    assignment when false, independent of seal", unless a scope overrides
    it. *)
Definition writtable_via_accessors (st : State) (writable : bool) : bool :=
  match accessor_writable_scope st with Some b => b | None => writable end.

(** Modelled from the spec: [base.accepts_partial] is not in this module.
    An object accepts unset required fields when it "was explicitly
    constructed as partial". *)
Definition accepts_partial (o : Object) : bool := _allow_partial o.

(** Modelled from the spec: [base.Symbolic.__init__] is not in this module.
    It records the flags and the root path; a new object has no parent. *)
Definition Symbolic__init__ (allow_partial accessor_writable sealed : bool)
  (root_path : option KeyPath) (init_super : bool) : M unit :=
  self <- get_self ;;
  put_self {| addr := addr self; __class__ := __class__ self;
              _allow_partial := allow_partial;
              _accessor_writable := accessor_writable;
              _sealed := sealed; _sym_parent := None;
              _sym_path := match root_path with Some p => p | None => [] end;
              has_sym_attributes := has_sym_attributes self;
              _sym_attributes := _sym_attributes self;
              __dict__ := __dict__ self |}.

(** Modelled from the spec: the property [base.Symbolic.sym_parent] is not
    in this module; it reads the parent back-reference. *)
Definition sym_parent (o : Object) : option nat := _sym_parent o.

(** Modelled from the spec: [base.Symbolic.sym_setparent] "updates the weak
    parent reference only". *)
Definition Symbolic_sym_setparent (parent : option nat) : M unit :=
  self <- get_self ;; put_self (with_sym_parent self parent).

(** Modelled from the spec: [base.Symbolic.seal] "toggles the mutation-lock
    flag". *)
Definition Symbolic_seal (sealed : bool) : M unit :=
  self <- get_self ;; put_self (with_sealed self sealed).

(** Modelled from the spec: [base.Symbolic.set_accessor_writable] is not
    in this module; it sets the accessor-writable flag. *)
Definition Symbolic_set_accessor_writable (writable : bool) : M unit :=
  self <- get_self ;; put_self (with_accessor_writable self writable).

(** [self.<name>] for a property that [Object] declares as a plain class
    attribute: an instance attribute of that name, if the instance has one,
    shadows the attribute of the class, and the tests below read its truth
    value. *)
Definition getattr_flag (self : Object) (name : string) (of_class : bool)
  : bool :=
  match items_get name (__dict__ self) with
  | Some v => truthy v
  | None => of_class
  end.

(** [self.allow_symbolic_attribute] and [self.use_symbolic_comparison]. *)
Definition self_allow_symbolic_attribute (self : Object) : bool :=
  getattr_flag self "allow_symbolic_attribute"
               (allow_symbolic_attribute (__class__ self)).

Definition self_use_symbolic_comparison (self : Object) : bool :=
  getattr_flag self "use_symbolic_comparison"
               (use_symbolic_comparison (__class__ self)).

(** [self._sym_attributes].  On an instance whose [__init__] has not set
    the store the regular lookup fails; [Object.__getattribute__] then
    re-raises its [AttributeError] when symbolic attributes are off, and
    otherwise asks [sym_hasattr('_sym_attributes')], which raises the
    [ValueError]. *)
Definition self_sym_attributes (self : Object) : exn + Dict :=
  if has_sym_attributes self then inr (_sym_attributes self)
  else if negb (self_allow_symbolic_attribute self) then
    inl (AttributeError
           ("'" ++ __name__ (__class__ self)
            ++ "' object has no attribute '_sym_attributes'"))
  else
    inl (ValueError (__name__ (__class__ self)
                     ++ ".__init__ should call `super().__init__`.")).

(** [self._error_message], of [base.Symbolic]: the message with the path
    of the object, as the runtime renders it. *)
Definition _error_message (self : Object) (message : string) : string :=
  message_on_path message (_sym_path self).

(** Modelled from the spec: [Dict.__setitem__] is not in this module.
    "Write by key validates against the owning Field's value spec, coerces
    per the spec's conversion rules" and fails with the validation error on
    mismatch; a sealed store refuses the write.  The change record is
    [None] when the stored value did not change. *)
Definition Dict_setitem (st : State) (d : Dict) (k : string) (v : Any)
  : exn + (Dict * option FieldUpdate) :=
  if treats_as_sealed st (dict_sealed d) then
    inl (WritePermissionError "Cannot modify field of a sealed Dict.")
  else
    match get_field (dict_value_spec d) k with
    | None => inl (KeyError k)
    | Some f =>
        match Field_apply f v (dict_allow_partial d) with
        | inl e => inl e
        | inr v' =>
            let old := match items_get k (dict_items d) with
                       | Some x => x | None => MISSING_VALUE end in
            inr (Dict_with_items d (items_set k v' (dict_items d)),
                 if base_eq old v' then None
                 else Some {| update_path := [k];
                              old_value := old; new_value := v' |})
        end
    end.

(** Modelled from the spec: [Dict._sym_rebind] is not in this module.  It
    "validates every entry before committing any", then commits and returns
    the entries that changed.  A path of one segment names a field of this
    store; a longer path leads into a nested container, whose own store is
    not part of this model. *)
Definition Dict_sym_rebind (d : Dict) (path_value_pairs : list (KeyPath * Any))
  : exn + (Dict * list FieldUpdate) :=
  match
    mapM (fun pv =>
            match fst pv with
            | [k] =>
                match get_field (dict_value_spec d) k with
                | None => inl (KeyError k)
                | Some f =>
                    match Field_apply f (snd pv) (dict_allow_partial d) with
                    | inl e => inl e
                    | inr v' => inr (k, v')
                    end
                end
            | _ => inl (KeyError (String.concat "." (fst pv)))
            end) path_value_pairs
  with
  | inl e => inl e
  | inr validated =>
      inr (Dict_with_items d
             (fold_left (fun acc kv => items_set (fst kv) (snd kv) acc)
                        validated (dict_items d)),
           flat_map
             (fun kv =>
                let old := match items_get (fst kv) (dict_items d) with
                           | Some x => x | None => MISSING_VALUE end in
                if base_eq old (snd kv) then []
                else [{| update_path := [fst kv];
                         old_value := old; new_value := snd kv |}])
             validated)
  end.

(* ================================================================== *)
(** * [schema_utils] and [pg_typing.create_schema]                      *)
(* ================================================================== *)

(** Modelled from the spec: [Schema.extend] is not in this module.  A field
    merged into a schema that already holds its key "narrows/overrides" that
    field in place, after the compatibility check; a field with a new key is
    appended. *)
Fixpoint add_field (acc : list Field) (f : Field) : exn + list Field :=
  match acc with
  | [] => inr [f]
  | g :: acc' =>
      if KeySpec_eqb (key g) (key f) then
        match Field_extend f g with
        | inl e => inl e
        | inr fg => inr (fg :: acc')
        end
      else
        match add_field acc' f with
        | inl e => inl e
        | inr r => inr (g :: r)
        end
  end.

Fixpoint add_fields (acc fs : list Field) : exn + list Field :=
  match fs with
  | [] => inr acc
  | f :: fs' =>
      match add_field acc f with
      | inl e => inl e
      | inr acc' => add_fields acc' fs'
      end
  end.

Fixpoint has_duplicate_key (fs : list Field) : bool :=
  match fs with
  | [] => false
  | f :: fs' =>
      existsb (fun g => KeySpec_eqb (key g) (key f)) fs'
      || has_duplicate_key fs'
  end.

(** Modelled from the spec: [pg_typing.create_schema] is not in this module.
    The merged schema holds "all base-class fields (iterating bases in
    declaration order, each base's own field order) followed by newly
    declared fields"; "a duplicate key across a single class's own
    declaration list is always an error". *)
Definition create_schema (maybe_field_list : list Field) (name : string)
  (base_schema_list : list Schema) : exn + Schema :=
  if has_duplicate_key maybe_field_list then
    inl (KeyError "Key is already defined in the field list.")
  else
    match add_fields [] (flat_map fields base_schema_list) with
    | inl e => inl e
    | inr inherited =>
        match add_fields inherited maybe_field_list with
        | inl e => inl e
        | inr all =>
            inr {| name := name; fields := all; init_arg_list_md := [] |}
        end
    end.

(** Modelled from the spec: [schema_utils.auto_init_arg_list] is not in this
    module.  "The constructor positional-argument list is derived from the
    final field order": the constant keys, in field order. *)
Definition auto_init_arg_list (cls : Class) : list string :=
  map (fun f => KeySpec_str (key f))
      (filter (fun f => is_const (key f)) (fields (schema cls))).

(** [setattr(cls, '__schema__', ...)] and
    [setattr(cls, '__serialization_key__', ...)]. *)
Definition with_schema (cls : Class) (s : Schema) (skey : string) : Class :=
  {| cls_id := cls_id cls; __module__ := __module__ cls;
     __name__ := __name__ cls; __bases__ := __bases__ cls;
     __schema__ := s;
     __serialization_key__ := skey;
     auto_register := auto_register cls;
     allow_symbolic_attribute := allow_symbolic_attribute cls;
     allow_symbolic_assignment := allow_symbolic_assignment cls;
     allow_symbolic_mutation := allow_symbolic_mutation cls;
     use_symbolic_comparison := use_symbolic_comparison cls |}.

(** [cls.schema.metadata['init_arg_list'] = ...]. *)
Definition with_init_arg_list (cls : Class) (init_args : list string) : Class :=
  with_schema cls
    {| name := name (schema cls); fields := fields (schema cls);
       init_arg_list_md := init_args |}
    (serialization_key cls).

(** The fields the bases hand down: every base that has a schema, in the
    order of the bases, each with its fields in their order. *)
Definition inherited_fields (cls : Class) : list Field :=
  flat_map (fun base_cls => match base_cls with
                            | Some b => fields (schema b)
                            | None => []
                            end) (__bases__ cls).

(** [Object.__init_subclass__]: the schemas of the bases that have one, in
    the order of the bases, and no field of the class's own yet.  The
    registration for deserialization and the generated [__init__]
    signature and properties leave the schema as it is. *)
Definition __init_subclass__ (cls : Class) : exn + Class :=
  let base_schema_list :=
    flat_map (fun base_cls => match base_cls with
                              | Some b => [schema b]
                              | None => []
                              end) (__bases__ cls) in
  match create_schema [] (type_name cls) base_schema_list with
  | inl e => inl e
  | inr cls_schema =>
      let cls := with_schema cls cls_schema (type_name cls) in
      inr (with_init_arg_list cls (auto_init_arg_list cls))
  end.

(** [members]: the decorator hands the declared fields to
    [schema_utils.update_schema].

    Modelled from the spec: [update_schema] is not in this module.  The
    class's own declared fields are merged with the schema the class
    inherited; the constructor argument list is the explicit one if given;
    the serialization key is the override if given. *)
Definition members (fields : list Field) (init_arg_list : option (list string))
  (serialization_key : option string) (cls : Class) : exn + Class :=
  match create_schema fields (type_name cls) [schema cls] with
  | inl e => inl e
  | inr cls_schema =>
      let cls := with_schema cls cls_schema
                   (match serialization_key with
                    | Some k => k
                    | None => type_name cls
                    end) in
      inr (with_init_arg_list cls
             (match init_arg_list with
              | Some l => l
              | None => auto_init_arg_list cls
              end))
  end.

(* ================================================================== *)
(** * [Object]                                                          *)
(* ================================================================== *)

(** ** Events that subclasses can override *)

Definition _on_bound : M unit :=
  self <- get_self ;; fire (OnBound (addr self)).

Definition _on_init : M unit :=
  self <- get_self ;; fire (OnInit (addr self)) ;;; _on_bound.

Definition _on_change (field_updates : list FieldUpdate) : M unit :=
  self <- get_self ;; fire (OnChange (addr self) field_updates) ;;; _on_bound.

Definition _on_path_change (old_path new_path : KeyPath) : M unit :=
  self <- get_self ;; fire (OnPathChange (addr self) old_path new_path).

Definition _on_parent_change (old_parent new_parent : option nat) : M unit :=
  self <- get_self ;; fire (OnParentChange (addr self) old_parent new_parent).

(** ** Sealing *)

Definition seal (sealed : bool) : M unit :=
  self <- get_self ;;
  d <- lift (self_sym_attributes self) ;;
  put_self (with_sym_attributes self (Dict_seal d sealed)) ;;;
  Symbolic_seal sealed.

Definition set_accessor_writable (writable : bool) : M unit :=
  self <- get_self ;;
  d <- lift (self_sym_attributes self) ;;
  put_self (with_sym_attributes self (Dict_set_accessor_writable d writable))
  ;;; Symbolic_set_accessor_writable writable.

(** ** [__init__] *)

Definition str_tail (s : string) : string :=
  match s with EmptyString => EmptyString | String _ r => r end.

(** The part of [__init__] that fills [field_args] from [*args]. *)
Definition _init_positional (cls : Class) (args : list Any)
  : exn + list (string * Any) :=
  let init_arg_names := init_arg_list cls in
  if is_nil args then inr []
  else
    match
      (if is_nil (fields (schema cls)) then
         inl (TypeError (__name__ cls ++ "() takes no arguments."))
       else if negb (is_nil init_arg_names)
               && startswith (last init_arg_names "") "*" then
         let vararg_name := str_tail (last init_arg_names "") in
         match get_field (schema cls) vararg_name with
         | None => inl AssertionError
         | Some vararg_field =>
             let num_named_args := List.length init_arg_names - 1 in
             inr ([(vararg_name, PyList (skipn num_named_args args))],
                  firstn num_named_args args)
         end
       else if Nat.ltb (List.length init_arg_names) (List.length args) then
         let arg_phrase :=
           auto_plural (List.length init_arg_names) "argument" None in
         let was_phrase := auto_plural (List.length args) "was" (Some "were") in
         inl (TypeError
                (__name__ cls ++ ".__init__() takes "
                 ++ str_of_nat (List.length init_arg_names) ++ " positional "
                 ++ arg_phrase ++ " but " ++ str_of_nat (List.length args) ++ " "
                 ++ was_phrase ++ " given."))
       else inr ([], args))
    with
    | inl e => inl e
    | inr (field_args, args) =>
        inr (fold_left (fun field_args nv => items_set (fst nv) (snd nv) field_args)
                       (combine init_arg_names args) field_args)
    end.

(** The part of [__init__] that adds [**kwargs] to [field_args]. *)
Fixpoint _init_keywords (cls : Class) (kwargs field_args : list (string * Any))
  : exn + list (string * Any) :=
  match kwargs with
  | [] => inr field_args
  | (k, v) :: kwargs' =>
      match items_get k field_args with
      | Some v0 =>
          let values_str := comma_delimited_str [v0; v] in
          inl (TypeError
                 (__name__ cls ++ ".__init__() got multiple values for "
                  ++ "argument '" ++ k ++ "': " ++ values_str ++ "."))
      | None => _init_keywords cls kwargs' (items_set k v field_args)
      end
  end.

(** The required arguments that [field_args] leaves unbound. *)
Definition _init_missing_args (cls : Class) (field_args : list (string * Any))
  : list string :=
  map (fun field => KeySpec_str (key field))
      (filter (fun field =>
                 negb (has_default (value field))
                 && is_const (key field)
                 && negb (items_has (KeySpec_str (key field)) field_args))
              (fields (schema cls))).

Definition __init__ (args : list Any) (allow_partial : Any)
  (sealed : option bool) (root_path : option KeyPath) (explicit_init : bool)
  (kwargs : list (string * Any)) : M unit :=
  self <- get_self ;;
  let cls := __class__ self in
  let sealed := match sealed with
                | None => negb (allow_symbolic_mutation cls)
                | Some b => b
                end in
  match allow_partial with
  | PyBool allow_partial =>
      Symbolic__init__ allow_partial (allow_symbolic_assignment cls) sealed
                       root_path (negb explicit_init) ;;;
      let unmatched_keys := snd (resolve (schema cls) (keys kwargs)) in
      if negb (is_nil unmatched_keys) then
        let arg_phrase := auto_plural (List.length unmatched_keys) "argument" None in
        let keys_str := comma_delimited_str (map PyStr unmatched_keys) in
        raise (TypeError
                 (__name__ cls ++ ".__init__() got unexpected keyword "
                  ++ arg_phrase ++ ": " ++ keys_str))
      else
        field_args <- lift (_init_positional cls args) ;;
        field_args <- lift (_init_keywords cls kwargs field_args) ;;
        self <- get_self ;;
        let missing_args :=
          if negb (accepts_partial self)
          then _init_missing_args cls field_args else [] in
        if negb (is_nil missing_args) then
          let arg_phrase := auto_plural (List.length missing_args) "argument" None in
          let keys_str := comma_delimited_str (map PyStr missing_args) in
          raise (TypeError
                   (__name__ cls ++ ".__init__() missing "
                    ++ str_of_nat (List.length missing_args) ++ " required "
                    ++ arg_phrase ++ ": " ++ keys_str ++ "."))
        else
          d <- lift (Dict_new field_args (sym_fields cls) allow_partial sealed
                              (allow_symbolic_assignment cls) root_path) ;;
          self <- get_self ;;
          put_self (with_sym_attributes self
                      (Dict_sym_setparent d (Some (addr self)))) ;;;
          _on_init ;;;
          seal sealed
  | _ =>
      raise (TypeError
               ("Expect bool type for argument 'allow_partial' in "
                ++ "symbolic.Object.__init__ but encountered "
                ++ format_str allow_partial ++ "."))
  end.

(** A fresh instance, as [object.__new__] leaves it: it has no store
    yet. *)
Definition blank (cls : Class) (a : nat) : Object :=
  {| addr := a; __class__ := cls;
     _allow_partial := false; _accessor_writable := false;
     _sealed := false; _sym_parent := None; _sym_path := [];
     has_sym_attributes := false;
     _sym_attributes :=
       {| dict_items := []; dict_value_spec := sym_fields cls;
          dict_allow_partial := false; dict_sealed := false;
          dict_accessor_writable := false; dict_root_path := [];
          dict_parent := None |};
     __dict__ := [] |}.

(** The instance a successful call returns. *)
Definition initialized (cls : Class) (a : nat) (allow_partial sealed : bool)
  (root_path : option KeyPath) (items : list (string * Any)) : Object :=
  {| addr := a; __class__ := cls;
     _allow_partial := allow_partial;
     _accessor_writable := allow_symbolic_assignment cls;
     _sealed := sealed; _sym_parent := None;
     _sym_path := match root_path with Some p => p | None => [] end;
     has_sym_attributes := true;
     _sym_attributes :=
       {| dict_items := items; dict_value_spec := schema cls;
          dict_allow_partial := allow_partial; dict_sealed := sealed;
          dict_accessor_writable := allow_symbolic_assignment cls;
          dict_root_path := match root_path with Some p => p | None => [] end;
          dict_parent := Some a |};
     __dict__ := [] |}.

(** The instance a call that raises after [base.Symbolic.__init__] leaves
    behind: the flags are set, the store is not built. *)
Definition entered (cls : Class) (a : nat) (allow_partial sealed : bool)
  (root_path : option KeyPath) : Object :=
  {| addr := a; __class__ := cls;
     _allow_partial := allow_partial;
     _accessor_writable := allow_symbolic_assignment cls;
     _sealed := sealed; _sym_parent := None;
     _sym_path := match root_path with Some p => p | None => [] end;
     has_sym_attributes := false;
     _sym_attributes := _sym_attributes (blank cls a);
     __dict__ := [] |}.

Definition sealed_or_default (cls : Class) (sealed : option bool) : bool :=
  match sealed with
  | None => negb (allow_symbolic_mutation cls)
  | Some b => b
  end.

(** The call of the class with positional arguments, the four named
    parameters of [__init__] and keyword arguments: a fresh instance at
    address [a] is initialized and returned. *)
Definition construct (cls : Class) (a : nat) (args : list Any)
  (allow_partial : Any) (sealed : option bool) (root_path : option KeyPath)
  (explicit_init : bool) (kwargs : list (string * Any)) : M Object :=
  fun st =>
    let st0 := {| st_self := blank cls a;
                  st_events := st_events st;
                  sealed_scope := sealed_scope st;
                  accessor_writable_scope := accessor_writable_scope st |} in
    match __init__ args allow_partial sealed root_path explicit_init kwargs st0
    with
    | (inl e, st1) => (inl e, st1)
    | (inr _, st1) => (inr (st_self st1), st1)
    end.


(** The named parameters of [__init__]: a keyword of one of these names
    binds the parameter, not a field. *)
Definition reserved_names : list string :=
  ["allow_partial"; "root_path"; "sealed"; "explicit_init"].

(** [Object.from_json]: the entries of [json_value] are passed as keyword
    arguments next to [allow_partial] and [root_path].  An entry named as
    one of these two is a repeated keyword, which the interpreter refuses;
    an entry named [sealed] or [explicit_init] binds that parameter of
    [__init__] and not a field. *)
Definition from_json (cls : Class) (a : nat) (json_value : list (string * Any))
  (allow_partial : Any) (root_path : option KeyPath) : M Object :=
  if items_has "allow_partial" json_value then
    raise (TypeError (__name__ cls ++ ".__init__() got multiple values for "
                      ++ "keyword argument 'allow_partial'"))
  else if items_has "root_path" json_value then
    raise (TypeError (__name__ cls ++ ".__init__() got multiple values for "
                      ++ "keyword argument 'root_path'"))
  else
    construct cls a [] allow_partial
      (match items_get "sealed" json_value with
       | None | Some PyNone => None
       | Some v => Some (truthy v)
       end)
      root_path
      (match items_get "explicit_init" json_value with
       | None => false
       | Some v => truthy v
       end)
      (items_del "explicit_init" (items_del "sealed" json_value)).

(** ** Symbolic attributes *)

Definition sym_init_args (self : Object) : exn + Dict :=
  self_sym_attributes self.

Definition sym_hasattr (self : Object) (key : Any) : exn + bool :=
  if base_eq key (PyStr "_sym_attributes") then
    inl (ValueError (__name__ (__class__ self)
                     ++ ".__init__ should call `super().__init__`."))
  else
    match key with
    | PyStr key =>
        if negb (startswith key "_") then
          match self_sym_attributes self with
          | inl e => inl e
          | inr d => inr (Dict_contains d key)
          end
        else inr false
    | _ => inr false
    end.

(** The instance as a value, as other objects refer to it. *)
Definition as_value (o : Object) : Any :=
  PyObject (addr o) (class_ref (__class__ o)) (dict_items (_sym_attributes o)).

(** [self is other]. *)
Definition is_ (self : Object) (other : Any) : bool :=
  match other with
  | PyObject b _ _ => Nat.eqb (addr self) b
  | _ => false
  end.

(** [type(self) is type(other)]. *)
Definition type_is (self : Object) (other : Any) : bool :=
  match other with
  | PyObject _ d _ => Nat.eqb (cls_id (__class__ self)) (ref_id d)
  | _ => false
  end.

Definition sym_eq (self : Object) (other : Any) : bool :=
  is_ self other
  || (type_is self other
      && match other with
         | PyObject _ _ other_attributes =>
             base_eq (PyDict (dict_items (_sym_attributes self)))
                     (PyDict other_attributes)
         | _ => false
         end).

Definition sym_hash (self : Object) : Z :=
  hash_tuple [hash_type (cls_id (__class__ self));
              hash_int (Dict_sym_hash (_sym_attributes self))].

Definition option_nat_eqb (a b : option nat) : bool :=
  match a, b with
  | None, None => true
  | Some x, Some y => Nat.eqb x y
  | _, _ => false
  end.

Definition sym_setparent (parent : option nat) : M unit :=
  self <- get_self ;;
  let old_parent := sym_parent self in
  Symbolic_sym_setparent parent ;;;
  if negb (option_nat_eqb old_parent parent)
  then _on_parent_change old_parent parent
  else ret tt.

Definition _sym_getattr (self : Object) (key : string) : exn + Any :=
  match self_sym_attributes self with
  | inl e => inl e
  | inr d =>
      match items_get key (dict_items d) with
      | Some v => inr v
      | None => inl (KeyError key)
      end
  end.

(** The value the store holds under [name], the missing marker if it holds
    none. *)
Definition stored (self : Object) (name : string) : Any :=
  match items_get name (dict_items (_sym_attributes self)) with
  | Some x => x
  | None => MISSING_VALUE
  end.

Definition _sym_rebind (path_value_pairs : list (KeyPath * Any))
  : M (list FieldUpdate) :=
  self <- get_self ;;
  st <- get_state ;;
  if treats_as_sealed st (_sealed self) then
    raise (WritePermissionError
             ("Cannot rebind a sealed " ++ __name__ (__class__ self) ++ "."))
  else
    d <- lift (self_sym_attributes self) ;;
    r <- lift (Dict_sym_rebind d path_value_pairs) ;;
    put_self (with_sym_attributes self (fst r)) ;;;
    ret (snd r).


(** [Object.__setattr__].  [object__setattr__] is [super().__setattr__],
    the assignment of the interpreter: it gives the instance with the
    attribute set, or raises (as it does for a property without setter). *)
Definition __setattr__
  (object__setattr__ : Object -> string -> Any -> exn + Object)
  (name : string) (v : Any) : M unit :=
  self <- get_self ;;
  let cls := __class__ self in
  if negb (self_allow_symbolic_attribute self)
     || negb (is_some (get_field (schema cls) name))
     || startswith name "_"
  then
    self' <- lift (object__setattr__ self name v) ;;
    put_self self'
  else
    st <- get_state ;;
    if treats_as_sealed st (_sealed self) then
      raise (WritePermissionError
               (_error_message self
                  ("Cannot set attribute " ++ quote_str (PyStr name)
                   ++ ": object is sealed.")))
    else if negb (writtable_via_accessors st (_accessor_writable self)) then
      raise (WritePermissionError
               (_error_message self
                  ("Cannot set attribute of <class " ++ __name__ cls ++ "> "
                   ++ "while `" ++ __name__ cls
                   ++ ".allow_symbolic_assignment` "
                   ++ "is set to False or under `pg.as_sealed` context.")))
    else
      d <- lift (self_sym_attributes self) ;;
      r <- lift (Dict_setitem st d name v) ;;
      put_self (with_sym_attributes self (fst r)) ;;;
      match snd r with
      | Some update => _on_change [update]
      | None => ret tt
      end.

(** ** Comparison and hashing.  [None] stands for [NotImplemented]. *)

Definition __eq__ (self : Object) (other : Any) : option bool :=
  if self_use_symbolic_comparison self then Some (sym_eq self other)
  else if is_ self other then Some true else None.

Definition __ne__ (self : Object) (other : Any) : option bool :=
  match __eq__ self other with
  | None => None
  | Some r => Some (negb r)
  end.

Definition __hash__ (self : Object) : Z :=
  if self_use_symbolic_comparison self then sym_hash self
  else hash_id (addr self).

(** ** Serialization *)

Definition sym_jsonify (self : Object) : list (string * Any) :=
  merge [[(_TYPE_NAME_KEY, PyStr (serialization_key (__class__ self)))];
         Dict_to_json (_sym_attributes self)].

(** ** Paths and attribute lookup *)

Definition _update_children_paths (old_path new_path : KeyPath) : M unit :=
  self <- get_self ;;
  d <- lift (self_sym_attributes self) ;;
  put_self (with_sym_attributes self (Dict_sym_setpath d new_path)) ;;;
  _on_path_change old_path new_path.

(** [Object.__getattribute__].  [object__getattribute__] is the regular
    lookup, [super().__getattribute__]: instance attributes, properties and
    methods.  Only its [AttributeError] is caught;
    [self.allow_symbolic_attribute] is tested before [sym_hasattr] is
    called. *)
Definition __getattribute__
  (object__getattribute__ : Object -> string -> exn + Any)
  (self : Object) (name : string) : exn + Any :=
  match object__getattribute__ self name with
  | inl (AttributeError error) =>
      if negb (self_allow_symbolic_attribute self) then
        inl (AttributeError error)
      else
        match sym_hasattr self (PyStr name) with
        | inl e => inl e
        | inr false => inl (AttributeError error)
        | inr true => _sym_getattr self name
        end
  | r => r
  end.

(** ** What an instance keeps in step with its store *)

(** [__init__] has set the store, the object and its store carry the same
    flags, the store is validated against the schema of the class, and the
    parent of the store is the object. *)
Definition in_step (o : Object) : Prop :=
  has_sym_attributes o = true
  /\ dict_sealed (_sym_attributes o) = _sealed o
  /\ dict_accessor_writable (_sym_attributes o) = _accessor_writable o
  /\ dict_allow_partial (_sym_attributes o) = _allow_partial o
  /\ dict_value_spec (_sym_attributes o) = schema (__class__ o)
  /\ dict_parent (_sym_attributes o) = Some (addr o).

End ObjectModule.

(* ================================================================== *)
(** * A concrete runtime and the classes of the scenarios               *)
(* ================================================================== *)

Definition str_of_Z (z : Z) : string :=
  NilEmpty.string_of_int (Z.to_int z).

(** A runtime to evaluate the scenarios with: strings are quoted, integers
    are printed in decimal, a pattern matches everything when it is [.*],
    a field that overrides another accepts what both accept and takes the
    inherited default when it has none of its own (as in the docstring of
    [Object], where [Int(max_value=10)] overridden by
    [Int(min_value=1, default=1)] gives [Int(min_value=1, max_value=10,
    default=1)]), and the hashes combine by a polynomial. *)
Definition scenario_runtime : Runtime :=
  {| quote_str := fun v =>
       match v with
       | PyStr s => "'" ++ s ++ "'"
       | PyInt z => str_of_Z z
       | PyBool true => "True"
       | PyBool false => "False"
       | PyNone => "None"
       | MISSING_VALUE => "MISSING_VALUE"
       | PyList _ => "[...]"
       | PyDict _ => "{...}"
       | PyObject _ c _ => ref_key c ++ "(...)"
       end;
     format_str := fun v =>
       match v with
       | PyStr s => s
       | PyInt z => str_of_Z z
       | PyBool true => "True"
       | PyBool false => "False"
       | PyNone => "None"
       | MISSING_VALUE => "MISSING_VALUE"
       | PyList _ => "[...]"
       | PyDict _ => "{...}"
       | PyObject _ c _ => ref_key c ++ "(...)"
       end;
     message_on_path := fun message path =>
       message ++ " (path=" ++ String.concat "." path ++ ")";
     regex_match := fun r s => String.eqb r ".*" || String.eqb r s;
     Field_extend := fun child parent =>
       inr {| key := key child;
              value :=
                {| has_default :=
                     has_default (value child) || has_default (value parent);
                   default :=
                     if has_default (value child) then default (value child)
                     else default (value parent);
                   apply := fun v =>
                     match apply (value parent) v with
                     | inl e => inl e
                     | inr v' => apply (value child) v'
                     end |};
              description := description child |};
     hash_none := 0%Z;
     hash_missing := 1%Z;
     hash_int := fun z => z;
     hash_str := fun s => Z.of_nat (String.length s);
     hash_tuple := fun xs => fold_left (fun h x => (31 * h + x)%Z) xs 7%Z;
     hash_type := fun n => Z.of_nat n;
     hash_id := fun n => Z.of_nat n |}.

Section Scenarios.
#[local] Existing Instance scenario_runtime.

(** [pg.typing.Int(min_value=..., max_value=..., default=...)],
    [pg.typing.Str()], [pg.typing.List(Int())] and [pg.typing.Object(cls)],
    as far as the scenarios use them. *)
Definition typing_Int (min_value max_value default : option Z) : ValueSpec :=
  {| has_default := is_some default;
     default := match default with Some z => PyInt z | None => MISSING_VALUE end;
     apply := fun v =>
       match v with
       | PyInt z =>
           if match min_value with Some m => Z.leb m z | None => true end
              && match max_value with Some m => Z.leb z m | None => true end
           then inr v
           else inl (ValueError "Value is out of range.")
       | _ => inl (TypeError "Expect <class 'int'>.")
       end |}.

Definition typing_Str : ValueSpec :=
  {| has_default := false;
     default := MISSING_VALUE;
     apply := fun v => match v with
                       | PyStr _ => inr v
                       | _ => inl (TypeError "Expect <class 'str'>.")
                       end |}.


(** [pg.typing.Object(cls)] accepts an instance of the class, and the
    serialized form of one, a mapping whose type-identifier entry names the
    class: the object is then built anew from the other entries (at the
    address [fresh]). *)
Definition typing_Object (cls : ClassRef) (fresh : nat) : ValueSpec :=
  {| has_default := false;
     default := MISSING_VALUE;
     apply := fun v =>
       match v with
       | PyObject _ c _ =>
           if Nat.eqb (ref_id c) (ref_id cls) then inr v
           else inl (TypeError "Expect an instance of the class.")
       | PyDict items =>
           match items_get _TYPE_NAME_KEY items with
           | Some (PyStr k) =>
               if String.eqb k (ref_key cls)
               then inr (PyObject fresh cls (items_del _TYPE_NAME_KEY items))
               else inl (TypeError "Expect an instance of the class.")
           | _ => inl (TypeError "Expect an instance of the class.")
           end
       | _ => inl (TypeError "Expect an instance of the class.")
       end |}.

(** A class statement under [pg.Object]: the class properties have the
    values [Object] gives them. *)
Definition class_statement (id : nat) (module_name class_name : string)
  (bases : list (option Class)) : Class :=
  {| cls_id := id; __module__ := module_name; __name__ := class_name;
     __bases__ := bases;
     __schema__ := {| name := ""; fields := [];
                      init_arg_list_md := [] |};
     __serialization_key__ := "";
     auto_register := true;
     allow_symbolic_attribute := true;
     allow_symbolic_assignment := false;
     allow_symbolic_mutation := true;
     use_symbolic_comparison := true |}.

(** The class statement followed by the [members] decorator. *)
Definition declare (cls : Class) (fields : list Field)
  (init_arg_list : option (list string)) : Class :=
  match __init_subclass__ cls with
  | inl _ => cls
  | inr c =>
      match members fields init_arg_list None c with
      | inl _ => c
      | inr c' => c'
      end
  end.

Definition field_x : Field :=
  {| key := ConstStrKey "x"; value := typing_Int None None (Some 0%Z);
     description := "" |}.
Definition field_y : Field :=
  {| key := ConstStrKey "y"; value := typing_Int None None (Some 0%Z);
     description := "" |}.
Definition field_z : Field :=
  {| key := ConstStrKey "z"; value := typing_Int None None (Some 0%Z);
     description := "" |}.

(** [Point] with fields [x: Int(default=0)] and [y: Int(default=0)]. *)
Definition Point : Class :=
  Eval vm_compute in
    declare (class_statement 1 "__main__" "Point" [None]) [field_x; field_y] None.

(** [Point3D(Point)] adds [z]. *)
Definition Point3D_statement : Class :=
  class_statement 2 "__main__" "Point3D" [Some Point].
Definition Point3D : Class :=
  Eval vm_compute in declare Point3D_statement [field_z] None.

(** [Line] with the required fields [start: Point] and [end: Point]. *)
Definition Line : Class :=
  Eval vm_compute in
    declare (class_statement 3 "__main__" "Line" [None])
      [{| key := ConstStrKey "start";
          value := typing_Object (class_ref Point) 100; description := "" |};
       {| key := ConstStrKey "end";
          value := typing_Object (class_ref Point) 101; description := "" |}]
      None.


(** [Bag] accepts any keyword as a dynamic integer field. *)
Definition Bag : Class :=
  Eval vm_compute in
    declare (class_statement 5 "__main__" "Bag" [None])
      [{| key := StrKey ".*"; value := typing_Int None None None;
          description := "" |}]
      None.

(** A class that turns symbolic attributes off. *)
Definition Plain : Class :=
  Eval vm_compute in
    declare
      {| cls_id := 6; __module__ := "__main__"; __name__ := "Plain";
         __bases__ := [None];
         __schema__ := {| name := ""; fields := [];
                          init_arg_list_md := [] |};
         __serialization_key__ := "";
         auto_register := true;
         allow_symbolic_attribute := false;
         allow_symbolic_assignment := false;
         allow_symbolic_mutation := true;
         use_symbolic_comparison := true |}
      [field_x] None.

(** Two bases that declare the same key with different specifications,
    [v: Int(min_value=0)] and [v: Int(max_value=10)], and a class that
    inherits from both and declares nothing. *)
Definition field_v_low : Field :=
  {| key := ConstStrKey "v"; value := typing_Int (Some 0%Z) None None;
     description := "" |}.
Definition field_v_high : Field :=
  {| key := ConstStrKey "v"; value := typing_Int None (Some 10%Z) None;
     description := "" |}.
Definition BaseLow : Class :=
  Eval vm_compute in
    declare (class_statement 7 "__main__" "BaseLow" [None]) [field_v_low] None.
Definition BaseHigh : Class :=
  Eval vm_compute in
    declare (class_statement 8 "__main__" "BaseHigh" [None]) [field_v_high]
            None.
Definition Both_statement : Class :=
  class_statement 9 "__main__" "Both" [Some BaseLow; Some BaseHigh].
Definition Both : Class :=
  Eval vm_compute in declare Both_statement [] None.

(** The classes of the docstring of [Object]: [Foo] with
    [x: Int(max_value=10)], and [Bar(Foo)], which overrides [x] with
    [Int(min_value=1, default=1)] and adds [z]. *)
Definition Foo : Class :=
  Eval vm_compute in
    declare (class_statement 16 "__main__" "Foo" [None])
      [{| key := ConstStrKey "x"; value := typing_Int None (Some 10%Z) None;
          description := "" |}] None.
Definition Bar : Class :=
  Eval vm_compute in
    declare (class_statement 17 "__main__" "Bar" [Some Foo])
      [{| key := ConstStrKey "x";
          value := typing_Int (Some 1%Z) None (Some 1%Z); description := "" |};
       {| key := ConstStrKey "z"; value := typing_Str; description := "" |}]
      None.

(** The state of a top-level call: no hook fired yet, no scope open. *)
Definition top (o : Object) : State :=
  {| st_self := o; st_events := [];
     sealed_scope := None; accessor_writable_scope := None |}.

(** The object a top-level call of the class returns (the blank instance
    if the call raises). *)
Definition instance (cls : Class) (a : nat) (args : list Any)
  (sealed : option bool) (kwargs : list (string * Any)) : Object :=
  match fst (construct cls a args (PyBool false) sealed None false kwargs
                       (top (blank cls a))) with
  | inr o => o
  | inl _ => blank cls a
  end.

(** The objects of the scenarios. *)
Definition point_a : Object :=
  Eval vm_compute in instance Point 10 [PyInt 1; PyInt 2] None [].
Definition point_b : Object :=
  Eval vm_compute in instance Point 11 [] None [("x", PyInt 1); ("y", PyInt 2)].
Definition point3d : Object :=
  Eval vm_compute in instance Point3D 12 [PyInt 1; PyInt 2; PyInt 0] None [].
Definition sealed_point : Object :=
  Eval vm_compute in instance Point 13 [PyInt 1; PyInt 2] (Some true) [].
Definition sealed_plain : Object :=
  Eval vm_compute in instance Plain 14 [PyInt 1] (Some true) [].
Definition bag : Object :=
  Eval vm_compute in
    instance Bag 15 [] None [("_hidden", PyInt 1); ("n", PyInt 2)].

(** A class that allows assignment to its symbolic attributes, and one
    that opts out of symbolic comparison. *)
Definition Writable : Class :=
  Eval vm_compute in
    declare
      {| cls_id := 18; __module__ := "__main__"; __name__ := "Writable";
         __bases__ := [None];
         __schema__ := {| name := ""; fields := [];
                          init_arg_list_md := [] |};
         __serialization_key__ := "";
         auto_register := true;
         allow_symbolic_attribute := true;
         allow_symbolic_assignment := true;
         allow_symbolic_mutation := true;
         use_symbolic_comparison := true |}
      [field_x] None.

Definition ById : Class :=
  Eval vm_compute in
    declare
      {| cls_id := 19; __module__ := "__main__"; __name__ := "ById";
         __bases__ := [None];
         __schema__ := {| name := ""; fields := [];
                          init_arg_list_md := [] |};
         __serialization_key__ := "";
         auto_register := true;
         allow_symbolic_attribute := true;
         allow_symbolic_assignment := false;
         allow_symbolic_mutation := true;
         use_symbolic_comparison := false |}
      [field_x] None.

(** A class without fields, and one whose argument list names a variadic
    argument that no field declares. *)
Definition Empty : Class :=
  Eval vm_compute in
    declare (class_statement 20 "__main__" "Empty" [None]) [] None.

Definition Stray : Class :=
  Eval vm_compute in
    declare (class_statement 21 "__main__" "Stray" [None]) [field_x]
            (Some ["*rest"]).

(** A class that was relocated and keeps its previous serialization key. *)
Definition Moved_statement : Class :=
  class_statement 22 "__main__" "Moved" [None].

Definition Moved : Class :=
  Eval vm_compute in
    match __init_subclass__ Moved_statement with
    | inl _ => Moved_statement
    | inr c =>
        match members [field_x] None (Some "legacy.Moved") c with
        | inl _ => c
        | inr c' => c'
        end
    end.

Definition writable_point : Object :=
  Eval vm_compute in instance Writable 30 [PyInt 1] None [].
Definition by_id_a : Object :=
  Eval vm_compute in instance ById 31 [PyInt 1] None [].
Definition by_id_b : Object :=
  Eval vm_compute in instance ById 32 [PyInt 1] None [].
Definition moved : Object :=
  Eval vm_compute in instance Moved 33 [PyInt 1] None [].


Definition bag_ab : Object :=
  Eval vm_compute in
    instance Bag 42 [] None [("a", PyInt 1); ("b", PyInt 2)].
Definition bag_ba : Object :=
  Eval vm_compute in
    instance Bag 43 [] None [("b", PyInt 2); ("a", PyInt 1)].
Definition line : Object :=
  Eval vm_compute in
    instance Line 50 [as_value point_a; as_value point_b] None [].

(** The symbolic attributes for which [_generate_sym_attributes_if_enabled]
    gives the class a property (without setter): the constant keys of the
    schema, on a class that allows symbolic attributes, as long as the class
    has no other attribute of the name, as is the case for the classes
    above. *)
Definition has_sym_attribute_property (cls : Class) (name : string) : bool :=
  allow_symbolic_attribute cls && is_const_key_of (schema cls) name.

(** The regular attribute lookup of the interpreter,
    [object.__getattribute__], as far as the scenarios use it: a property
    of the class comes first (the generated ones read the store), then the
    ordinary attributes of the instance, then the class properties declared
    at the top of [Object]; methods are not looked up here. *)
Definition instance_lookup (o : Object) (name : string) : exn + Any :=
  if has_sym_attribute_property (__class__ o) name then _sym_getattr o name
  else
    match items_get name (__dict__ o) with
    | Some v => inr v
    | None =>
        let cls := __class__ o in
        if String.eqb name "auto_register" then
          inr (PyBool (auto_register cls))
        else if String.eqb name "allow_symbolic_attribute" then
          inr (PyBool (allow_symbolic_attribute cls))
        else if String.eqb name "allow_symbolic_assignment" then
          inr (PyBool (allow_symbolic_assignment cls))
        else if String.eqb name "allow_symbolic_mutation" then
          inr (PyBool (allow_symbolic_mutation cls))
        else if String.eqb name "use_symbolic_comparison" then
          inr (PyBool (use_symbolic_comparison cls))
        else
          inl (AttributeError
                 ("'" ++ __name__ cls ++ "' object has no attribute '"
                  ++ name ++ "'"))
    end.

(** The regular assignment of the interpreter, [object.__setattr__], as
    far as the scenarios use it.  A property without setter refuses the
    assignment: the generated symbolic attributes, and [sym_init_args] and
    [_subscribes_field_updates] of [Object].  [__class__] takes a class,
    which none of the values here is.  The flags that [base.Symbolic] keeps
    on the instance are written in place; the methods read their truth
    value.  Every other name becomes an ordinary attribute of the instance
    (the scenarios assign none of [_sym_attributes], [_sym_parent] and
    [_sym_path], whose values are no field values). *)
Definition instance_setattr (o : Object) (name : string) (v : Any)
  : exn + Object :=
  if has_sym_attribute_property (__class__ o) name
     || String.eqb name "sym_init_args"
     || String.eqb name "_subscribes_field_updates" then
    inl (AttributeError ("can't set attribute '" ++ name ++ "'"))
  else if String.eqb name "__class__" then
    inl (TypeError "__class__ must be set to a class")
  else if String.eqb name "_sealed" then inr (with_sealed o (truthy v))
  else if String.eqb name "_accessor_writable" then
    inr (with_accessor_writable o (truthy v))
  else if String.eqb name "_allow_partial" then
    inr {| addr := addr o; __class__ := __class__ o;
           _allow_partial := truthy v;
           _accessor_writable := _accessor_writable o;
           _sealed := _sealed o; _sym_parent := _sym_parent o;
           _sym_path := _sym_path o;
           has_sym_attributes := has_sym_attributes o;
           _sym_attributes := _sym_attributes o;
           __dict__ := __dict__ o |}
  else inr (with_dict o (items_set name v (__dict__ o))).

End Scenarios.

(* ================================================================== *)
(** * Properties                                                        *)
(* ================================================================== *)

Section Messages.

Lemma append_empty_r (s : string) : s ++ "" = s.
Proof. induction s as [|c s IH]; simpl; [reflexivity | now rewrite IH]. Qed.

Lemma append_app_assoc (a b c : string) : (a ++ b) ++ c = a ++ (b ++ c).
Proof. induction a as [|x a IH]; simpl; [reflexivity | now rewrite IH]. Qed.

Lemma mentions_here (s : string) : mentions s s.
Proof. exists "", "". simpl. now rewrite append_empty_r. Qed.

Lemma mentions_after (p s msg : string) :
  mentions s msg -> mentions s (p ++ msg).
Proof.
  intros (a & b & ->). exists (p ++ a), b.
  now rewrite append_app_assoc.
Qed.

Lemma mentions_before (p s msg : string) :
  mentions s msg -> mentions s (msg ++ p).
Proof.
  intros (a & b & ->). exists a, (b ++ p).
  now rewrite !append_app_assoc.
Qed.

Lemma mentions_concat (sep s : string) (l : list string) :
  In s l -> mentions s (String.concat sep l).
Proof.
  induction l as [|x l IH]; simpl; [tauto|].
  intros [-> | Hin].
  - destruct l as [|y l]; [apply mentions_here|].
    apply mentions_before, mentions_here.
  - destruct l as [|y l]; [destruct Hin|].
    apply mentions_after, mentions_after, IH, Hin.
Qed.




Context {RT : Runtime}.

(** Every element of the list is rendered in the comma-delimited string. *)
Lemma comma_delimited_str_mentions (v : Any) (vs : list Any) :
  In v vs -> mentions (quote_str v) (comma_delimited_str vs).
Proof.
  intros Hin. unfold comma_delimited_str.
  apply mentions_concat, in_map, Hin.
Qed.

End Messages.

(** ** Lists, association lists and [mapM] *)

Lemma is_nil_false {A} (l : list A) : l <> [] -> is_nil l = false.
Proof. destruct l; [congruence | reflexivity]. Qed.

Lemma mapM_In {A B} (f : A -> exn + B) (l : list A) (bs : list B) (a : A) :
  mapM f l = inr bs -> In a l -> exists b, f a = inr b /\ In b bs.
Proof.
  revert bs. induction l as [|x l IH]; intros bs H Hin; [destruct Hin|].
  cbn in H. destruct (f x) as [e|b] eqn:Ex; [discriminate|].
  destruct (mapM f l) as [e|bs'] eqn:El; [discriminate|].
  injection H as <-. destruct Hin as [-> | Hin].
  - exists b. split; [assumption | now left].
  - destruct (IH bs' eq_refl Hin) as (b' & Hb & Hin').
    exists b'. split; [assumption | now right].
Qed.

Lemma items_has_get {V} (k : string) (d : list (string * V)) :
  items_has k d = false -> items_get k d = None.
Proof.
  unfold items_has, items_get. induction d as [|[k' v] d IH]; cbn; [reflexivity|].
  destruct (String.eqb k' k); cbn; [discriminate | exact IH].
Qed.

Lemma items_get_has {V} (k : string) (d : list (string * V)) :
  items_has k d = true <-> items_get k d <> None.
Proof.
  unfold items_has, items_get. induction d as [|[k' v] d IH]; cbn.
  - split; [discriminate | congruence].
  - destruct (String.eqb k' k); cbn; [split; [discriminate | reflexivity] | exact IH].
Qed.

Lemma items_get_set_other {V} (k k' : string) (v : V) (d : list (string * V)) :
  k' <> k -> items_get k' (items_set k v d) = items_get k' d.
Proof.
  intros Hne. unfold items_get. induction d as [|[k1 v1] d IH]; cbn.
  - apply String.eqb_neq in Hne. rewrite String.eqb_sym in Hne.
    now rewrite String.eqb_sym, String.eqb_sym, Hne.
  - destruct (String.eqb k1 k) eqn:E1; cbn.
    + apply String.eqb_eq in E1. subst k1.
      assert (E : String.eqb k k' = false)
        by (apply String.eqb_neq; congruence).
      now rewrite E.
    + destruct (String.eqb k1 k'); [reflexivity | exact IH].
Qed.

Lemma items_set_fresh {V} (k : string) (v : V) (d : list (string * V)) :
  ~ In k (keys d) -> items_set k v d = (d ++ [(k, v)])%list.
Proof.
  induction d as [|[k1 v1] d IH]; cbn; [reflexivity|].
  intros Hnot. destruct (String.eqb k1 k) eqn:E.
  - apply String.eqb_eq in E. tauto.
  - now rewrite IH by tauto.
Qed.

Lemma fold_items_set_fresh {V} (l acc : list (string * V)) :
  NoDup (keys l) ->
  (forall k, In k (keys l) -> ~ In k (keys acc)) ->
  fold_left (fun fa nv => items_set (fst nv) (snd nv) fa) l acc
  = (acc ++ l)%list.
Proof.
  revert acc. induction l as [|[k v] l IH]; intros acc Hnd Hfresh; cbn.
  - now rewrite app_nil_r.
  - cbn in Hnd. inversion Hnd as [|? ? Hk Hnd']; subst.
    rewrite items_set_fresh by (apply Hfresh; now left).
    rewrite IH; [now rewrite <- app_assoc | exact Hnd' |].
    intros k' Hin. unfold keys. rewrite map_app, in_app_iff. cbn.
    intros [H | [<- | []]].
    + apply (Hfresh k'); [now right | exact H].
    + exact (Hk Hin).
Qed.




Lemma list_eqb_Forall2 {A} (eqb : A -> A -> bool) (R : A -> A -> Prop)
  (xs : list A) :
  Forall (fun x => forall y, eqb x y = true <-> R x y) xs ->
  forall ys, list_eqb eqb xs ys = true <-> Forall2 R xs ys.
Proof.
  induction 1 as [|x xs Hx _ IH]; intros [|y ys]; cbn.
  - split; [constructor | reflexivity].
  - split; [discriminate | inversion 1].
  - split; [discriminate | inversion 1].
  - fold (list_eqb eqb). split.
    + intros Hb. apply andb_true_iff in Hb as [H1 H2].
      constructor; [now apply Hx | now apply IH].
    + intros Hr. inversion Hr; subst. apply andb_true_iff.
      split; [now apply Hx | now apply IH].
Qed.


Lemma Forall2_weaken {A} (R S : A -> A -> Prop) (xs ys : list A) :
  Forall (fun x => forall y, R x y -> S x y) xs ->
  Forall2 R xs ys -> Forall2 S xs ys.
Proof.
  intros H H2. revert H. induction H2 as [|x y xs ys Hxy _ IH]; intros H;
    [constructor|].
  inversion H as [|? ? Hx Hxs]; subst. constructor; [now apply Hx | now apply IH].
Qed.

Lemma In_keys {V} (k : string) (v : V) (d : list (string * V)) :
  In (k, v) d -> In k (keys d).
Proof. intros H. apply (in_map fst) in H. exact H. Qed.

Lemma items_has_In {V} (k : string) (d : list (string * V)) :
  items_has k d = true <-> In k (keys d).
Proof.
  unfold items_has, keys. rewrite existsb_exists, in_map_iff.
  split; intros ([k' v] & H1 & H2); exists (k', v); cbn in *.
  - apply String.eqb_eq in H2. now split.
  - split; [assumption | now apply String.eqb_eq].
Qed.

Lemma items_has_not_In {V} (k : string) (d : list (string * V)) :
  ~ In k (keys d) -> items_has k d = false.
Proof.
  intros H. destruct (items_has k d) eqn:E; [|reflexivity].
  apply items_has_In in E. tauto.
Qed.

Lemma items_del_not_In {V} (k : string) (d : list (string * V)) :
  ~ In k (keys d) -> items_del k d = d.
Proof.
  unfold items_del. induction d as [|[k' v] d IH]; cbn; [reflexivity|].
  intros H. destruct (String.eqb k' k) eqn:E.
  - apply String.eqb_eq in E. tauto.
  - cbn. now rewrite IH by tauto.
Qed.

Lemma items_del_head {V} (k : string) (v : V) (d : list (string * V)) :
  items_del k ((k, v) :: d) = items_del k d.
Proof. unfold items_del. cbn. now rewrite String.eqb_refl. Qed.

Lemma items_get_In {V} (k : string) (v : V) (d : list (string * V)) :
  NoDup (keys d) -> In (k, v) d -> items_get k d = Some v.
Proof.
  unfold items_get. induction d as [|[k' v'] d IH]; cbn; [tauto|].
  intros Hnd [Heq | Hin].
  - injection Heq as -> ->. now rewrite String.eqb_refl.
  - inversion Hnd as [|? ? Hk Hnd']; subst.
    destruct (String.eqb k' k) eqn:E; [|now apply IH].
    apply String.eqb_eq in E. subst. exfalso. apply Hk.
    exact (In_keys _ _ _ Hin).
Qed.

Lemma items_set_keys {V} (k : string) (v : V) (d : list (string * V)) :
  keys (items_set k v d)
  = if items_has k d then keys d else (keys d ++ [k])%list.
Proof.
  unfold items_has, keys. induction d as [|[k' v'] d IH]; cbn; [reflexivity|].
  destruct (String.eqb k' k) eqn:E; cbn.
  - apply String.eqb_eq in E. now subst.
  - rewrite IH. now destruct (existsb _ d).
Qed.

Lemma items_set_NoDup {V} (k : string) (v : V) (d : list (string * V)) :
  NoDup (keys d) -> NoDup (keys (items_set k v d)).
Proof.
  intros Hnd. rewrite items_set_keys.
  destruct (items_has k d) eqn:E; [assumption|].
  apply NoDup_app; [assumption | repeat constructor; tauto |].
  intros x Hx [<- | []].
  apply items_has_In in Hx. congruence.
Qed.

Lemma fold_items_set_NoDup {V} (l acc : list (string * V)) :
  NoDup (keys acc) ->
  NoDup (keys (fold_left (fun fa nv => items_set (fst nv) (snd nv) fa) l acc)).
Proof.
  revert acc. induction l as [|[k v] l IH]; intros acc Hnd; cbn; [assumption|].
  apply IH, items_set_NoDup, Hnd.
Qed.

Lemma mapM_keys {A} (f : A -> exn + (string * Any)) (h : A -> string)
  (l : list A) (bs : list (string * Any)) :
  (forall x b, f x = inr b -> fst b = h x) ->
  mapM f l = inr bs -> keys bs = map h l.
Proof.
  intros Hf. revert bs. induction l as [|x l IH]; intros bs H; cbn in H.
  - now injection H as <-.
  - destruct (f x) as [e|b] eqn:Ex; [discriminate|].
    destruct (mapM f l) as [e|bs'] eqn:El; [discriminate|].
    injection H as <-. cbn. f_equal; [now apply Hf | now apply IH].
Qed.


Lemma mapM_In_result {A B} (f : A -> exn + B) (l : list A) (bs : list B)
  (b : B) :
  mapM f l = inr bs -> In b bs -> exists a, In a l /\ f a = inr b.
Proof.
  revert bs. induction l as [|x l IH]; intros bs H Hin; cbn in H.
  - injection H as <-. destruct Hin.
  - destruct (f x) as [e|b'] eqn:Ex; [discriminate|].
    destruct (mapM f l) as [e|bs'] eqn:El; [discriminate|].
    injection H as <-. destruct Hin as [<- | Hin].
    + exists x. split; [now left | exact Ex].
    + destruct (IH bs' eq_refl Hin) as (a & Ha & Hfa).
      exists a. split; [now right | exact Hfa].
Qed.

Lemma filter_none {A} (p : A -> bool) (l : list A) :
  (forall x, In x l -> p x = false) -> filter p l = [].
Proof.
  induction l as [|x l IH]; cbn; [reflexivity|]. intros H.
  rewrite (H x) by now left. apply IH. intros y Hy. apply H. now right.
Qed.

Lemma filter_all {A} (p : A -> bool) (l : list A) :
  (forall x, In x l -> p x = true) -> filter p l = l.
Proof.
  induction l as [|x l IH]; cbn; [reflexivity|]. intros H.
  rewrite (H x) by now left. f_equal. apply IH. intros y Hy. apply H. now right.
Qed.

Lemma mapM_map_id {A B} (g : B -> exn + A) (h : A -> B) (l : list A) :
  (forall x, In x l -> g (h x) = inr x) -> mapM g (map h l) = inr l.
Proof.
  induction l as [|x l IH]; cbn; [reflexivity|]. intros H.
  rewrite (H x) by now left. rewrite IH; [reflexivity|].
  intros y Hy. apply H. now right.
Qed.

Lemma items_get_not_In {V} (k : string) (d : list (string * V)) :
  ~ In k (keys d) -> items_get k d = None.
Proof. intros H. now apply items_has_get, items_has_not_In. Qed.

Lemma list_eqb_refl {A} (eqb : A -> A -> bool) (xs : list A) :
  Forall (fun x => eqb x x = true) xs -> list_eqb eqb xs xs = true.
Proof.
  induction 1 as [|x xs Hx _ IH]; cbn; [reflexivity|].
  fold (list_eqb eqb). now rewrite Hx, IH.
Qed.

(** Evaluation of the monadic code that keeps the messages and the schema
    queries folded. *)
Ltac run :=
  cbn -[append mentions resolve keys auto_plural comma_delimited_str
        str_of_nat get_field Schema_apply _init_positional _init_keywords
        _init_missing_args schema sym_fields].

Section Properties.
Context {RT : Runtime}.

(** ** Record surgery *)

Lemma with_sym_parent_same (o : Object) :
  with_sym_parent o (_sym_parent o) = o.
Proof. destruct o; reflexivity. Qed.

Lemma option_nat_eqb_eq (a b : option nat) :
  option_nat_eqb a b = true <-> a = b.
Proof.
  destruct a as [x|], b as [y|]; simpl; try (split; congruence).
  rewrite Nat.eqb_eq. split; congruence.
Qed.

Lemma option_nat_eqb_refl (a : option nat) : option_nat_eqb a a = true.
Proof. now apply option_nat_eqb_eq. Qed.

(** ** [sym_hasattr] *)

Lemma base_eq_PyStr (key : Any) (s : string) :
  base_eq key (PyStr s) = true <-> key = PyStr s.
Proof.
  destruct key; simpl; try (split; [discriminate | discriminate]).
  rewrite String.eqb_eq. split; congruence.
Qed.

(** C9.  [sym_hasattr] answers [False] for every key that is not a string
    and for every string key that starts with an underscore, whatever the
    store holds; the one exception is the key ['_sym_attributes'], for which
    it raises the [ValueError] that asks [__init__] to call
    [super().__init__]. *)
Theorem sym_hasattr_hides_private (self : Object) (key : Any) :
  (match key with
   | PyStr s => startswith s "_" = true /\ s <> "_sym_attributes"
   | _ => True
   end ->
   sym_hasattr self key = inr false)
  /\ sym_hasattr self (PyStr "_sym_attributes")
     = inl (ValueError (__name__ (__class__ self)
                        ++ ".__init__ should call `super().__init__`.")).
Proof.
  split; [|reflexivity].
  intros Hkey. unfold sym_hasattr.
  destruct (base_eq key (PyStr "_sym_attributes")) eqn:E.
  - apply base_eq_PyStr in E. subst key. now destruct Hkey.
  - destruct key; try reflexivity.
    destruct Hkey as [Hpre _]. now rewrite Hpre.
Qed.

(** ** [sym_setparent] *)

(** C10.  [sym_setparent] stores the new parent and leaves the rest of the
    object and the scopes as they were; [_on_parent_change] fires, once and
    with the old and the new parent, when the two are not the same object,
    and setting the parent the object already has leaves the state as it
    was, no hook fired. *)
Theorem sym_setparent_fires_on_change (st : State) (parent : option nat) :
  let self := st_self st in
  let old_parent := _sym_parent self in
  let st' := snd (sym_setparent parent st) in
  fst (sym_setparent parent st) = inr tt
  /\ st_self st'
     = {| addr := addr self; __class__ := __class__ self;
          _allow_partial := _allow_partial self;
          _accessor_writable := _accessor_writable self;
          _sealed := _sealed self; _sym_parent := parent;
          _sym_path := _sym_path self;
          has_sym_attributes := has_sym_attributes self;
          _sym_attributes := _sym_attributes self;
          __dict__ := __dict__ self |}
  /\ sealed_scope st' = sealed_scope st
  /\ accessor_writable_scope st' = accessor_writable_scope st
  /\ (old_parent <> parent ->
      st_events st'
      = (st_events st ++ [OnParentChange (addr self) old_parent parent])%list)
  /\ (old_parent = parent -> st' = st).
Proof.
  destruct st as [self ev ss aw]. cbn [st_self].
  unfold sym_setparent, bind, get_self, Symbolic_sym_setparent, put_self,
    sym_parent, _on_parent_change, fire, ret.
  cbn [st_self st_events sealed_scope accessor_writable_scope fst snd].
  destruct (option_nat_eqb (_sym_parent self) parent) eqn:E;
    cbn [negb fst snd st_self st_events sealed_scope accessor_writable_scope
         with_sym_parent addr].
  - apply option_nat_eqb_eq in E.
    repeat split; try congruence.
    intros _. subst parent. destruct self; reflexivity.
  - assert (Hne : _sym_parent self <> parent).
    { intros H. apply option_nat_eqb_eq in H. congruence. }
    repeat split; try congruence.
Qed.

(** ** Sealed objects *)

(** C2, as the code has it.  While no [pg.seal] scope overrides the flag, a
    sealed object refuses [rebind] with a [WritePermissionError], and
    refuses the assignment to a schema-declared attribute with a
    [WritePermissionError] when symbolic attributes are on for the object
    ([self.allow_symbolic_attribute]) and the name does not start with an
    underscore; the state, and with it the stored field values, is left as
    it was.  Once the object is unsealed, [rebind] is handed to the
    store. *)
Theorem sealed_object_refuses_mutation
  (object__setattr__ : Object -> string -> Any -> exn + Object) (st : State) :
  sealed_scope st = None ->
  _sealed (st_self st) = true ->
  let self := st_self st in
  let cls := __class__ self in
  (forall path_value_pairs,
      _sym_rebind path_value_pairs st
      = (inl (WritePermissionError
                ("Cannot rebind a sealed " ++ __name__ cls ++ ".")), st))
  /\ (forall name v,
         self_allow_symbolic_attribute self = true ->
         get_field (schema cls) name <> None ->
         startswith name "_" = false ->
         __setattr__ object__setattr__ name v st
         = (inl (WritePermissionError
                   (_error_message self
                      ("Cannot set attribute " ++ quote_str (PyStr name)
                       ++ ": object is sealed."))), st))
  /\ (has_sym_attributes self = true ->
      forall path_value_pairs,
         let unsealed := snd (seal false st) in
         fst (seal false st) = inr tt
         /\ _sealed (st_self unsealed) = false
         /\ dict_items (_sym_attributes (st_self unsealed))
            = dict_items (_sym_attributes self)
         /\ _sym_rebind path_value_pairs unsealed
            = (r <- lift (Dict_sym_rebind (_sym_attributes (st_self unsealed))
                                          path_value_pairs) ;;
               put_self (with_sym_attributes (st_self unsealed) (fst r)) ;;;
               ret (snd r)) unsealed).
Proof.
  destruct st as [self ev ss aw]. cbn. intros -> Hsealed. split; [|split].
  - intros pvs. unfold _sym_rebind, bind, get_self, get_state, treats_as_sealed.
    cbn. now rewrite Hsealed.
  - intros name v Hattr Hfield Hname.
    unfold __setattr__, bind, get_self, get_state, treats_as_sealed. cbn.
    rewrite Hattr, Hname.
    destruct (get_field (schema (__class__ self)) name); [|congruence]. cbn.
    now rewrite Hsealed.
  - intros Hset pvs.
    unfold seal, _sym_rebind, self_sym_attributes, bind, get_self, get_state,
      treats_as_sealed, Symbolic_seal, put_self, lift, ret.
    cbn. rewrite Hset. cbn. repeat split.
Qed.

(** ** Unexpected keywords *)

Lemma unmatched_keys_spec (s : Schema) (ks : list string) (k : string) :
  In k (snd (resolve s ks)) <-> In k ks /\ get_field s k = None.
Proof.
  unfold resolve. cbn. rewrite filter_In.
  destruct (get_field s k); split; intros [H1 H2]; split;
    congruence || assumption || reflexivity.
Qed.

Lemma construct_unmatched (cls : Class) (a : nat)
  (args : list Any) (allow_partial : bool) (sealed : option bool)
  (root_path : option KeyPath) (explicit_init : bool)
  (kwargs : list (string * Any)) (st : State) :
  snd (resolve (schema cls) (keys kwargs)) <> [] ->
  let unmatched_keys := snd (resolve (schema cls) (keys kwargs)) in
  let r := construct cls a args (PyBool allow_partial) sealed root_path
                     explicit_init kwargs st in
  fst r
  = inl (TypeError
           (__name__ cls ++ ".__init__() got unexpected keyword "
            ++ auto_plural (List.length unmatched_keys) "argument" None ++ ": "
            ++ comma_delimited_str (map PyStr unmatched_keys)))
  /\ st_events (snd r) = st_events st.
Proof.
  intros Hne. cbv zeta.
  remember (snd (resolve (schema cls) (keys kwargs))) as unmatched_keys eqn:Hu.
  unfold construct, __init__, bind, get_self. run.
  rewrite <- Hu, (is_nil_false Hne). run.
  split; reflexivity.
Qed.

(** C4.  When some keyword does not resolve against the schema, the call of
    the class raises the unexpected-keyword [TypeError], whose message
    names every unresolved key; no object is returned and no hook has
    fired. *)
Theorem unexpected_keywords_are_named (cls : Class) (a : nat)
  (args : list Any) (allow_partial : bool) (sealed : option bool)
  (root_path : option KeyPath) (explicit_init : bool)
  (kwargs : list (string * Any)) (st : State) :
  snd (resolve (schema cls) (keys kwargs)) <> [] ->
  let unmatched_keys := snd (resolve (schema cls) (keys kwargs)) in
  let msg :=
    __name__ cls ++ ".__init__() got unexpected keyword "
    ++ auto_plural (List.length unmatched_keys) "argument" None ++ ": "
    ++ comma_delimited_str (map PyStr unmatched_keys) in
  let r := construct cls a args (PyBool allow_partial) sealed root_path
                     explicit_init kwargs st in
  fst r = inl (TypeError msg)
  /\ (forall k, In k (keys kwargs) -> get_field (schema cls) k = None ->
             mentions (quote_str (PyStr k)) msg)
  /\ st_events (snd r) = st_events st.
Proof.
  intros Hne unmatched_keys msg r.
  destruct (construct_unmatched cls a args allow_partial sealed root_path
              explicit_init kwargs st Hne) as [Hr Hev].
  split; [exact Hr|]. split; [|exact Hev].
  intros k Hin Hnone. subst msg.
  do 4 apply mentions_after.
  apply (comma_delimited_str_mentions (PyStr k)), in_map.
  apply unmatched_keys_spec. now split.
Qed.

(** ** What the call of a class does once the keywords resolve *)

Lemma construct_missing (cls : Class) (a : nat) (args : list Any)
  (sealed : option bool) (root_path : option KeyPath) (explicit_init : bool)
  (kwargs : list (string * Any)) (st : State)
  (fa0 fa : list (string * Any)) :
  snd (resolve (schema cls) (keys kwargs)) = [] ->
  _init_positional cls args = inr fa0 ->
  _init_keywords cls kwargs fa0 = inr fa ->
  _init_missing_args cls fa <> [] ->
  fst (construct cls a args (PyBool false) sealed root_path explicit_init
                 kwargs st)
  = inl (TypeError
           (__name__ cls ++ ".__init__() missing "
            ++ str_of_nat (List.length (_init_missing_args cls fa))
            ++ " required "
            ++ auto_plural (List.length (_init_missing_args cls fa))
                           "argument" None
            ++ ": "
            ++ comma_delimited_str (map PyStr (_init_missing_args cls fa))
            ++ ".")).
Proof.
  intros Hres Hpos Hkw Hmiss.
  unfold construct, __init__, bind, get_self. run.
  rewrite Hres. run. rewrite Hpos. run. rewrite Hkw. run.
  now rewrite (is_nil_false Hmiss).
Qed.

Lemma construct_succeeds (cls : Class) (a : nat) (args : list Any)
  (allow_partial : bool) (sealed : option bool) (root_path : option KeyPath)
  (explicit_init : bool) (kwargs : list (string * Any)) (st : State)
  (fa0 fa items : list (string * Any)) :
  snd (resolve (schema cls) (keys kwargs)) = [] ->
  _init_positional cls args = inr fa0 ->
  _init_keywords cls kwargs fa0 = inr fa ->
  allow_partial = true \/ _init_missing_args cls fa = [] ->
  Schema_apply (schema cls) allow_partial fa = inr items ->
  construct cls a args (PyBool allow_partial) sealed root_path explicit_init
            kwargs st
  = (inr (initialized cls a allow_partial (sealed_or_default cls sealed)
                      root_path items),
     {| st_self := initialized cls a allow_partial
                     (sealed_or_default cls sealed) root_path items;
        st_events := (st_events st ++ [OnInit a; OnBound a])%list;
        sealed_scope := sealed_scope st;
        accessor_writable_scope := accessor_writable_scope st |}).
Proof.
  intros Hres Hpos Hkw Hmiss Happly.
  unfold construct, __init__, bind, get_self. run.
  rewrite Hres. run. rewrite Hpos. run. rewrite Hkw. run.
  assert (Hnil : is_nil (if negb allow_partial
                         then _init_missing_args cls fa else []) = true).
  { destruct Hmiss as [-> | ->]; [reflexivity | now destruct allow_partial]. }
  unfold accepts_partial. run. rewrite Hnil. run.
  unfold Dict_new. change (sym_fields cls) with (schema cls).
  rewrite Happly. run.
  unfold sealed_or_default, initialized.
  rewrite <- app_assoc. reflexivity.
Qed.

(** ** Missing required fields *)




(** ** Positional arguments *)

Lemma construct_positional_error (cls : Class) (a : nat) (args : list Any)
  (allow_partial : bool) (sealed : option bool) (root_path : option KeyPath)
  (explicit_init : bool) (kwargs : list (string * Any)) (st : State)
  (e : exn) :
  snd (resolve (schema cls) (keys kwargs)) = [] ->
  _init_positional cls args = inl e ->
  fst (construct cls a args (PyBool allow_partial) sealed root_path
                 explicit_init kwargs st) = inl e.
Proof.
  intros Hres Hpos. unfold construct, __init__, bind, get_self. run.
  rewrite Hres. run. now rewrite Hpos.
Qed.

Lemma construct_keyword_error (cls : Class) (a : nat) (args : list Any)
  (allow_partial : bool) (sealed : option bool) (root_path : option KeyPath)
  (explicit_init : bool) (kwargs : list (string * Any)) (st : State)
  (fa0 : list (string * Any)) (e : exn) :
  snd (resolve (schema cls) (keys kwargs)) = [] ->
  _init_positional cls args = inr fa0 ->
  _init_keywords cls kwargs fa0 = inl e ->
  fst (construct cls a args (PyBool allow_partial) sealed root_path
                 explicit_init kwargs st) = inl e.
Proof.
  intros Hres Hpos Hkw. unfold construct, __init__, bind, get_self. run.
  rewrite Hres. run. rewrite Hpos. run. now rewrite Hkw.
Qed.

Lemma not_variadic (names : list string) :
  names = [] \/ startswith (last names "") "*" = false ->
  negb (is_nil names) && startswith (last names "") "*" = false.
Proof. intros [-> | ->]; [reflexivity | apply andb_false_r]. Qed.





End Properties.


(** ** Keys *)

Lemma KeySpec_eqb_eq (a b : KeySpec) : KeySpec_eqb a b = true <-> a = b.
Proof.
  destruct a, b; cbn; try (split; [discriminate | congruence]);
    rewrite String.eqb_eq; split; congruence.
Qed.

(** ** Induction on values *)

Section AnyInduction.
Variable P : Any -> Prop.
Hypothesis HNone : P PyNone.
Hypothesis HMissing : P MISSING_VALUE.
Hypothesis HBool : forall b, P (PyBool b).
Hypothesis HInt : forall z, P (PyInt z).
Hypothesis HStr : forall s, P (PyStr s).
Hypothesis HList : forall xs, Forall P xs -> P (PyList xs).
Hypothesis HDict :
  forall items, Forall (fun kv => P (snd kv)) items -> P (PyDict items).
Hypothesis HObject :
  forall a c attrs, Forall (fun kv => P (snd kv)) attrs ->
                    P (PyObject a c attrs).

Fixpoint Any_induction (v : Any) : P v :=
  match v with
  | PyNone => HNone
  | MISSING_VALUE => HMissing
  | PyBool b => HBool b
  | PyInt z => HInt z
  | PyStr s => HStr s
  | PyList xs =>
      HList ((fix go (l : list Any) : Forall P l :=
                match l with
                | [] => Forall_nil P
                | x :: l' => Forall_cons x (Any_induction x) (go l')
                end) xs)
  | PyDict items =>
      HDict ((fix go (l : list (string * Any))
                : Forall (fun kv => P (snd kv)) l :=
                match l with
                | [] => Forall_nil _
                | (k, x) :: l' =>
                    Forall_cons (k, x) (Any_induction x) (go l')
                end) items)
  | PyObject a c attrs =>
      HObject a c
        ((fix go (l : list (string * Any))
            : Forall (fun kv => P (snd kv)) l :=
            match l with
            | [] => Forall_nil _
            | (k, x) :: l' => Forall_cons (k, x) (Any_induction x) (go l')
            end) attrs)
  end.

End AnyInduction.

Lemma list_eqb_sym {A} (eqb : A -> A -> bool) (xs ys : list A) :
  Forall (fun x => forall y, eqb x y = eqb y x) xs ->
  list_eqb eqb xs ys = list_eqb eqb ys xs.
Proof.
  intros H. revert ys. induction H as [|x xs Hx _ IH]; intros [|y ys]; cbn;
    try reflexivity.
  now rewrite Hx, IH.
Qed.

Lemma forallb_ext_Forall {A} (f g : A -> bool) (l : list A) :
  Forall (fun x => f x = g x) l -> forallb f l = forallb g l.
Proof. induction 1 as [|x l Hx _ IH]; cbn; [reflexivity | now rewrite Hx, IH]. Qed.

Lemma has_equal_equal_to (eqb : Any -> Any -> bool) (k : string) (x : Any)
  (ys : list (string * Any)) :
  (forall y, eqb x y = eqb y x) -> has_equal eqb k x ys = equal_to eqb k ys x.
Proof.
  intros H. induction ys as [|[k' y] ys IH]; cbn; [reflexivity|].
  destruct (String.eqb k' k); [apply H | exact IH].
Qed.

Lemma equal_to_has_equal (eqb : Any -> Any -> bool) (k : string) (y : Any)
  (xs : list (string * Any)) :
  Forall (fun kv => forall b, eqb (snd kv) b = eqb b (snd kv)) xs ->
  equal_to eqb k xs y = has_equal eqb k y xs.
Proof.
  induction 1 as [|[k' x] xs Hx _ IH]; cbn; [reflexivity|].
  destruct (String.eqb k' k); [apply Hx | exact IH].
Qed.

Lemma dict_eqb_sym (eqb : Any -> Any -> bool) (xs ys : list (string * Any)) :
  Forall (fun kv => forall b, eqb (snd kv) b = eqb b (snd kv)) xs ->
  dict_eqb eqb xs ys = dict_eqb eqb ys xs.
Proof.
  intros H. unfold dict_eqb.
  rewrite (andb_comm (forallb _ ys)). f_equal.
  - apply forallb_ext_Forall. eapply Forall_impl; [|exact H].
    intros p Hp. now apply has_equal_equal_to.
  - apply forallb_ext_Forall, Forall_forall. intros q _.
    now apply equal_to_has_equal.
Qed.

(** [base.eq] is symmetric. *)
Lemma base_eq_sym (a b : Any) : base_eq a b = base_eq b a.
Proof.
  revert b. induction a as [| |x|x|x|xs IH|xs IH|i c xs IH] using Any_induction;
    intros b; destruct b as [| |y|y|y|ys|ys|j d ys]; cbn [base_eq];
    try reflexivity.
  - now destruct x, y.
  - apply Z.eqb_sym.
  - apply Z.eqb_sym.
  - apply Z.eqb_sym.
  - apply String.eqb_sym.
  - now apply list_eqb_sym.
  - now apply dict_eqb_sym.
  - rewrite (Nat.eqb_sym i j), (Nat.eqb_sym (ref_id c) (ref_id d)).
    f_equal. f_equal. now apply dict_eqb_sym.
Qed.

Section Comparison.
Context {RT : Runtime}.

(** ** [base.eq] decides structural equality *)

Lemma items_get_Some_In {V} (k : string) (v : V) (d : list (string * V)) :
  items_get k d = Some v -> In (k, v) d.
Proof.
  unfold items_get. destruct (find _ d) as [[k' v']|] eqn:E; [|discriminate].
  cbn. intros H. injection H as <-.
  apply find_some in E as [Hin Hk]. cbn in Hk.
  apply String.eqb_eq in Hk. now subst k'.
Qed.

Lemma has_equal_spec (eqb : Any -> Any -> bool) (k : string) (x : Any)
  (ys : list (string * Any)) :
  has_equal eqb k x ys = true
  <-> exists y, items_get k ys = Some y /\ eqb x y = true.
Proof.
  unfold items_get. induction ys as [|[k' y] ys IH]; cbn.
  - split; [discriminate | intros (y & H & _); discriminate].
  - destruct (String.eqb k' k); cbn.
    + split; [intros H; now exists y|].
      intros (y' & H & He). now injection H as <-.
    + exact IH.
Qed.

Lemma equal_to_spec (eqb : Any -> Any -> bool) (k : string) (y : Any)
  (xs : list (string * Any)) :
  equal_to eqb k xs y = true
  <-> exists x, items_get k xs = Some x /\ eqb x y = true.
Proof.
  unfold items_get. induction xs as [|[k' x] xs IH]; cbn.
  - split; [discriminate | intros (x & H & _); discriminate].
  - destruct (String.eqb k' k); cbn.
    + split; [intros H; now exists x|].
      intros (x' & H & He). now injection H as <-.
    + exact IH.
Qed.

Lemma dict_eqb_spec (R : Any -> Any -> Prop) (xs ys : list (string * Any)) :
  Forall (fun kv => forall y, base_eq (snd kv) y = true <-> R (snd kv) y) xs ->
  dict_eqb base_eq xs ys = true
  <-> Forall (fun p => exists y, items_get (fst p) ys = Some y
                                 /\ R (snd p) y) xs
      /\ Forall (fun q => exists x, items_get (fst q) xs = Some x
                                    /\ R x (snd q)) ys.
Proof.
  intros IH. rewrite Forall_forall in IH.
  unfold dict_eqb. rewrite andb_true_iff, !forallb_forall, !Forall_forall.
  split; intros [H1 H2]; split.
  - intros p Hp. destruct (proj1 (has_equal_spec _ _ _ _) (H1 p Hp))
      as (y & Hy & He). exists y. split; [exact Hy|].
    now apply (IH p Hp).
  - intros q Hq. destruct (proj1 (equal_to_spec _ _ _ _) (H2 q Hq))
      as (x & Hx & He). exists x. split; [exact Hx|].
    now apply (IH (fst q, x) (items_get_Some_In _ _ Hx)).
  - intros p Hp. apply has_equal_spec.
    destruct (H1 p Hp) as (y & Hy & Hr). exists y. split; [exact Hy|].
    now apply (IH p Hp).
  - intros q Hq. apply equal_to_spec.
    destruct (H2 q Hq) as (x & Hx & Hr). exists x. split; [exact Hx|].
    now apply (IH (fst q, x) (items_get_Some_In _ _ Hx)).
Qed.

Lemma base_eq_spec (a b : Any) :
  base_eq a b = true <-> value_equal reference_identical a b.
Proof.
  revert b. induction a as [| |x|x|x|xs IH|xs IH|i c xs IH] using Any_induction;
    intros b; destruct b as [| |y|y|y|ys|ys|j d ys]; cbn [base_eq];
    try (split; [discriminate | intros H; inversion H]; fail);
    try (split; [intros _; constructor | reflexivity]; fail).
  - split; [intros H; apply Bool.eqb_prop in H; subst; constructor|].
    inversion 1; subst. apply Bool.eqb_reflx.
  - rewrite Z.eqb_eq. split; [intros <-; constructor|].
    now inversion 1.
  - rewrite Z.eqb_eq. split; [intros ->; constructor|].
    now inversion 1.
  - rewrite Z.eqb_eq. split; [intros ->; constructor | now inversion 1].
  - rewrite String.eqb_eq. split; [intros ->; constructor | now inversion 1].
  - rewrite (list_eqb_Forall2 _ _ IH).
    split; [now constructor | now inversion 1].
  - rewrite (dict_eqb_spec _ ys IH).
    split; [intros [H1 H2]; now constructor | now inversion 1].
  - rewrite orb_true_iff, andb_true_iff, !Nat.eqb_eq, (dict_eqb_spec _ ys IH).
    split.
    + intros [-> | [Hc [H1 H2]]];
        [now apply equal_same_object | now apply equal_object].
    + inversion 1; subst; [now left | right; now repeat split].
Qed.

Lemma base_eq_stores (xs ys : list (string * Any)) :
  base_eq (PyDict xs) (PyDict ys) = true
  <-> stores_equal reference_identical xs ys.
Proof.
  rewrite base_eq_spec. unfold stores_equal.
  split; [now inversion 1 | intros [H1 H2]; now constructor].
Qed.

(** C7.  For two initialized objects, with symbolic comparison on for
    [A], [A == B] holds exactly when [A] and [B] are the same object, or
    have the same class and stores that are equal as mappings, value by
    value and recursively; objects of different classes, a class and its
    subclass included, that are not the same object compare unequal. *)
Theorem eq_iff_same_class_and_equal_stores (A B : Object) :
  self_use_symbolic_comparison A = true ->
  has_sym_attributes A = true -> has_sym_attributes B = true ->
  (__eq__ A (as_value B) = Some true
   <-> addr A = addr B
       \/ (cls_id (__class__ A) = cls_id (__class__ B)
           /\ stores_equal reference_identical
                           (dict_items (_sym_attributes A))
                           (dict_items (_sym_attributes B))))
  /\ (cls_id (__class__ A) <> cls_id (__class__ B) -> addr A <> addr B ->
      __eq__ A (as_value B) = Some false).
Proof.
  intros Hsym _ _. unfold __eq__. rewrite Hsym.
  unfold sym_eq, is_, type_is, as_value, class_ref. cbn [ref_id].
  split.
  - rewrite <- base_eq_stores.
    split.
    + intros H. injection H as H.
      apply orb_true_iff in H as [H | H].
      * left. now apply Nat.eqb_eq.
      * apply andb_true_iff in H as [Hc Hs]. right.
        split; [now apply Nat.eqb_eq | exact Hs].
    + intros [H | [Hc Hs]]; f_equal; apply orb_true_iff.
      * left. now apply Nat.eqb_eq.
      * right. apply andb_true_iff. split; [now apply Nat.eqb_eq | exact Hs].
  - intros Hc Ha. apply Nat.eqb_neq in Hc, Ha. now rewrite Hc, Ha.
Qed.

(** ** The structural hash *)




End Comparison.

(** ** Serialization round trip *)

Section RoundTrip.
Context {RT : Runtime}.

Lemma _init_positional_NoDup (cls : Class) (args : list Any)
  (fa0 : list (string * Any)) :
  _init_positional cls args = inr fa0 -> NoDup (keys fa0).
Proof.
  unfold _init_positional. destruct (is_nil args).
  - intros H. injection H as <-. constructor.
  - destruct (is_nil (fields (schema cls))); [discriminate|].
    destruct (negb _ && _).
    + destruct (get_field _ _); [|discriminate].
      intros H. injection H as <-. apply fold_items_set_NoDup.
      repeat constructor. tauto.
    + destruct (Nat.ltb _ _); [discriminate|].
      intros H. injection H as <-. apply fold_items_set_NoDup. constructor.
Qed.

Lemma _init_keywords_NoDup (cls : Class) (kwargs fa0 fa : list (string * Any)) :
  NoDup (keys fa0) -> _init_keywords cls kwargs fa0 = inr fa -> NoDup (keys fa).
Proof.
  revert fa0. induction kwargs as [|[k v] kwargs IH]; intros fa0 Hnd; cbn.
  - intros H. now injection H as <-.
  - destruct (items_get k fa0); [discriminate|].
    apply IH, items_set_NoDup, Hnd.
Qed.

Lemma _init_keywords_fresh (cls : Class) (kwargs fa0 : list (string * Any)) :
  NoDup (keys kwargs) ->
  (forall k, In k (keys kwargs) -> ~ In k (keys fa0)) ->
  _init_keywords cls kwargs fa0 = inr (fa0 ++ kwargs)%list.
Proof.
  revert fa0. induction kwargs as [|[k v] kwargs IH]; intros fa0 Hnd Hfresh; cbn.
  - now rewrite app_nil_r.
  - rewrite items_has_get by (apply items_has_not_In, Hfresh; now left).
    cbn in Hnd. inversion Hnd as [|? ? Hk Hnd']; subst.
    rewrite items_set_fresh by (apply Hfresh; now left).
    rewrite IH; [now rewrite <- app_assoc | exact Hnd' |].
    intros k' Hin. unfold keys. rewrite map_app, in_app_iff. cbn.
    intros [H | [<- | []]].
    + apply (Hfresh k'); [now right | exact H].
    + exact (Hk Hin).
Qed.

Lemma construct_validation_error (cls : Class) (a : nat) (args : list Any)
  (allow_partial : bool) (sealed : option bool) (root_path : option KeyPath)
  (explicit_init : bool) (kwargs : list (string * Any)) (st : State)
  (fa0 fa : list (string * Any)) (e : exn) :
  snd (resolve (schema cls) (keys kwargs)) = [] ->
  _init_positional cls args = inr fa0 ->
  _init_keywords cls kwargs fa0 = inr fa ->
  allow_partial = true \/ _init_missing_args cls fa = [] ->
  Schema_apply (schema cls) allow_partial fa = inl e ->
  fst (construct cls a args (PyBool allow_partial) sealed root_path
                 explicit_init kwargs st) = inl e.
Proof.
  intros Hres Hpos Hkw Hmiss Happly.
  unfold construct, __init__, bind, get_self. run.
  rewrite Hres. run. rewrite Hpos. run. rewrite Hkw. run.
  assert (Hnil : is_nil (if negb allow_partial
                         then _init_missing_args cls fa else []) = true).
  { destruct Hmiss as [-> | ->]; [reflexivity | now destruct allow_partial]. }
  unfold accepts_partial. run. rewrite Hnil. run.
  unfold Dict_new. change (sym_fields cls) with (schema cls).
  now rewrite Happly.
Qed.

(** What a successful call went through. *)
Lemma construct_inversion (cls : Class) (a : nat) (args : list Any)
  (allow_partial : bool) (sealed : option bool) (root_path : option KeyPath)
  (explicit_init : bool) (kwargs : list (string * Any)) (st st' : State)
  (o : Object) :
  construct cls a args (PyBool allow_partial) sealed root_path explicit_init
            kwargs st
  = (inr o, st') ->
  exists fa items,
    NoDup (keys fa)
    /\ Schema_apply (schema cls) allow_partial fa = inr items
    /\ o = initialized cls a allow_partial (sealed_or_default cls sealed)
                       root_path items.
Proof.
  intros H.
  assert (Hok : forall e,
             fst (construct cls a args (PyBool allow_partial) sealed root_path
                            explicit_init kwargs st) <> inl e)
    by (rewrite H; discriminate).
  destruct (snd (resolve (schema cls) (keys kwargs))) as [|u us] eqn:Hres.
  2:{ exfalso. eapply Hok.
      refine (proj1 (construct_unmatched cls a args allow_partial sealed
                       root_path explicit_init kwargs st _)).
      rewrite Hres. discriminate. }
  destruct (_init_positional cls args) as [e|fa0] eqn:Hpos.
  { exfalso. eapply Hok, construct_positional_error; eassumption. }
  destruct (_init_keywords cls kwargs fa0) as [e|fa] eqn:Hkw.
  { exfalso. eapply Hok, construct_keyword_error; eassumption. }
  assert (Hmiss : allow_partial = true \/ _init_missing_args cls fa = []).
  { destruct allow_partial; [now left | right].
    destruct (_init_missing_args cls fa) as [|m ms] eqn:Hmiss; [reflexivity|].
    exfalso. eapply Hok, construct_missing; try eassumption.
    rewrite Hmiss. discriminate. }
  destruct (Schema_apply (schema cls) allow_partial fa) as [e|items]
    eqn:Happly.
  { exfalso. eapply Hok, construct_validation_error; eassumption. }
  exists fa, items. split; [|split; [exact Happly|]].
  - eapply _init_keywords_NoDup; [|exact Hkw].
    eapply _init_positional_NoDup, Hpos.
  - erewrite construct_succeeds in H; try eassumption.
    now injection H.
Qed.

(** The shape of a validated store. *)

Lemma Schema_apply_shape (s : Schema) (allow_partial : bool)
  (dict_obj items : list (string * Any)) :
  Schema_apply s allow_partial dict_obj = inr items ->
  exists const_items dyn_items,
    items = (const_items ++ dyn_items)%list
    /\ mapM (const_entry dict_obj allow_partial)
            (filter (fun f => is_const (key f)) (fields s)) = inr const_items
    /\ mapM (dynamic_entry s allow_partial)
            (filter (fun kv => negb (is_const_key_of s (fst kv))) dict_obj)
       = inr dyn_items.
Proof.
  unfold Schema_apply. fold (const_entry dict_obj allow_partial).
  fold (dynamic_entry s allow_partial).
  destruct (mapM (const_entry _ _) _) as [e|c]; [discriminate|].
  destruct (mapM (dynamic_entry _ _) _) as [e|d]; [discriminate|].
  intros H. injection H as <-. now exists c, d.
Qed.

Lemma Schema_apply_build (s : Schema) (allow_partial : bool)
  (dict_obj const_items dyn_items : list (string * Any)) :
  mapM (const_entry dict_obj allow_partial)
       (filter (fun f => is_const (key f)) (fields s)) = inr const_items ->
  mapM (dynamic_entry s allow_partial)
       (filter (fun kv => negb (is_const_key_of s (fst kv))) dict_obj)
  = inr dyn_items ->
  Schema_apply s allow_partial dict_obj = inr (const_items ++ dyn_items)%list.
Proof.
  intros Hc Hd. unfold Schema_apply.
  fold (const_entry dict_obj allow_partial).
  fold (dynamic_entry s allow_partial).
  now rewrite Hc, Hd.
Qed.

Lemma const_entry_key (dict_obj : list (string * Any)) (ap : bool)
  (f : Field) (b : string * Any) :
  const_entry dict_obj ap f = inr b -> fst b = KeySpec_str (key f).
Proof.
  unfold const_entry. destruct (Field_apply _ _ _); [discriminate|].
  intros H. now injection H as <-.
Qed.

Lemma dynamic_entry_key (s : Schema) (ap : bool) (kv b : string * Any) :
  dynamic_entry s ap kv = inr b -> fst b = fst kv.
Proof.
  unfold dynamic_entry. destruct (get_field _ _); [|discriminate].
  destruct (Field_apply _ _ _); [discriminate|].
  intros H. now injection H as <-.
Qed.

Lemma items_to_json_keys (items : list (string * Any)) :
  keys (items_to_json items) = keys items.
Proof.
  unfold keys, items_to_json, map_values. rewrite map_map. reflexivity.
Qed.

Lemma items_to_json_get (k : string) (items : list (string * Any)) :
  items_get k (items_to_json items) = option_map to_json (items_get k items).
Proof.
  unfold items_get, items_to_json, map_values.
  induction items as [|[k' v] items IH]; cbn; [reflexivity|].
  destruct (String.eqb k' k); [reflexivity | exact IH].
Qed.

Lemma items_to_json_filter (p : string -> bool) (items : list (string * Any)) :
  filter (fun kv => p (fst kv)) (items_to_json items)
  = items_to_json (filter (fun kv => p (fst kv)) items).
Proof.
  unfold items_to_json, map_values.
  induction items as [|[k v] items IH]; cbn; [reflexivity|].
  destruct (p k); cbn; now rewrite IH.
Qed.

Lemma is_const_key_of_spec (s : Schema) (k : string) :
  is_const_key_of s k = true
  <-> exists f, In f (fields s) /\ key f = ConstStrKey k.
Proof.
  unfold is_const_key_of. rewrite existsb_exists.
  split; intros (f & Hin & Hk); exists f; (split; [exact Hin|]);
    now apply KeySpec_eqb_eq.
Qed.

Lemma const_key_str (f : Field) :
  is_const (key f) = true -> key f = ConstStrKey (KeySpec_str (key f)).
Proof. destruct (key f); [reflexivity | discriminate]. Qed.

Lemma find_unique_key (fs : list Field) (f : Field) :
  NoDup (map key fs) -> In f fs ->
  find (fun g => KeySpec_eqb (key g) (key f)) fs = Some f.
Proof.
  induction fs as [|g fs IH]; cbn; [tauto|].
  intros Hnd [-> | Hin].
  - now rewrite (proj2 (KeySpec_eqb_eq _ _) eq_refl).
  - inversion Hnd as [|? ? Hg Hnd']; subst.
    destruct (KeySpec_eqb (key g) (key f)) eqn:E; [|now apply IH].
    apply KeySpec_eqb_eq in E. exfalso. apply Hg. rewrite E.
    now apply in_map.
Qed.

Lemma get_field_const (s : Schema) (f : Field) :
  NoDup (map key (fields s)) -> In f (fields s) -> is_const (key f) = true ->
  get_field s (KeySpec_str (key f)) = Some f.
Proof.
  intros Hnd Hin Hc. unfold get_field.
  rewrite <- (const_key_str _ Hc). now rewrite find_unique_key.
Qed.

Lemma const_keys_NoDup (fs : list Field) :
  NoDup (map key fs) ->
  NoDup (map (fun f => KeySpec_str (key f))
             (filter (fun f => is_const (key f)) fs)).
Proof.
  induction fs as [|f fs IH]; cbn; [constructor|].
  intros Hnd. inversion Hnd as [|? ? Hf Hnd']; subst.
  destruct (is_const (key f)) eqn:Hc; [|now apply IH].
  cbn. constructor; [|now apply IH].
  rewrite in_map_iff. intros (g & Hk & Hg).
  apply filter_In in Hg as [Hg Hcg]. apply Hf.
  rewrite (const_key_str _ Hc), <- Hk, <- (const_key_str _ Hcg).
  now apply in_map.
Qed.

Lemma keys_filter_NoDup {V} (p : string * V -> bool) (d : list (string * V)) :
  NoDup (keys d) -> NoDup (keys (filter p d)).
Proof.
  unfold keys. induction d as [|[k v] d IH]; cbn; [constructor|].
  intros Hnd. inversion Hnd as [|? ? Hk Hnd']; subst.
  destruct (p (k, v)); [|now apply IH].
  cbn. constructor; [|now apply IH].
  rewrite in_map_iff. intros ([k' v'] & Hk' & Hin). cbn in Hk'. subst k'.
  apply filter_In in Hin as [Hin _]. apply Hk.
  exact (In_keys _ _ _ Hin).
Qed.

(** A validated store has one entry per key: the constant keys of the
    schema first, then the dynamic keys that were given. *)
Lemma store_keys (s : Schema) (ap : bool)
  (fa const_items dyn_items : list (string * Any)) :
  mapM (const_entry fa ap)
       (filter (fun f => is_const (key f)) (fields s)) = inr const_items ->
  mapM (dynamic_entry s ap)
       (filter (fun kv => negb (is_const_key_of s (fst kv))) fa)
  = inr dyn_items ->
  (forall k, In k (keys const_items) -> is_const_key_of s k = true)
  /\ (forall k, In k (keys dyn_items) -> is_const_key_of s k = false)
  /\ (NoDup (map key (fields s)) -> NoDup (keys fa) ->
      NoDup (keys (const_items ++ dyn_items))).
Proof.
  intros Hc Hd.
  assert (Hck : keys const_items
                = map (fun f => KeySpec_str (key f))
                      (filter (fun f => is_const (key f)) (fields s))).
  { eapply mapM_keys; [|exact Hc]. intros x b. apply const_entry_key. }
  assert (Hdk : keys dyn_items
                = map fst (filter (fun kv => negb (is_const_key_of s (fst kv)))
                                  fa)).
  { eapply mapM_keys; [|exact Hd]. intros x b. apply dynamic_entry_key. }
  assert (H1 : forall k, In k (keys const_items) -> is_const_key_of s k = true).
  { intros k Hin. rewrite Hck in Hin. apply in_map_iff in Hin as (f & <- & Hf).
    apply filter_In in Hf as [Hf Hcf]. apply is_const_key_of_spec.
    exists f. split; [exact Hf | now apply const_key_str]. }
  assert (H2 : forall k, In k (keys dyn_items) -> is_const_key_of s k = false).
  { intros k Hin. rewrite Hdk in Hin. apply in_map_iff in Hin as (kv & <- & Hkv).
    apply filter_In in Hkv as [_ Hn]. now apply negb_true_iff in Hn. }
  split; [exact H1|]. split; [exact H2|].
  intros Hs Hfa. unfold keys. rewrite map_app. apply NoDup_app.
  - fold (keys const_items). rewrite Hck. now apply const_keys_NoDup.
  - fold (keys dyn_items). rewrite Hdk.
    apply (keys_filter_NoDup (fun kv => negb (is_const_key_of s (fst kv)))).
    exact Hfa.
  - intros k Hk1 Hk2. apply H1 in Hk1. apply H2 in Hk2. congruence.
Qed.

Lemma mapM_related {A B} (f g : A -> exn + B) (R : B -> B -> Prop)
  (l : list A) (bs : list B) :
  mapM f l = inr bs ->
  (forall a b, In a l -> f a = inr b -> exists b', g a = inr b' /\ R b b') ->
  exists bs', mapM g l = inr bs' /\ Forall2 R bs bs'.
Proof.
  revert bs. induction l as [|a l IH]; cbn; intros bs Hm H.
  - injection Hm as <-. exists []. split; [reflexivity | constructor].
  - destruct (f a) as [e|b] eqn:Ef; [discriminate|].
    destruct (mapM f l) as [e|bs0] eqn:Em; [discriminate|].
    injection Hm as <-.
    destruct (H a b (or_introl eq_refl) Ef) as (b' & Hg & Hr).
    destruct (IH bs0 eq_refl) as (bs' & Hm' & Hf).
    { intros a0 b0 Hin. apply H. now right. }
    exists (b' :: bs'). rewrite Hg, Hm'. split; [reflexivity | now constructor].
Qed.

Lemma mapM_map_related {A B} (g : B -> exn + A) (h : A -> B)
  (R : A -> A -> Prop) (l : list A) :
  (forall x, In x l -> exists x', g (h x) = inr x' /\ R x x') ->
  exists l', mapM g (map h l) = inr l' /\ Forall2 R l l'.
Proof.
  induction l as [|x l IH]; cbn; intros H.
  - exists []. split; [reflexivity | constructor].
  - destruct (H x (or_introl eq_refl)) as (x' & Hg & Hr).
    destruct IH as (l' & Hm & Hf); [intros y Hy; apply H; now right|].
    exists (x' :: l'). rewrite Hg, Hm. split; [reflexivity | now constructor].
Qed.

(** Serializing a validated store and validating the result gives a store
    with the same keys, in the same order, and structurally equal values. *)
Lemma Schema_apply_roundtrip (s : Schema) (fa items : list (string * Any)) :
  NoDup (map key (fields s)) -> NoDup (keys fa) ->
  Schema_apply s false fa = inr items ->
  permits_roundtrip s items ->
  exists items',
    Schema_apply s false (items_to_json items) = inr items'
    /\ Forall2 (fun p q => fst p = fst q
                           /\ value_equal reference_identical (snd p) (snd q))
               items items'.
Proof.
  intros Hs Hfa Happly Hrt.
  destruct (Schema_apply_shape _ _ _ Happly)
    as (const_items & dyn_items & -> & Hc & Hd).
  destruct (store_keys _ _ _ Hc Hd) as (Hck & Hdk & Hnd).
  specialize (Hnd Hs Hfa).
  destruct (@mapM_related _ _ (const_entry fa false)
              (const_entry (items_to_json (const_items ++ dyn_items)) false)
              (fun p q => fst p = fst q
                          /\ value_equal reference_identical (snd p) (snd q))
              _ _ Hc) as (const_items' & Hc' & Hfc).
  { intros f [k v] Hf Hb.
    apply filter_In in Hf as [Hf Hcf].
    assert (Hk : k = KeySpec_str (key f))
      by exact (const_entry_key _ _ _ Hb).
    assert (Hin : In (k, v) (const_items ++ dyn_items)).
    { apply in_or_app. left.
      destruct (mapM_In _ _ f Hc) as (b & Hb' & Hinb).
      - apply filter_In. now split.
      - rewrite Hb in Hb'. now injection Hb' as <-. }
    destruct (Hrt k v f Hin) as (v' & Hv & Hr);
      [subst k; now apply get_field_const|].
    exists (k, v'). split; [|now split].
    unfold const_entry. rewrite <- Hk, items_to_json_get.
    erewrite items_get_In; [|exact Hnd | exact Hin]. cbn [option_map].
    destruct (to_json v) eqn:Ev; try discriminate Hv;
      cbv beta iota; now rewrite Hv. }
  destruct (@mapM_map_related _ _ (dynamic_entry s false)
              (fun kv => (fst kv, to_json (snd kv)))
              (fun p q => fst p = fst q
                          /\ value_equal reference_identical (snd p) (snd q))
              dyn_items) as (dyn_items' & Hd' & Hfd).
  { intros [k v] Hin. cbn [fst snd].
    destruct (mapM_In_result _ _ _ Hd Hin) as ([k0 v0] & _ & Hdyn).
    unfold dynamic_entry in Hdyn |- *. cbn [fst snd] in Hdyn |- *.
    destruct (get_field s k0) as [f|] eqn:Ef; [|discriminate].
    destruct (Field_apply f v0 false) as [e|v1] eqn:Ea; [discriminate|].
    injection Hdyn as -> ->. rewrite Ef.
    destruct (Hrt k v f) as (v' & Hv & Hr); [|exact Ef|].
    { apply in_or_app. now right. }
    exists (k, v'). rewrite Hv. split; [reflexivity | now split]. }
  exists (const_items' ++ dyn_items')%list. split.
  - apply Schema_apply_build; [exact Hc'|].
    rewrite (items_to_json_filter (fun k => negb (is_const_key_of s k))).
    rewrite filter_app.
    rewrite (filter_none (fun kv => negb (is_const_key_of s (fst kv)))
                         const_items).
    2:{ intros [k v] Hin. cbn. rewrite Hck; [reflexivity|].
        exact (In_keys _ _ _ Hin). }
    rewrite (filter_all (fun kv => negb (is_const_key_of s (fst kv)))
                        dyn_items).
    2:{ intros [k v] Hin. cbn. rewrite Hdk; [reflexivity|].
        exact (In_keys _ _ _ Hin). }
    exact Hd'.
  - now apply Forall2_app.
Qed.

Lemma Forall2_keys (R : Any -> Any -> Prop) (xs ys : list (string * Any)) :
  Forall2 (fun p q => fst p = fst q /\ R (snd p) (snd q)) xs ys ->
  keys ys = keys xs.
Proof.
  induction 1 as [|p q xs ys [Hk _] _ IH]; [reflexivity|].
  unfold keys in *. cbn [map]. now rewrite Hk, IH.
Qed.

Lemma items_get_skip {V} (k k' : string) (v : V) (d : list (string * V)) :
  k' <> k -> items_get k ((k', v) :: d) = items_get k d.
Proof.
  intros Hne. unfold items_get. cbn.
  destruct (String.eqb k' k) eqn:E; [|reflexivity].
  now apply String.eqb_eq in E.
Qed.

Lemma items_get_head {V} (k : string) (v : V) (d : list (string * V)) :
  items_get k ((k, v) :: d) = Some v.
Proof. unfold items_get. cbn. now rewrite String.eqb_refl. Qed.

(** Stores that hold equal values under the same keys, entry by entry, are
    equal as mappings. *)
Lemma entries_stores_equal (same : nat -> nat -> Prop)
  (xs ys : list (string * Any)) :
  NoDup (keys xs) ->
  Forall2 (fun p q => fst p = fst q /\ value_equal same (snd p) (snd q))
          xs ys ->
  stores_equal same xs ys.
Proof.
  intros Hnd H.
  induction H as [|[k x] [k' y] xs ys [Hk Hv] H IH]; [split; constructor|].
  cbn in Hk. subst k'. cbn [keys map fst] in Hnd.
  inversion Hnd as [|? ? Hfresh Hnd']; subst.
  pose proof (Forall2_keys _ H) as Hkeys.
  destruct (IH Hnd') as [H1 H2]. rewrite Forall_forall in H1, H2.
  split; constructor.
  - exists y. cbn [fst snd]. now rewrite items_get_head.
  - apply Forall_forall. intros p Hp.
    destruct (H1 p Hp) as (y0 & Hy & Hr). exists y0. split; [|exact Hr].
    rewrite items_get_skip; [exact Hy|].
    intros Heq. apply Hfresh. rewrite Heq. now apply (in_map fst).
  - exists x. cbn [fst snd]. now rewrite items_get_head.
  - apply Forall_forall. intros q Hq.
    destruct (H2 q Hq) as (x0 & Hx & Hr). exists x0. split; [|exact Hr].
    rewrite items_get_skip; [exact Hx|].
    intros Heq. apply Hfresh. rewrite Heq. fold (keys xs). rewrite <- Hkeys.
    now apply (in_map fst).
Qed.

(** The keys a validated store holds all resolve, and none of its
    required fields is left out. *)
Lemma store_keys_resolve (s : Schema) (ap : bool)
  (fa items : list (string * Any)) (k : string) :
  Schema_apply s ap fa = inr items -> In k (keys items) ->
  get_field s k <> None.
Proof.
  intros Happly Hin.
  destruct (Schema_apply_shape _ _ _ Happly)
    as (const_items & dyn_items & -> & Hc & Hd).
  unfold keys in Hin. rewrite map_app, in_app_iff in Hin.
  destruct Hin as [Hin | Hin].
  - destruct (store_keys _ _ _ Hc Hd) as (Hck & _ & _).
    specialize (Hck k Hin). apply is_const_key_of_spec in Hck as (f & Hf & Hk).
    unfold get_field.
    destruct (find (fun f0 => KeySpec_eqb (key f0) (ConstStrKey k)) (fields s))
      eqn:E; [discriminate|].
    exfalso. apply (find_none _ _ E) in Hf.
    rewrite Hk in Hf. cbn in Hf. now rewrite String.eqb_refl in Hf.
  - apply in_map_iff in Hin as ([k' v] & Hk & Hin). cbn in Hk. subst k'.
    destruct (mapM_In_result _ _ _ Hd Hin) as ([k0 v0] & _ & Hdyn).
    unfold dynamic_entry in Hdyn. cbn [fst snd] in Hdyn.
    destruct (get_field s k0) eqn:Ef; [|discriminate].
    destruct (Field_apply _ _ _); [discriminate|].
    injection Hdyn as -> _. congruence.
Qed.

Lemma store_has_const_keys (s : Schema) (ap : bool)
  (fa items : list (string * Any)) (f : Field) :
  Schema_apply s ap fa = inr items -> In f (fields s) ->
  is_const (key f) = true -> In (KeySpec_str (key f)) (keys items).
Proof.
  intros Happly Hf Hc.
  destruct (Schema_apply_shape _ _ _ Happly)
    as (const_items & dyn_items & -> & Hcm & _).
  destruct (mapM_In _ _ f Hcm) as (b & Hb & Hinb);
    [apply filter_In; now split|].
  rewrite <- (const_entry_key _ _ _ Hb).
  unfold keys. rewrite map_app, in_app_iff. left. now apply in_map.
Qed.

Lemma from_json_plain (cls : Class) (a : nat) (json : list (string * Any))
  (allow_partial : Any) (root_path : option KeyPath) (st : State) :
  (forall k, In k (keys json) -> ~ In k reserved_names) ->
  from_json cls a json allow_partial root_path st
  = construct cls a [] allow_partial None root_path false json st.
Proof.
  intros Hres.
  assert (Hfree : forall k, In k reserved_names -> ~ In k (keys json))
    by (intros k Hk Hin; exact (Hres k Hin Hk)).
  unfold from_json.
  rewrite (items_has_not_In "allow_partial" json)
    by (apply Hfree; cbn; tauto).
  rewrite (items_has_not_In "root_path" json) by (apply Hfree; cbn; tauto).
  rewrite (items_get_not_In "sealed" json) by (apply Hfree; cbn; tauto).
  rewrite (items_get_not_In "explicit_init" json)
    by (apply Hfree; cbn; tauto).
  rewrite (items_del_not_In "sealed" json) by (apply Hfree; cbn; tauto).
  rewrite (items_del_not_In "explicit_init" json)
    by (apply Hfree; cbn; tauto).
  reflexivity.
Qed.

Lemma sym_jsonify_items (o : Object) :
  NoDup (keys (dict_items (_sym_attributes o))) ->
  ~ In _TYPE_NAME_KEY (keys (dict_items (_sym_attributes o))) ->
  sym_jsonify o
  = (_TYPE_NAME_KEY, PyStr (serialization_key (__class__ o)))
    :: items_to_json (dict_items (_sym_attributes o)).
Proof.
  intros Hnd Hfree. unfold sym_jsonify, merge, Dict_to_json.
  cbn [fold_left items_set fst snd].
  rewrite fold_items_set_fresh; [reflexivity | now rewrite items_to_json_keys |].
  rewrite items_to_json_keys. intros k Hin [<- | []]. exact (Hfree Hin).
Qed.

(** C1, as the code has it.  [from_json] is the call of the class with the
    entries of the mapping as keyword arguments (for a mapping none of
    whose keys is the name of a parameter of [__init__]).  The mapping
    [sym_jsonify] produces carries the type-identifier entry, so
    [from_json] refuses it with the unexpected-keyword error unless the
    schema resolves that key.  Once that entry is removed, an object whose
    stored values all permit the round trip is reconstructed as an object
    of the same class whose store has the same keys, in the same order,
    with structurally equal values: the two objects are equal, whichever is
    asked. *)
Theorem from_json_roundtrip (cls : Class) (a a' : nat) (args : list Any)
  (sealed : option bool) (root_path root_path' : option KeyPath)
  (explicit_init : bool) (kwargs : list (string * Any))
  (st st' st2 : State) (o : Object) :
  construct cls a args (PyBool false) sealed root_path explicit_init kwargs st
  = (inr o, st') ->
  NoDup (map key (fields (schema cls))) ->
  (forall k, In k (keys (dict_items (_sym_attributes o))) ->
             k <> _TYPE_NAME_KEY /\ ~ In k reserved_names) ->
  permits_roundtrip (schema cls) (dict_items (_sym_attributes o)) ->
  (forall json allow_partial rp,
      (forall k, In k (keys json) -> ~ In k reserved_names) ->
      from_json cls a' json allow_partial rp st2
      = construct cls a' [] allow_partial None rp false json st2)
  /\ (get_field (schema cls) _TYPE_NAME_KEY = None ->
      exists msg,
        fst (from_json cls a' (sym_jsonify o) (PyBool false) root_path' st2)
        = inl (TypeError msg)
        /\ mentions (quote_str (PyStr _TYPE_NAME_KEY)) msg)
  /\ (exists o',
        fst (from_json cls a' (items_del _TYPE_NAME_KEY (sym_jsonify o))
                       (PyBool false) root_path' st2) = inr o'
        /\ __class__ o' = cls
        /\ keys (dict_items (_sym_attributes o'))
           = keys (dict_items (_sym_attributes o))
        /\ stores_equal reference_identical
                        (dict_items (_sym_attributes o))
                        (dict_items (_sym_attributes o'))
        /\ sym_eq o (as_value o') = true
        /\ sym_eq o' (as_value o) = true).
Proof.
  intros Hnew Hs Hkeys Hrt.
  apply construct_inversion in Hnew as (fa & items & Hfa & Happly & ->).
  cbn [initialized _sym_attributes dict_items __class__] in *.
  assert (Hnd : NoDup (keys items)).
  { pose proof Happly as Hshape.
    apply Schema_apply_shape in Hshape as (c & d & -> & Hc & Hd).
    now apply (store_keys _ _ _ Hc Hd). }
  assert (Htype : ~ In _TYPE_NAME_KEY (keys items))
    by (intros Hin; destruct (Hkeys _ Hin) as [Hne _]; now apply Hne).
  assert (Hjson : forall k, In k (keys (items_to_json items)) ->
                            ~ In k reserved_names).
  { intros k. rewrite items_to_json_keys. intros Hin. now apply Hkeys. }
  rewrite sym_jsonify_items by assumption.
  cbn [initialized _sym_attributes dict_items __class__].
  split; [intros json ap rp; apply from_json_plain|]. split.
  - intros Hnone. rewrite from_json_plain.
    2:{ intros k [<- | Hin]; [cbn; intuition discriminate | now apply Hjson]. }
    eexists. split.
    + refine (proj1 (construct_unmatched cls a' [] false None root_path'
                       false _ st2 _)).
      intros Hnil.
      assert (Hin : In _TYPE_NAME_KEY
                       (snd (resolve (schema cls)
                               (keys ((_TYPE_NAME_KEY,
                                        PyStr (serialization_key cls))
                                      :: items_to_json items)))))
        by (apply unmatched_keys_spec; split; [now left | exact Hnone]).
      rewrite Hnil in Hin. destruct Hin.
    + do 4 apply mentions_after.
      apply (comma_delimited_str_mentions (PyStr _TYPE_NAME_KEY)), in_map.
      apply unmatched_keys_spec. split; [now left | exact Hnone].
  - rewrite items_del_head.
    rewrite items_del_not_In by (now rewrite items_to_json_keys).
    rewrite from_json_plain by exact Hjson.
    destruct (@Schema_apply_roundtrip (schema cls) fa items Hs Hfa Happly Hrt)
      as (items' & Hj & Hrel).
    pose proof (@entries_stores_equal _ items items' Hnd Hrel) as Heq.
    assert (Hb : base_eq (PyDict items) (PyDict items') = true)
      by now apply base_eq_stores.
    erewrite construct_succeeds.
    + eexists. split; [reflexivity|]. split; [reflexivity|].
      cbn [initialized _sym_attributes dict_items __class__].
      split; [exact (@Forall2_keys _ items items' Hrel)|]. split; [exact Heq|].
      unfold sym_eq, is_, type_is, as_value, initialized, class_ref.
      cbn [addr __class__ _sym_attributes dict_items ref_id cls_id].
      rewrite Nat.eqb_refl, (base_eq_sym (PyDict items') (PyDict items)), Hb.
      split; apply orb_true_r.
    + apply filter_none. intros k Hin. rewrite items_to_json_keys in Hin.
      destruct (get_field (schema cls) k) eqn:E; [reflexivity|].
      exfalso.
      exact (@store_keys_resolve (schema cls) false fa items k Happly Hin E).
    + reflexivity.
    + apply _init_keywords_fresh;
        [now rewrite items_to_json_keys | intros k _ []].
    + right. unfold _init_missing_args.
      rewrite filter_none; [reflexivity|]. intros f Hf.
      destruct (is_const (key f)) eqn:Hc; [|now rewrite andb_false_r].
      rewrite (proj2 (items_has_In _ _)); [now rewrite andb_false_r|].
      cbn [app]. rewrite items_to_json_keys.
      exact (@store_has_const_keys (schema cls) false fa items f Happly Hf Hc).
    + cbn [app]. exact Hj.
Qed.

End RoundTrip.

Section Inheritance.
Context {RT : Runtime}.

(** ** Schema inheritance *)

Lemma add_field_fresh (acc : list Field) (f : Field) :
  ~ In (key f) (map key acc) -> add_field acc f = inr (acc ++ [f])%list.
Proof.
  induction acc as [|g acc IH]; cbn; [reflexivity|]. intros Hnot.
  destruct (KeySpec_eqb (key g) (key f)) eqn:E.
  - apply KeySpec_eqb_eq in E. tauto.
  - now rewrite IH by tauto.
Qed.

Lemma add_fields_fresh (acc fs : list Field) :
  NoDup (map key (acc ++ fs)) -> add_fields acc fs = inr (acc ++ fs)%list.
Proof.
  revert acc. induction fs as [|f fs IH]; intros acc Hnd; cbn.
  - now rewrite app_nil_r.
  - rewrite add_field_fresh.
    + rewrite IH; rewrite <- app_assoc; [reflexivity | exact Hnd].
    + rewrite map_app in Hnd. cbn in Hnd.
      apply NoDup_remove_2 in Hnd. rewrite in_app_iff in Hnd. tauto.
Qed.

Lemma has_duplicate_key_NoDup (fs : list Field) :
  NoDup (map key fs) -> has_duplicate_key fs = false.
Proof.
  induction fs as [|f fs IH]; cbn; [reflexivity|].
  intros Hnd. inversion Hnd as [|? ? Hf Hnd']; subst.
  rewrite IH by assumption. rewrite orb_false_r.
  destruct (existsb _ fs) eqn:E; [|reflexivity].
  apply existsb_exists in E as (g & Hg & Hk).
  apply KeySpec_eqb_eq in Hk. exfalso. apply Hf. rewrite <- Hk.
  now apply in_map.
Qed.

Lemma base_schema_fields (bases : list (option Class)) :
  flat_map fields
    (flat_map (fun base_cls => match base_cls with
                               | Some b => [schema b]
                               | None => []
                               end) bases)
  = flat_map (fun base_cls => match base_cls with
                              | Some b => fields (schema b)
                              | None => []
                              end) bases.
Proof.
  induction bases as [|[b|] bases IH]; cbn; [reflexivity | | exact IH].
  now rewrite IH.
Qed.

(** C6, as the model of the schema merge has it.  When no key is declared
    twice among the fields of the bases and the fields the class declares,
    the schema attached by the class statement holds the fields of the
    bases unchanged, base after base in the order of the bases and each in
    its own order, and the schema attached by [members] holds these
    followed by the declared fields; it is the schema every instance of the
    class is validated against. *)
Theorem subclass_schema_inherits_in_order (cls : Class)
  (declared : list Field) (init_arg_list : option (list string))
  (serialization_key : option string) :
  NoDup (map key (inherited_fields cls ++ declared)) ->
  exists c1 c2,
    __init_subclass__ cls = inr c1
    /\ fields (schema c1) = inherited_fields cls
    /\ members declared init_arg_list serialization_key c1 = inr c2
    /\ fields (schema c2) = (inherited_fields cls ++ declared)%list
    /\ (forall a args (allow_partial : bool) sealed root_path explicit_init
               kwargs st st' o,
           construct c2 a args (PyBool allow_partial) sealed root_path
                     explicit_init kwargs st = (inr o, st') ->
           __class__ o = c2
           /\ dict_value_spec (_sym_attributes o) = schema c2).
Proof.
  intros Hnd.
  assert (Hbase : NoDup (map key (inherited_fields cls))).
  { rewrite map_app in Hnd. exact (NoDup_app_remove_r _ _ Hnd). }
  assert (Hdecl : NoDup (map key declared)).
  { rewrite map_app in Hnd. exact (NoDup_app_remove_l _ _ Hnd). }
  unfold __init_subclass__, create_schema. cbn [has_duplicate_key].
  rewrite base_schema_fields. fold (inherited_fields cls).
  rewrite (add_fields_fresh [] (inherited_fields cls)) by exact Hbase.
  cbn [app add_fields].
  eexists. eexists. split; [reflexivity|]. split; [reflexivity|].
  unfold members, create_schema. rewrite (has_duplicate_key_NoDup _ Hdecl).
  cbn -[add_fields inherited_fields type_name auto_init_arg_list].
  rewrite app_nil_r.
  rewrite (add_fields_fresh [] (inherited_fields cls)) by exact Hbase.
  cbn [app]. rewrite (add_fields_fresh _ _ Hnd).
  split; [reflexivity|]. split; [reflexivity|].
  intros a args allow_partial sealed root_path explicit_init kwargs st st' o
         Hnew.
  apply construct_inversion in Hnew as (fa & items & _ & _ & ->).
  split; reflexivity.
Qed.

End Inheritance.

(* ================================================================== *)
(** * Further properties of the module                                  *)
(* ================================================================== *)

(** ** More on association lists *)

Lemma items_get_set_same {V} (k : string) (v : V) (d : list (string * V)) :
  items_get k (items_set k v d) = Some v.
Proof.
  unfold items_get. induction d as [|[k1 v1] d IH]; cbn.
  - now rewrite String.eqb_refl.
  - destruct (String.eqb k1 k) eqn:E; cbn.
    + now rewrite String.eqb_refl.
    + now rewrite E.
Qed.

Lemma items_has_set {V} (k k1 : string) (v : V) (d : list (string * V)) :
  items_has k (items_set k1 v d) = String.eqb k1 k || items_has k d.
Proof.
  unfold items_has. induction d as [|[k' v'] d IH]; cbn; [reflexivity|].
  destruct (String.eqb k' k1) eqn:E; cbn.
  - apply String.eqb_eq in E. subst k'.
    now destruct (String.eqb k1 k).
  - rewrite IH. now destruct (String.eqb k' k), (String.eqb k1 k).
Qed.

Lemma items_get_fold_set_other {V} (l acc : list (string * V)) (k : string) :
  ~ In k (keys l) ->
  items_get k (fold_left (fun fa nv => items_set (fst nv) (snd nv) fa) l acc)
  = items_get k acc.
Proof.
  revert acc. induction l as [|[k1 v1] l IH]; intros acc Hnot; cbn;
    [reflexivity|].
  cbn in Hnot. rewrite IH by tauto.
  apply items_get_set_other. intros ->. tauto.
Qed.



Lemma keys_items_del {V} (k k' : string) (d : list (string * V)) :
  In k (keys (items_del k' d)) -> In k (keys d) /\ k <> k'.
Proof.
  unfold keys, items_del. rewrite !in_map_iff.
  intros ([k0 v] & Hk & Hin). cbn in Hk. subst k0.
  apply filter_In in Hin as [Hin Hne]. cbn in Hne.
  apply negb_true_iff, String.eqb_neq in Hne.
  split; [now exists (k, v) | exact Hne].
Qed.



Section Construction.
Context {RT : Runtime}.

(** ** The outcomes of a call of the class *)

(** A call with a boolean [allow_partial] either raises, having fired no
    hook and built no store, or has gone through every stage of
    [__init__]. *)
Lemma construct_outcome (cls : Class) (a : nat) (args : list Any)
  (allow_partial : bool) (sealed : option bool) (root_path : option KeyPath)
  (explicit_init : bool) (kwargs : list (string * Any)) (st : State) :
  (exists e,
      construct cls a args (PyBool allow_partial) sealed root_path
                explicit_init kwargs st
      = (inl e, {| st_self := entered cls a allow_partial
                                (sealed_or_default cls sealed) root_path;
                   st_events := st_events st;
                   sealed_scope := sealed_scope st;
                   accessor_writable_scope := accessor_writable_scope st |}))
  \/ (exists fa0 fa items,
         snd (resolve (schema cls) (keys kwargs)) = []
         /\ _init_positional cls args = inr fa0
         /\ _init_keywords cls kwargs fa0 = inr fa
         /\ (allow_partial = true \/ _init_missing_args cls fa = [])
         /\ Schema_apply (schema cls) allow_partial fa = inr items).
Proof.
  destruct (snd (resolve (schema cls) (keys kwargs))) as [|u us] eqn:Hres.
  2:{ left. unfold construct, __init__, bind, get_self. run.
      rewrite Hres. run. eexists. reflexivity. }
  destruct (_init_positional cls args) as [e|fa0] eqn:Hpos.
  { left. unfold construct, __init__, bind, get_self. run.
    rewrite Hres. run. rewrite Hpos. run. eexists. reflexivity. }
  destruct (_init_keywords cls kwargs fa0) as [e|fa] eqn:Hkw.
  { left. unfold construct, __init__, bind, get_self. run.
    rewrite Hres. run. rewrite Hpos. run. rewrite Hkw. run.
    eexists. reflexivity. }
  destruct (is_nil (if negb allow_partial
                    then _init_missing_args cls fa else [])) eqn:Hnil.
  2:{ left. unfold construct, __init__, bind, get_self. run.
      rewrite Hres. run. rewrite Hpos. run. rewrite Hkw. run.
      unfold accepts_partial. run. rewrite Hnil. run.
      eexists. reflexivity. }
  destruct (Schema_apply (schema cls) allow_partial fa) as [e|items] eqn:Happly.
  { left. unfold construct, __init__, bind, get_self. run.
    rewrite Hres. run. rewrite Hpos. run. rewrite Hkw. run.
    unfold accepts_partial. run. rewrite Hnil. run.
    unfold Dict_new. change (sym_fields cls) with (schema cls).
    rewrite Happly. run. eexists. reflexivity. }
  right. exists fa0, fa, items. repeat split; try assumption.
  destruct allow_partial; [now left | right].
  cbn in Hnil. now destruct (_init_missing_args cls fa).
Qed.

Lemma construct_success_inv (cls : Class) (a : nat) (args : list Any)
  (allow_partial : bool) (sealed : option bool) (root_path : option KeyPath)
  (explicit_init : bool) (kwargs : list (string * Any)) (st st' : State)
  (o : Object) :
  construct cls a args (PyBool allow_partial) sealed root_path explicit_init
            kwargs st = (inr o, st') ->
  exists fa0 fa items,
    snd (resolve (schema cls) (keys kwargs)) = []
    /\ _init_positional cls args = inr fa0
    /\ _init_keywords cls kwargs fa0 = inr fa
    /\ (allow_partial = true \/ _init_missing_args cls fa = [])
    /\ Schema_apply (schema cls) allow_partial fa = inr items
    /\ o = initialized cls a allow_partial (sealed_or_default cls sealed)
                       root_path items
    /\ st' = {| st_self := o;
                st_events := (st_events st ++ [OnInit a; OnBound a])%list;
                sealed_scope := sealed_scope st;
                accessor_writable_scope := accessor_writable_scope st |}.
Proof.
  intros H.
  destruct (construct_outcome cls a args allow_partial sealed root_path
              explicit_init kwargs st)
    as [(e & He) | (fa0 & fa & items & Hres & Hpos & Hkw & Hmiss & Happly)].
  - rewrite He in H. discriminate.
  - exists fa0, fa, items. repeat (split; [assumption|]).
    erewrite construct_succeeds in H; try eassumption.
    injection H as <- <-. split; reflexivity.
Qed.

(** X1.  An [allow_partial] argument that is not a [bool] makes the call
    raise a [TypeError] that shows the value given, before any other
    argument is looked at: positional arguments and keywords play no part,
    no hook has fired and the instance is left as [object.__new__] made
    it. *)
Theorem allow_partial_must_be_bool (cls : Class) (a : nat) (args : list Any)
  (allow_partial : Any) (sealed : option bool) (root_path : option KeyPath)
  (explicit_init : bool) (kwargs : list (string * Any)) (st : State) :
  (forall b, allow_partial <> PyBool b) ->
  construct cls a args allow_partial sealed root_path explicit_init kwargs st
  = (inl (TypeError
            ("Expect bool type for argument 'allow_partial' in "
             ++ "symbolic.Object.__init__ but encountered "
             ++ format_str allow_partial ++ ".")),
     {| st_self := blank cls a; st_events := st_events st;
        sealed_scope := sealed_scope st;
        accessor_writable_scope := accessor_writable_scope st |}).
Proof.
  intros Hnot. unfold construct, __init__, bind, get_self.
  destruct allow_partial; try reflexivity.
  now destruct (Hnot b).
Qed.

(** X2.  The object a successful call returns is at the address of the new
    instance and of the class called; it is sealed as the [sealed] argument
    says and, when that is [None], exactly when the class disallows
    symbolic mutation; attribute assignment is open exactly when the class
    allows symbolic assignment; it has no parent, the given root path and no
    ordinary attribute; the store carries the same flags, the schema of the
    class and the object as its parent; and [_on_init] followed by
    [_on_bound] are the hooks that fired, once each. *)
Theorem new_object_postconditions (cls : Class) (a : nat) (args : list Any)
  (allow_partial : bool) (sealed : option bool) (root_path : option KeyPath)
  (explicit_init : bool) (kwargs : list (string * Any)) (st st' : State)
  (o : Object) :
  construct cls a args (PyBool allow_partial) sealed root_path explicit_init
            kwargs st = (inr o, st') ->
  (__class__ o = cls /\ addr o = a /\ _allow_partial o = allow_partial
   /\ _sealed o = match sealed with
                  | Some b => b
                  | None => negb (allow_symbolic_mutation cls)
                  end
   /\ _accessor_writable o = allow_symbolic_assignment cls
   /\ _sym_parent o = None
   /\ _sym_path o = match root_path with Some p => p | None => [] end
   /\ __dict__ o = [])
  /\ in_step o
  /\ st_self st' = o
  /\ st_events st' = (st_events st ++ [OnInit a; OnBound a])%list
  /\ sealed_scope st' = sealed_scope st
  /\ accessor_writable_scope st' = accessor_writable_scope st.
Proof.
  intros H.
  apply construct_success_inv in H
    as (fa0 & fa & items & _ & _ & _ & _ & _ & -> & ->).
  split; [|split; [|repeat split]].
  - repeat split.
  - repeat split.
Qed.

Lemma not_private_not_reserved (k : string) :
  startswith k "_" = false ->
  base_eq (PyStr k) (PyStr "_sym_attributes") = false.
Proof.
  intros H. cbn [base_eq]. destruct (String.eqb k "_sym_attributes") eqn:E;
    [|reflexivity].
  apply String.eqb_eq in E. subst k. discriminate H.
Qed.

(** X3.  A call that raises, for whatever reason, has fired no hook and
    opened or closed no scope, and the instance it leaves behind has no
    store: asked for a symbolic attribute, it raises the [ValueError] that
    asks for the call of [super().__init__] (on a class that allows
    symbolic attributes). *)
Theorem failed_call_fires_no_hook (cls : Class) (a : nat) (args : list Any)
  (allow_partial : Any) (sealed : option bool) (root_path : option KeyPath)
  (explicit_init : bool) (kwargs : list (string * Any)) (st st' : State)
  (e : exn) :
  construct cls a args allow_partial sealed root_path explicit_init kwargs st
  = (inl e, st') ->
  st_events st' = st_events st
  /\ sealed_scope st' = sealed_scope st
  /\ accessor_writable_scope st' = accessor_writable_scope st
  /\ addr (st_self st') = a /\ __class__ (st_self st') = cls
  /\ has_sym_attributes (st_self st') = false
  /\ (allow_symbolic_attribute cls = true ->
      forall k, startswith k "_" = false ->
      sym_hasattr (st_self st') (PyStr k)
      = inl (ValueError (__name__ cls
                         ++ ".__init__ should call `super().__init__`."))).
Proof.
  intros H.
  assert (Hbool : (exists b, allow_partial = PyBool b)
                  \/ forall b, allow_partial <> PyBool b).
  { destruct allow_partial; try (right; discriminate). left. now eexists. }
  destruct Hbool as [[b ->] | Hnot].
  - destruct (construct_outcome cls a args b sealed root_path
                explicit_init kwargs st)
      as [(e' & He)
         | (fa0 & fa & items & Hres & Hpos & Hkw & Hmiss & Happly)].
    + rewrite He in H. injection H as <- <-. repeat split.
      intros Hattr k Hk. unfold sym_hasattr, self_sym_attributes.
      rewrite (not_private_not_reserved _ Hk), Hk.
      unfold self_allow_symbolic_attribute, getattr_flag.
      cbn [entered has_sym_attributes __dict__ __class__ items_get find
           option_map negb st_self].
      now rewrite Hattr.
    + erewrite construct_succeeds in H; try eassumption. discriminate.
  - unfold construct, __init__, bind, get_self in H.
    destruct allow_partial;
      try (injection H as <- <-; repeat split;
           intros Hattr k Hk; unfold sym_hasattr, self_sym_attributes;
           rewrite (not_private_not_reserved _ Hk), Hk;
           unfold self_allow_symbolic_attribute, getattr_flag;
           cbn [blank has_sym_attributes __dict__ __class__ items_get find
                option_map negb st_self];
           now rewrite Hattr).
    now destruct (Hnot b).
Qed.

(** X4.  With every keyword resolved, positional arguments are refused in
    three ways: a class without fields takes none, whatever its argument
    list says; a list that does not end with a variadic entry takes at most
    as many as it has names, and the message gives both counts; and a
    variadic entry that names no field fails the assertion of
    [__init__]. *)
Theorem positional_arguments_refused (cls : Class) (a : nat) (args : list Any)
  (allow_partial : bool) (sealed : option bool) (root_path : option KeyPath)
  (explicit_init : bool) (kwargs : list (string * Any)) (st : State) :
  args <> [] ->
  snd (resolve (schema cls) (keys kwargs)) = [] ->
  let names := init_arg_list cls in
  let call := fst (construct cls a args (PyBool allow_partial) sealed
                             root_path explicit_init kwargs st) in
  (fields (schema cls) = [] ->
   call = inl (TypeError (__name__ cls ++ "() takes no arguments.")))
  /\ (fields (schema cls) <> [] ->
      names = [] \/ startswith (last names "") "*" = false ->
      List.length names < List.length args ->
      call = inl (TypeError
                    (__name__ cls ++ ".__init__() takes "
                     ++ str_of_nat (List.length names) ++ " positional "
                     ++ auto_plural (List.length names) "argument" None
                     ++ " but " ++ str_of_nat (List.length args) ++ " "
                     ++ auto_plural (List.length args) "was" (Some "were")
                     ++ " given.")))
  /\ (forall named v,
         fields (schema cls) <> [] ->
         names = (named ++ [("*" ++ v)%string])%list ->
         get_field (schema cls) v = None ->
         call = inl AssertionError).
Proof.
  intros Hargs Hres. cbv zeta. split; [|split].
  - intros Hfields. apply construct_positional_error; [exact Hres|].
    unfold _init_positional. now rewrite (is_nil_false Hargs), Hfields.
  - intros Hfields Hplain Hlen.
    apply construct_positional_error; [exact Hres|].
    unfold _init_positional.
    rewrite (is_nil_false Hargs), (is_nil_false Hfields), (not_variadic Hplain).
    now rewrite (proj2 (Nat.ltb_lt _ _) Hlen).
  - intros named v Hfields Hnames Hfield.
    apply construct_positional_error; [exact Hres|].
    unfold _init_positional.
    rewrite (is_nil_false Hargs), (is_nil_false Hfields), Hnames, last_last.
    assert (Hnn : is_nil (named ++ [("*" ++ v)%string])%list = false)
      by (now destruct named).
    rewrite Hnn. cbn [negb andb startswith append String.prefix str_tail].
    destruct (ascii_dec "*" "*") as [_|Hc]; [|congruence].
    replace (String.prefix "" v) with true by (now destruct v).
    now rewrite Hfield.
Qed.

(** ** Where the positional arguments end up *)








(** ** Partial objects *)




(** ** Positional and keyword arguments *)



(** ** The attributes of a new object *)

(** X7.  Every field the schema declares under a constant key that does
    not start with an underscore is a symbolic attribute of every object
    the plain call returns, given or defaulted, and reading it by key gives
    a value; conversely every symbolic attribute of such an object is a key
    the schema resolves. *)
Theorem declared_fields_are_symbolic_attributes (cls : Class) (a : nat)
  (args : list Any) (sealed : option bool)
  (root_path : option KeyPath) (explicit_init : bool)
  (kwargs : list (string * Any)) (st st' : State) (o : Object) :
  construct cls a args (PyBool false) sealed root_path explicit_init
            kwargs st = (inr o, st') ->
  (forall f, In f (fields (schema cls)) -> is_const (key f) = true ->
             startswith (KeySpec_str (key f)) "_" = false ->
             sym_hasattr o (PyStr (KeySpec_str (key f))) = inr true
             /\ exists v, _sym_getattr o (KeySpec_str (key f)) = inr v)
  /\ (forall k, sym_hasattr o (PyStr k) = inr true ->
                get_field (schema cls) k <> None).
Proof.
  intros H.
  apply construct_success_inv in H
    as (fa0 & fa & items & _ & _ & _ & _ & Happly & -> & _).
  split.
  - intros f Hf Hc Hpub.
    pose proof (@store_has_const_keys _ (schema cls) false fa items f
                  Happly Hf Hc) as Hin.
    apply items_has_In in Hin.
    split.
    + unfold sym_hasattr, self_sym_attributes.
      rewrite (not_private_not_reserved _ Hpub).
      unfold Dict_contains.
      cbn [initialized has_sym_attributes _sym_attributes dict_items].
      now rewrite Hpub, Hin.
    + unfold _sym_getattr, self_sym_attributes.
      cbn [initialized has_sym_attributes _sym_attributes dict_items].
      destruct (items_get _ items) as [v|] eqn:E; [now exists v|].
      apply items_get_has in Hin. congruence.
  - intros k Hk. unfold sym_hasattr, self_sym_attributes in Hk.
    destruct (base_eq _ _); [discriminate|].
    destruct (negb (startswith k "_")); [|discriminate].
    cbn [initialized has_sym_attributes _sym_attributes dict_items] in Hk.
    injection Hk as Hk.
    unfold Dict_contains in Hk.
    cbn [initialized _sym_attributes dict_items] in Hk.
    apply items_has_In in Hk.
    exact (@store_keys_resolve _ (schema cls) false fa items k Happly Hk).
Qed.

(** ** [from_json] and the parameter names of [__init__] *)

Lemma store_key_origin (s : Schema) (ap : bool)
  (fa items : list (string * Any)) (k : string) :
  Schema_apply s ap fa = inr items -> In k (keys items) ->
  is_const_key_of s k = true \/ In k (keys fa).
Proof.
  intros Happly Hin.
  destruct (Schema_apply_shape _ _ _ Happly) as (c & d & -> & Hc & Hd).
  unfold keys in Hin. rewrite map_app, in_app_iff in Hin.
  destruct Hin as [Hin | Hin].
  - left. destruct (store_keys _ _ _ Hc Hd) as (H1 & _). now apply H1.
  - right. apply in_map_iff in Hin as ([k' v] & Hk & Hin).
    destruct (mapM_In_result _ _ _ Hd Hin) as ([k0 v0] & Hin0 & Hdyn).
    apply dynamic_entry_key in Hdyn. apply filter_In in Hin0 as [Hin0 _].
    cbn in Hk, Hdyn. subst. exact (In_keys _ _ _ Hin0).
Qed.

Lemma _init_keywords_keys (cls : Class) (kwargs fa0 fa : list (string * Any))
  (k : string) :
  _init_keywords cls kwargs fa0 = inr fa -> In k (keys fa) ->
  In k (keys fa0) \/ In k (keys kwargs).
Proof.
  revert fa0. induction kwargs as [|[k1 v1] kwargs IH]; intros fa0; cbn.
  - intros H. injection H as <-. now left.
  - destruct (items_get k1 fa0); [discriminate|].
    intros H Hin. destruct (IH _ H Hin) as [Hk | Hk]; [|now right; right].
    rewrite items_set_keys in Hk. destruct (items_has k1 fa0); [now left|].
    apply in_app_iff in Hk as [Hk | [<- | []]]; [now left | right; now left].
Qed.

(** X8.  [from_json] passes the entries of the mapping as keywords, so an
    entry named as a parameter of [__init__] is taken as that parameter:
    one named [allow_partial] or [root_path] repeats a keyword of the call
    and makes it raise a [TypeError] with nothing done; one named [sealed]
    decides whether the new object is sealed; and none of the four names
    becomes a key of the store unless the schema declares a field under
    it. *)
Theorem from_json_binds_parameter_names (cls : Class) (a : nat)
  (json_value : list (string * Any)) (allow_partial : Any)
  (root_path : option KeyPath) (st : State) :
  (items_has "allow_partial" json_value = true
   \/ items_has "root_path" json_value = true ->
   exists msg,
     from_json cls a json_value allow_partial root_path st
     = (inl (TypeError msg), st))
  /\ (forall o st',
         from_json cls a json_value allow_partial root_path st = (inr o, st') ->
         _sealed o = match items_get "sealed" json_value with
                     | None | Some PyNone => negb (allow_symbolic_mutation cls)
                     | Some v => truthy v
                     end
         /\ forall k, In k reserved_names ->
                      (forall f, In f (fields (schema cls)) ->
                                 key f <> ConstStrKey k) ->
                      ~ In k (keys (dict_items (_sym_attributes o)))).
Proof.
  split.
  - unfold from_json. intros [H | H].
    + rewrite H. eexists. reflexivity.
    + destruct (items_has "allow_partial" json_value);
        [|rewrite H]; eexists; reflexivity.
  - unfold from_json. intros o st' H.
    destruct (items_has "allow_partial" json_value) eqn:Hap; [discriminate|].
    destruct (items_has "root_path" json_value) eqn:Hrp; [discriminate|].
    assert (Hbool : exists b, allow_partial = PyBool b).
    { destruct allow_partial; try discriminate H. now eexists. }
    destruct Hbool as [b ->].
    apply construct_success_inv in H
      as (fa0 & fa & items & Hres & Hpos & Hkw & _ & Happly & -> & _).
    split.
    + cbn [initialized _sealed]. unfold sealed_or_default.
      destruct (items_get "sealed" json_value) as [[]|]; reflexivity.
    + intros k Hk Hfree Hin.
      cbn [initialized _sym_attributes dict_items] in Hin.
      destruct (store_key_origin _ _ _ _ Happly Hin) as [Hc | Hfa].
      * apply is_const_key_of_spec in Hc as (f & Hf & Hkf).
        exact (Hfree f Hf Hkf).
      * destruct (_init_keywords_keys _ _ _ _ Hkw Hfa) as [H0 | Hkwargs].
        -- cbn in Hpos. injection Hpos as <-. destruct H0.
        -- apply keys_items_del in Hkwargs as [Hkwargs Hne1].
           apply keys_items_del in Hkwargs as [Hjson Hne2].
           apply items_has_In in Hjson.
           destruct Hk as [<- | [<- | [<- | [<- | []]]]]; congruence.
Qed.

End Construction.

Section Serialization.
Context {RT : Runtime}.

(** ** The mapping [sym_jsonify] builds *)


(** X10.  The class statement gives a class its type name,
    [<module>.<name>], as serialization key, and [members] replaces it by
    the key it is given, if any, without renaming the class; the mapping
    [sym_jsonify] builds for an instance carries that key under the
    type-identifier key, as long as the schema has no field of that
    name. *)
Theorem serialization_key_names_the_class (cls c1 c2 : Class)
  (declared : list Field) (init_arg_list : option (list string))
  (key_override : option string)
  (a : nat) (args : list Any) (allow_partial : bool) (sealed : option bool)
  (root_path : option KeyPath) (explicit_init : bool)
  (kwargs : list (string * Any)) (st st' : State) (o : Object) :
  __init_subclass__ cls = inr c1 ->
  members declared init_arg_list key_override c1 = inr c2 ->
  construct c2 a args (PyBool allow_partial) sealed root_path explicit_init
            kwargs st = (inr o, st') ->
  get_field (schema c2) _TYPE_NAME_KEY = None ->
  serialization_key c1 = type_name cls
  /\ type_name c2 = type_name cls
  /\ serialization_key c2 = match key_override with
                            | Some k => k
                            | None => type_name cls
                            end
  /\ items_get _TYPE_NAME_KEY (sym_jsonify o)
     = Some (PyStr (serialization_key c2)).
Proof.
  intros H1 H2 Hnew Hfree.
  unfold __init_subclass__ in H1.
  destruct (create_schema _ _ _) as [e|s1]; [discriminate|].
  injection H1 as <-.
  unfold members in H2.
  destruct (create_schema _ _ _) as [e|s2]; [discriminate|].
  injection H2 as <-.
  split; [reflexivity|]. split; [reflexivity|].
  split; [now destruct key_override|].
  apply construct_success_inv in Hnew
    as (fa0 & fa & items & _ & _ & _ & _ & Happly & -> & _).
  unfold sym_jsonify, merge, Dict_to_json.
  cbn [fold_left items_set fst snd initialized _sym_attributes dict_items
       __class__].
  rewrite items_get_fold_set_other.
  - unfold items_get. cbn. now destruct key_override.
  - rewrite items_to_json_keys. intros Hin.
    exact (store_keys_resolve _ _ _ _ Happly Hin Hfree).
Qed.

End Serialization.

Section Mutation.
Context {RT : Runtime}.
Variable object__setattr__ : Object -> string -> Any -> exn + Object.

(** ** Assignment to an attribute *)

Lemma setattr_symbolic (st : State) (name : string) (v v' : Any) (f : Field) :
  let self := st_self st in
  let cls := __class__ self in
  in_step self ->
  self_allow_symbolic_attribute self = true ->
  get_field (schema cls) name = Some f ->
  startswith name "_" = false ->
  treats_as_sealed st (_sealed self) = false ->
  writtable_via_accessors st (_accessor_writable self) = true ->
  Field_apply f v (_allow_partial self) = inr v' ->
  __setattr__ object__setattr__ name v st
  = (inr tt,
     {| st_self :=
          with_sym_attributes self
            (Dict_with_items (_sym_attributes self)
               (items_set name v' (dict_items (_sym_attributes self))));
        st_events :=
          (st_events st
           ++ (if base_eq (stored self name) v' then []
               else [OnChange (addr self)
                       [{| update_path := [name];
                           old_value := stored self name;
                           new_value := v' |}];
                     OnBound (addr self)]))%list;
        sealed_scope := sealed_scope st;
        accessor_writable_scope := accessor_writable_scope st |}).
Proof.
  destruct st as [self ev ss aw]. cbn [st_self].
  intros (Hset & Hs & Hw & Hp & Hv & Hpar) Hattr Hfield Hname Hsealed Hwr
         Happly.
  unfold __setattr__, bind, get_self, get_state. cbn [st_self].
  rewrite Hattr, Hfield, Hname. cbn [negb orb is_some].
  rewrite Hsealed, Hwr. cbn [negb].
  unfold self_sym_attributes. rewrite Hset. cbn [lift ret].
  unfold Dict_setitem. rewrite Hs, Hsealed, Hv, Hfield, Hp, Happly.
  unfold stored. cbn -[base_eq].
  destruct (base_eq _ v'); cbn.
  - now rewrite app_nil_r.
  - unfold fire. cbn [st_self st_events sealed_scope accessor_writable_scope].
    now rewrite <- app_assoc.
Qed.

(** X13.  On an object in step with its store, for which symbolic
    attributes are on ([self.allow_symbolic_attribute]), neither treated as
    sealed nor closed to accessors, the assignment to a declared name
    without leading underscore of a value its field accepts succeeds;
    reading the attribute by key then gives the value as the field
    converted it, the name is a symbolic attribute, and every other
    attribute reads as before. *)
Theorem assignment_stores_the_validated_value (st : State) (name : string)
  (v v' : Any) (f : Field) :
  let self := st_self st in
  let cls := __class__ self in
  in_step self ->
  self_allow_symbolic_attribute self = true ->
  get_field (schema cls) name = Some f ->
  startswith name "_" = false ->
  treats_as_sealed st (_sealed self) = false ->
  writtable_via_accessors st (_accessor_writable self) = true ->
  Field_apply f v (_allow_partial self) = inr v' ->
  let st' := snd (__setattr__ object__setattr__ name v st) in
  fst (__setattr__ object__setattr__ name v st) = inr tt
  /\ _sym_getattr (st_self st') name = inr v'
  /\ sym_hasattr (st_self st') (PyStr name) = inr true
  /\ (forall k, k <> name ->
                _sym_getattr (st_self st') k = _sym_getattr self k)
  /\ __dict__ (st_self st') = __dict__ self.
Proof.
  intros self cls Hstep Hattr Hfield Hname Hsealed Hwr Happly.
  rewrite (setattr_symbolic st name v Hstep Hattr Hfield Hname Hsealed Hwr
             Happly).
  destruct Hstep as (Hset & _).
  cbn [fst snd st_self st_events]. split; [reflexivity|].
  unfold _sym_getattr, sym_hasattr, self_sym_attributes, Dict_contains.
  fold self. rewrite Hset.
  cbn [with_sym_attributes has_sym_attributes _sym_attributes Dict_with_items
       dict_items].
  split; [now rewrite items_get_set_same|]. split.
  - rewrite (not_private_not_reserved _ Hname), Hname, items_has_set.
    cbn [negb]. now rewrite String.eqb_refl.
  - split; [|reflexivity]. intros k Hk.
    now rewrite items_get_set_other by exact Hk.
Qed.

(** X14.  On an object for which symbolic attributes are on
    ([self.allow_symbolic_attribute]) and which does not count as writable
    through accessors, which is how a class that leaves
    [allow_symbolic_assignment] off makes its instances, the assignment to
    a declared name without leading underscore is refused with a
    [WritePermissionError] and the state is left as it was; when the object
    is not treated as sealed either, the message is the one that names the
    class and its [allow_symbolic_assignment]. *)
Theorem assignment_refused_unless_writable (st : State) (name : string)
  (v : Any) :
  let self := st_self st in
  let cls := __class__ self in
  self_allow_symbolic_attribute self = true ->
  get_field (schema cls) name <> None ->
  startswith name "_" = false ->
  writtable_via_accessors st (_accessor_writable self) = false ->
  exists msg,
    __setattr__ object__setattr__ name v st
    = (inl (WritePermissionError msg), st)
    /\ (treats_as_sealed st (_sealed self) = false ->
        msg = _error_message self
                ("Cannot set attribute of <class " ++ __name__ cls ++ "> "
                 ++ "while `" ++ __name__ cls
                 ++ ".allow_symbolic_assignment` "
                 ++ "is set to False or under `pg.as_sealed` context.")).
Proof.
  destruct st as [self ev ss aw]. cbn [st_self].
  intros Hattr Hfield Hname Hwr.
  unfold __setattr__, bind, get_self, get_state. cbn [st_self].
  rewrite Hattr, Hname.
  destruct (get_field (schema (__class__ self)) name); [|congruence].
  cbn [negb orb is_some].
  destruct (treats_as_sealed _ _).
  - eexists. split; [reflexivity | discriminate].
  - rewrite Hwr. eexists. split; reflexivity.
Qed.

(** X16.  An assignment or a [rebind] that is refused with a
    [WritePermissionError] has changed nothing: the object, its store, the
    hooks fired and the scopes are as before the call. *)
Theorem refused_mutation_leaves_object (st : State) (msg : string) :
  (forall name v,
      fst (__setattr__ object__setattr__ name v st)
      = inl (WritePermissionError msg) ->
      snd (__setattr__ object__setattr__ name v st) = st)
  /\ (forall path_value_pairs,
         fst (_sym_rebind path_value_pairs st)
         = inl (WritePermissionError msg) ->
         snd (_sym_rebind path_value_pairs st) = st).
Proof.
  destruct st as [self ev ss aw]. split.
  - intros name v. unfold __setattr__, bind, get_self, get_state.
    cbn [st_self].
    destruct (negb _ || negb _ || startswith name "_").
    { destruct (object__setattr__ self name v); [reflexivity | discriminate]. }
    destruct (treats_as_sealed _ _); [reflexivity|].
    destruct (negb (writtable_via_accessors _ _)); [reflexivity|].
    destruct (self_sym_attributes self) as [e'|d0]; [reflexivity|].
    cbn [lift ret].
    destruct (Dict_setitem _ _ _ _) as [e'|[d u]]; [reflexivity|].
    cbn. destruct u; discriminate.
  - intros pvs. unfold _sym_rebind, bind, get_self, get_state.
    cbn [st_self].
    destruct (treats_as_sealed _ _); [reflexivity|].
    destruct (self_sym_attributes self) as [e'|d0]; [reflexivity|].
    cbn [lift ret].
    destruct (Dict_sym_rebind _ _) as [e'|[d u]]; [reflexivity|].
    discriminate.
Qed.

(** ** What every method keeps *)

Lemma Dict_setitem_flags (st : State) (d d' : Dict) (k : string) (v : Any)
  (u : option FieldUpdate) :
  Dict_setitem st d k v = inr (d', u) ->
  exists items, d' = Dict_with_items d items.
Proof.
  unfold Dict_setitem. destruct (treats_as_sealed _ _); [discriminate|].
  destruct (get_field _ _); [|discriminate].
  destruct (Field_apply _ _ _); [discriminate|].
  intros H. injection H as <- _. now eexists.
Qed.

Lemma Dict_sym_rebind_flags (d d' : Dict) (pvs : list (KeyPath * Any))
  (u : list FieldUpdate) :
  Dict_sym_rebind d pvs = inr (d', u) ->
  exists items, d' = Dict_with_items d items.
Proof.
  unfold Dict_sym_rebind. destruct (mapM _ _); [discriminate|].
  intros H. injection H as <- _. now eexists.
Qed.

(** X17.  An object that is in step with its store (the store is set, with
    the same sealed, accessor-writable and partial flags, the schema of the
    class as its specification and the object as its parent) stays so
    through [seal], [set_accessor_writable], the assignment to a symbolic
    attribute (a declared name without leading underscore, symbolic
    attributes being on), [rebind], [sym_setparent] and the update of its
    path, whether the call succeeds or raises; none of them changes the
    class or the address of the object, nor the scopes. *)
Theorem methods_keep_object_and_store_in_step (st : State) :
  in_step (st_self st) ->
  let kept := fun st' : State =>
    in_step (st_self st')
    /\ __class__ (st_self st') = __class__ (st_self st)
    /\ addr (st_self st') = addr (st_self st)
    /\ sealed_scope st' = sealed_scope st
    /\ accessor_writable_scope st' = accessor_writable_scope st in
  (forall b, kept (snd (seal b st)))
  /\ (forall b, kept (snd (set_accessor_writable b st)))
  /\ (forall name v,
         self_allow_symbolic_attribute (st_self st) = true ->
         get_field (schema (__class__ (st_self st))) name <> None ->
         startswith name "_" = false ->
         kept (snd (__setattr__ object__setattr__ name v st)))
  /\ (forall path_value_pairs, kept (snd (_sym_rebind path_value_pairs st)))
  /\ (forall parent, kept (snd (sym_setparent parent st)))
  /\ (forall old_path new_path,
         kept (snd (_update_children_paths old_path new_path st))).
Proof.
  destruct st as [self ev ss aw]. cbn [st_self].
  intros (Hset & Hs & Hw & Hp & Hv & Hpar). cbv zeta.
  split; [|split; [|split; [|split; [|split]]]].
  - intros b. unfold seal, self_sym_attributes, bind, get_self.
    cbn [st_self]. rewrite Hset. cbn. repeat split; assumption.
  - intros b. unfold set_accessor_writable, self_sym_attributes, bind,
      get_self.
    cbn [st_self]. rewrite Hset. cbn. repeat split; assumption.
  - intros name v Hattr Hfield Hname.
    unfold __setattr__, bind, get_self, get_state.
    cbn [st_self]. rewrite Hattr, Hname.
    destruct (get_field (schema (__class__ self)) name); [|congruence].
    cbn [negb orb is_some].
    destruct (treats_as_sealed _ _); [cbn; repeat split; assumption|].
    destruct (negb (writtable_via_accessors _ _));
      [cbn; repeat split; assumption|].
    unfold self_sym_attributes. rewrite Hset. cbn [lift ret].
    destruct (Dict_setitem _ _ _ _) as [e'|[d u]] eqn:E;
      [cbn; repeat split; assumption|].
    apply Dict_setitem_flags in E as [items ->].
    destruct u; cbn; repeat split; assumption.
  - intros pvs. unfold _sym_rebind, bind, get_self, get_state.
    cbn [st_self].
    destruct (treats_as_sealed _ _); [cbn; repeat split; assumption|].
    unfold self_sym_attributes. rewrite Hset. cbn [lift ret].
    destruct (Dict_sym_rebind _ _) as [e'|[d u]] eqn:E;
      [cbn; repeat split; assumption|].
    apply Dict_sym_rebind_flags in E as [items ->].
    cbn; repeat split; assumption.
  - intros parent.
    unfold sym_setparent, bind, get_self, Symbolic_sym_setparent, put_self.
    cbn [st_self].
    destruct (negb _); cbn; repeat split; assumption.
  - intros old_path new_path.
    unfold _update_children_paths, self_sym_attributes, bind, get_self.
    cbn [st_self]. rewrite Hset. cbn. repeat split; assumption.
Qed.

End Mutation.

(** ** Comparison and attribute lookup *)

Section Comparing.
Context {RT : Runtime}.

(** X18.  [sym_eq] gives the same answer whichever of two objects is asked
    about the other, it holds of an object and itself, and it answers
    [False], without raising, for anything that is not a symbolic
    object. *)
Theorem sym_eq_symmetric (A B : Object) (other : Any) :
  sym_eq A (as_value B) = sym_eq B (as_value A)
  /\ sym_eq A (as_value A) = true
  /\ (match other with PyObject _ _ _ => False | _ => True end ->
      sym_eq A other = false).
Proof.
  unfold sym_eq, is_, type_is, as_value, class_ref. cbn [ref_id].
  split; [|split].
  - rewrite (Nat.eqb_sym (addr A) (addr B)),
      (Nat.eqb_sym (cls_id (__class__ A)) (cls_id (__class__ B))).
    f_equal. f_equal. apply base_eq_sym.
  - now rewrite Nat.eqb_refl.
  - destruct other; intros H; try reflexivity. destruct H.
Qed.

(** X19.  Whether or not the class uses symbolic comparison, an object
    equals itself and is not unequal to itself; [__ne__] is
    [NotImplemented] exactly when [__eq__] is, and otherwise the negation
    of its answer. *)
Theorem ne_is_the_complement_of_eq (self : Object) (other : Any) :
  __eq__ self (as_value self) = Some true
  /\ __ne__ self (as_value self) = Some false
  /\ (__ne__ self other = None <-> __eq__ self other = None)
  /\ (forall b, __ne__ self other = Some b
                <-> __eq__ self other = Some (negb b)).
Proof.
  assert (Hrefl : __eq__ self (as_value self) = Some true).
  { unfold __eq__, sym_eq, is_, as_value. rewrite Nat.eqb_refl.
    now destruct (self_use_symbolic_comparison _). }
  split; [exact Hrefl|]. unfold __ne__. rewrite Hrefl.
  split; [reflexivity|].
  destruct (__eq__ self other) as [r|].
  - split; [split; discriminate|].
    intros b. split; intros H; injection H as H; f_equal.
    + subst b. now rewrite negb_involutive.
    + subst r. now rewrite negb_involutive.
  - split; [tauto|]. intros b. split; discriminate.
Qed.

(** X20.  For an object for which symbolic comparison is off
    ([self.use_symbolic_comparison]), [__eq__] answers [True] exactly for
    the object itself and never answers [False]: another object, even of
    the same class and with the same stored values, gets [NotImplemented]
    from [__eq__] and from [__ne__]; and its hash is the one of its
    identity. *)
Theorem identity_comparison_without_symbolic_comparison (self : Object)
  (other : Any) :
  self_use_symbolic_comparison self = false ->
  (__eq__ self other = Some true <-> is_ self other = true)
  /\ __eq__ self other <> Some false
  /\ __ne__ self other <> Some true
  /\ (forall B : Object,
         addr B <> addr self ->
         __eq__ self (as_value B) = None /\ __ne__ self (as_value B) = None)
  /\ __hash__ self = hash_id (addr self).
Proof.
  intros Hoff. unfold __ne__, __eq__, __hash__. rewrite Hoff.
  split; [|split; [|split; [|split]]].
  - destruct (is_ self other); split; congruence.
  - destruct (is_ self other); discriminate.
  - destruct (is_ self other); discriminate.
  - intros B HB. unfold is_, as_value.
    apply not_eq_sym, Nat.eqb_neq in HB. now rewrite HB.
  - reflexivity.
Qed.

(** X21.  Attribute lookup asks the regular lookup first and returns what
    it finds; only its [AttributeError] is turned into a lookup in the
    store.  Then, symbolic attributes being on for the object
    ([self.allow_symbolic_attribute]), a key of the store without leading
    underscore gives the stored value, and on an instance whose [__init__]
    has not set the store a name without leading underscore, like the name
    ['_sym_attributes'] itself, gives the [ValueError] that asks for the
    call of [super().__init__]; a name with a leading underscore (other
    than ['_sym_attributes']), a name the store does not hold, and any name
    when symbolic attributes are off, gives the [AttributeError] of the
    regular lookup back; and the lookup in the store never ends in a
    [KeyError]. *)
Theorem attribute_lookup_falls_back_to_the_store
  (object__getattribute__ : Object -> string -> exn + Any)
  (self : Object) (name : string) :
  let regular := object__getattribute__ self name in
  let found := __getattribute__ object__getattribute__ self name in
  (forall v, regular = inr v -> found = inr v)
  /\ (forall error v,
         regular = inl (AttributeError error) ->
         self_allow_symbolic_attribute self = true ->
         has_sym_attributes self = true ->
         startswith name "_" = false ->
         items_get name (dict_items (_sym_attributes self)) = Some v ->
         found = inr v)
  /\ (forall error,
         regular = inl (AttributeError error) ->
         self_allow_symbolic_attribute self = true ->
         name = "_sym_attributes"
         \/ (has_sym_attributes self = false
             /\ startswith name "_" = false) ->
         found = inl (ValueError
                        (__name__ (__class__ self)
                         ++ ".__init__ should call `super().__init__`.")))
  /\ (forall error,
         regular = inl (AttributeError error) ->
         self_allow_symbolic_attribute self = false
         \/ (name <> "_sym_attributes"
             /\ (startswith name "_" = true
                 \/ (has_sym_attributes self = true
                     /\ items_has name (dict_items (_sym_attributes self))
                        = false))) ->
         found = inl (AttributeError error))
  /\ (forall k, found = inl (KeyError k) -> regular = inl (KeyError k)).
Proof.
  cbv zeta. unfold __getattribute__. split; [|split; [|split; [|split]]].
  - now intros v ->.
  - intros error v -> -> Hset Hname Hget. cbn [negb].
    unfold sym_hasattr, _sym_getattr, self_sym_attributes, Dict_contains.
    rewrite (not_private_not_reserved _ Hname), Hname, Hset. cbn [negb].
    assert (Hhas : items_has name (dict_items (_sym_attributes self)) = true)
      by (apply items_get_has; congruence).
    rewrite Hhas. now rewrite Hget.
  - intros error -> Hattr Hcase. rewrite Hattr. cbn [negb].
    unfold sym_hasattr, self_sym_attributes.
    destruct Hcase as [-> | [Hset Hname]]; [reflexivity|].
    rewrite (not_private_not_reserved _ Hname), Hname, Hset, Hattr.
    reflexivity.
  - intros error -> [-> | [Hne Hhidden]]; [reflexivity|].
    destruct (negb _); [reflexivity|].
    unfold sym_hasattr, self_sym_attributes, Dict_contains.
    assert (Hres : base_eq (PyStr name) (PyStr "_sym_attributes") = false).
    { cbn [base_eq]. now apply String.eqb_neq. }
    rewrite Hres. destruct Hhidden as [-> | [-> ->]]; [reflexivity|].
    now destruct (negb (startswith name "_")).
  - intros k.
    destruct (object__getattribute__ self name) as [[]|v]; try easy.
    destruct (negb _) eqn:Hattr; [discriminate|].
    unfold sym_hasattr, _sym_getattr, self_sym_attributes, Dict_contains.
    destruct (base_eq _ _); [discriminate|].
    destruct (negb (startswith name "_")); [|discriminate].
    destruct (has_sym_attributes self).
    + destruct (items_has name _) eqn:E; [|discriminate].
      apply items_get_has in E.
      destruct (items_get name _); [discriminate | congruence].
    + rewrite Hattr. discriminate.
Qed.

End Comparing.

(* ================================================================== *)
(** * The scenarios, evaluated                                          *)
(* ================================================================== *)

Section ScenarioChecks.
#[local] Existing Instance scenario_runtime.

(** C9 at a store that holds a key with a leading underscore: the key is
    in the store, and [sym_hasattr] still answers [False]. *)
Lemma sym_hasattr_hides_private_witness :
  Dict_contains (_sym_attributes bag) "_hidden" = true
  /\ sym_hasattr bag (PyStr "_hidden") = inr false
  /\ sym_hasattr bag (PyInt 0) = inr false
  /\ sym_hasattr bag (PyStr "n") = inr true.
Proof.
  split; [reflexivity|]. split; [|split; [|reflexivity]].
  - apply (proj1 (sym_hasattr_hides_private bag (PyStr "_hidden"))).
    split; [reflexivity | discriminate].
  - exact (proj1 (sym_hasattr_hides_private bag (PyInt 0)) I).
Defined.

(** C2 fails for a class that turns symbolic attributes off: the sealed
    object takes the assignment to its schema-declared field as an ordinary
    attribute and raises nothing. *)
Lemma sealed_plain_accepts_assignment :
  _sealed sealed_plain = true
  /\ get_field (schema Plain) "x" <> None
  /\ fst (__setattr__ instance_setattr "x" (PyInt 5) (top sealed_plain))
     = inr tt.
Proof.
  split; [reflexivity|]. split; [discriminate | reflexivity].
Qed.

(** C2 at [Point(1, 2)] sealed, and at the same object unsealed. *)
Lemma sealed_object_refuses_mutation_witness :
  sealed_scope (top sealed_point) = None
  /\ _sealed (st_self (top sealed_point)) = true
  /\ _sym_rebind [(["x"], PyInt 10)] (top sealed_point)
     = (inl (WritePermissionError "Cannot rebind a sealed Point."),
        top sealed_point)
  /\ __setattr__ instance_setattr "x" (PyInt 5) (top sealed_point)
     = (inl (WritePermissionError
               "Cannot set attribute 'x': object is sealed. (path=)"),
        top sealed_point)
  /\ fst (_sym_rebind [(["x"], PyInt 10)]
                      (snd (seal false (top sealed_point))))
     = inr [{| update_path := ["x"]; old_value := PyInt 1;
               new_value := PyInt 10 |}].
Proof.
  split; [reflexivity|]. split; [reflexivity|].
  destruct (sealed_object_refuses_mutation instance_setattr
              (top sealed_point) eq_refl eq_refl)
    as (Hrebind & Hset & Hunsealed).
  split; [exact (Hrebind _)|]. split.
  - apply (Hset "x" (PyInt 5)); [reflexivity | discriminate | reflexivity].
  - destruct (Hunsealed eq_refl [(["x"], PyInt 10)]) as (_ & _ & _ & ->).
    reflexivity.
Defined.

(** C4 at [Point(x=1, y=2, z=3)]. *)
Lemma unexpected_keywords_are_named_witness :
  snd (resolve (schema Point) ["x"; "y"; "z"]) <> []
  /\ fst (construct Point 20 [] (PyBool false) None None false
                    [("x", PyInt 1); ("y", PyInt 2); ("z", PyInt 3)]
                    (top (blank Point 20)))
     = inl (TypeError "Point.__init__() got unexpected keyword argument: 'z'")
  /\ mentions "'z'" "Point.__init__() got unexpected keyword argument: 'z'".
Proof.
  assert (H : snd (resolve (schema Point) ["x"; "y"; "z"]) <> [])
    by discriminate.
  split; [exact H|].
  destruct (unexpected_keywords_are_named Point 20 [] false None None false
              [("x", PyInt 1); ("y", PyInt 2); ("z", PyInt 3)]
              (top (blank Point 20)) H) as (Hr & Hnames & _).
  split; [exact Hr|].
  apply (Hnames "z"); [cbn; tauto | reflexivity].
Defined.





(** C6 fails for [class Both(BaseLow, BaseHigh)], which declares nothing:
    the two bases declare the key [v] with different specifications, and
    the schema of [Both] has one field for it, which accepts what both
    accept and is the field of neither base; whatever the merge of the two
    fields gives, the schema cannot hold both. *)
Lemma shared_key_is_merged :
  inherited_fields Both_statement = [field_v_low; field_v_high]
  /\ __init_subclass__ Both_statement = inr Both
  /\ List.length (fields (schema Both)) = 1
  /\ ~ In field_v_low (fields (schema Both))
  /\ ~ In field_v_high (fields (schema Both))
  /\ (forall (RT : Runtime) (c : Class),
         @__init_subclass__ RT Both_statement = inr c ->
         ~ (In field_v_low (fields (schema c))
            /\ In field_v_high (fields (schema c)))).
Proof.
  assert (Hdiff : field_v_low <> field_v_high).
  { intros H.
    assert (Happly : apply (value field_v_low) (PyInt 11)
                     = apply (value field_v_high) (PyInt 11))
      by (now rewrite H).
    discriminate Happly. }
  split; [reflexivity|]. split; [reflexivity|]. split; [reflexivity|].
  split; [|split].
  - intros [H | []].
    assert (Happly : apply (value (nth 0 (fields (schema Both)) field_x))
                           (PyInt 11)
                     = apply (value field_v_low) (PyInt 11))
      by (cbn [nth fields schema __schema__ Both]; now rewrite H).
    discriminate Happly.
  - intros [H | []].
    assert (Happly : apply (value (nth 0 (fields (schema Both)) field_x))
                           (PyInt (-1))
                     = apply (value field_v_high) (PyInt (-1)))
      by (cbn [nth fields schema __schema__ Both]; now rewrite H).
    discriminate Happly.
  - intros RT c. unfold __init_subclass__, create_schema. cbn.
    destruct (Field_extend _ _) as [e|fg]; cbn; [discriminate|].
    intros H. injection H as <-. cbn.
    intros [[H1 | []] [H2 | []]]. apply Hdiff.
    transitivity fg; [symmetry; exact H1 | exact H2].
Qed.

(** The override of the docstring of [Object]: the field [x] of [Bar]
    accepts the values both specifications accept and has the default of
    the override; it keeps its place and [z] is appended. *)
Example docstring_override :
  map key (fields (schema Bar)) = [ConstStrKey "x"; ConstStrKey "z"]
  /\ default_value (value (nth 0 (fields (schema Bar)) field_x)) = PyInt 1
  /\ apply (value (nth 0 (fields (schema Bar)) field_x)) (PyInt 5)
     = inr (PyInt 5)
  /\ apply (value (nth 0 (fields (schema Bar)) field_x)) (PyInt 0)
     = inl (ValueError "Value is out of range.")
  /\ apply (value (nth 0 (fields (schema Bar)) field_x)) (PyInt 11)
     = inl (ValueError "Value is out of range.").
Proof. repeat split. Qed.

(** C6 at [class Point3D(Point)] with the declared field [z]. *)
Lemma subclass_schema_inherits_in_order_witness :
  NoDup (map key (inherited_fields Point3D_statement ++ [field_z]))
  /\ exists c1 c2,
       __init_subclass__ Point3D_statement = inr c1
       /\ fields (schema c1) = [field_x; field_y]
       /\ members [field_z] None None c1 = inr c2
       /\ fields (schema c2) = [field_x; field_y; field_z].
Proof.
  assert (H : NoDup (map key (inherited_fields Point3D_statement
                              ++ [field_z])))
    by (repeat constructor; cbn; intuition discriminate).
  split; [exact H|].
  destruct (subclass_schema_inherits_in_order Point3D_statement [field_z]
              None None H) as (c1 & c2 & H1 & H2 & H3 & H4 & _).
  exists c1, c2. repeat split; assumption.
Defined.

(** C7 at two points built from the same values, at two bags that hold
    the same fields in different orders, and at a point and an instance of
    the subclass [Point3D]. *)
Lemma eq_iff_same_class_and_equal_stores_witness :
  __eq__ point_a (as_value point_b) = Some true
  /\ (dict_items (_sym_attributes bag_ab)
      = [("a", PyInt 1); ("b", PyInt 2)]
      /\ dict_items (_sym_attributes bag_ba)
         = [("b", PyInt 2); ("a", PyInt 1)]
      /\ __eq__ bag_ab (as_value bag_ba) = Some true)
  /\ __eq__ point_a (as_value point3d) = Some false.
Proof.
  split; [|split; [split; [reflexivity | split; [reflexivity|]]|]].
  - apply (proj1 (eq_iff_same_class_and_equal_stores point_a point_b
                    eq_refl eq_refl eq_refl)).
    right. split; [reflexivity|].
    split; repeat constructor; eexists; (split; [reflexivity | constructor]).
  - apply (proj1 (eq_iff_same_class_and_equal_stores bag_ab bag_ba
                    eq_refl eq_refl eq_refl)).
    right. split; [reflexivity|].
    split; repeat constructor; eexists; (split; [reflexivity | constructor]).
  - apply (proj2 (eq_iff_same_class_and_equal_stores point_a point3d
                    eq_refl eq_refl eq_refl)); cbn; discriminate.
Defined.



(** C10 at [Point(1, 2)], which has no parent: given one, and given none
    again. *)
Lemma sym_setparent_fires_on_change_witness :
  st_events (snd (sym_setparent (Some 7) (top point_a)))
  = [OnParentChange 10 None (Some 7)]
  /\ _sym_parent (st_self (snd (sym_setparent (Some 7) (top point_a))))
     = Some 7
  /\ snd (sym_setparent None (top point_a)) = top point_a.
Proof.
  destruct (sym_setparent_fires_on_change (top point_a) (Some 7))
    as (_ & Hself & _ & _ & Hfire & _).
  destruct (sym_setparent_fires_on_change (top point_a) None)
    as (_ & _ & _ & _ & _ & Hsame).
  split; [apply Hfire; discriminate|].
  split; [now rewrite Hself | now apply Hsame].
Defined.

(** C1 fails at [Point(1, 2)]: the mapping [sym_jsonify] produces carries
    the type-identifier entry, and [Point.from_json] refuses it. *)
Lemma from_json_rejects_sym_jsonify :
  sym_jsonify point_a
  = [("_type", PyStr "__main__.Point"); ("x", PyInt 1); ("y", PyInt 2)]
  /\ fst (from_json Point 21 (sym_jsonify point_a) (PyBool false) None
                    (top point_a))
     = inl (TypeError
              "Point.__init__() got unexpected keyword argument: '_type'")
  /\ ~ (exists o',
           fst (from_json Point 21 (sym_jsonify point_a) (PyBool false) None
                          (top point_a)) = inr o'
           /\ sym_eq point_a (as_value o') = true).
Proof.
  split; [reflexivity|]. split; [reflexivity|].
  intros (o' & H & _). discriminate H.
Qed.

(** C1 at [Point(1, 2)] and at [Line(Point(1, 2), Point(1, 2))], with the
    type-identifier entry removed: the points of the new line are new
    objects, equal to the ones of the line serialized. *)
Lemma from_json_roundtrip_witness :
  (exists o',
      fst (from_json Point 21 (items_del _TYPE_NAME_KEY (sym_jsonify point_a))
                     (PyBool false) None (top point_a)) = inr o'
      /\ __class__ o' = Point
      /\ sym_eq point_a (as_value o') = true
      /\ sym_eq o' (as_value point_a) = true)
  /\ (exists o',
         fst (from_json Line 51 (items_del _TYPE_NAME_KEY (sym_jsonify line))
                        (PyBool false) None (top line)) = inr o'
         /\ __class__ o' = Line
         /\ keys (dict_items (_sym_attributes o')) = ["start"; "end"]
         /\ sym_eq line (as_value o') = true
         /\ sym_eq o' (as_value line) = true).
Proof.
  assert (Hpoint :
    construct Point 10 [PyInt 1; PyInt 2] (PyBool false) None None false []
              (top (blank Point 10))
    = (inr point_a,
       snd (construct Point 10 [PyInt 1; PyInt 2] (PyBool false) None None
                      false [] (top (blank Point 10)))))
    by reflexivity.
  assert (Hline :
    construct Line 50 [as_value point_a; as_value point_b] (PyBool false)
              None None false [] (top (blank Line 50))
    = (inr line,
       snd (construct Line 50 [as_value point_a; as_value point_b]
                      (PyBool false) None None false []
                      (top (blank Line 50)))))
    by reflexivity.
  split.
  - assert (Hs : NoDup (map key (fields (schema Point))))
      by (repeat constructor; cbn; intuition discriminate).
    assert (Hk : forall k,
               In k (keys (dict_items (_sym_attributes point_a))) ->
               k <> _TYPE_NAME_KEY /\ ~ In k reserved_names).
    { intros k Hin. cbn in Hin.
      destruct Hin as [<- | [<- | []]];
        (split; [discriminate|]);
        intros [H | [H | [H | [H | []]]]]; discriminate H. }
    assert (Hrt : permits_roundtrip (schema Point)
                    (dict_items (_sym_attributes point_a))).
    { intros k v f Hin Hf. cbn in Hin.
      destruct Hin as [Hin | [Hin | []]]; injection Hin as <- <-;
        cbn in Hf; injection Hf as <-;
        eexists; (split; [reflexivity|]); constructor. }
    destruct (proj2 (proj2 (@from_json_roundtrip _ Point 10 21
                              [PyInt 1; PyInt 2] None None None false []
                              (top (blank Point 10)) _ (top point_a) point_a
                              Hpoint Hs Hk Hrt)))
      as (o' & Ho & Hcls & _ & _ & H1 & H2).
    exists o'. repeat split; assumption.
  - assert (Hs : NoDup (map key (fields (schema Line))))
      by (repeat constructor; cbn; intuition discriminate).
    assert (Hk : forall k,
               In k (keys (dict_items (_sym_attributes line))) ->
               k <> _TYPE_NAME_KEY /\ ~ In k reserved_names).
    { intros k Hin. cbn in Hin.
      destruct Hin as [<- | [<- | []]];
        (split; [discriminate|]);
        intros [H | [H | [H | [H | []]]]]; discriminate H. }
    assert (Hrt : permits_roundtrip (schema Line)
                    (dict_items (_sym_attributes line))).
    { intros k v f Hin Hf. cbn in Hin.
      destruct Hin as [Hin | [Hin | []]]; injection Hin as <- <-;
        cbn in Hf; injection Hf as <-;
        eexists; (split; [reflexivity|]); apply base_eq_spec; reflexivity. }
    destruct (proj2 (proj2 (@from_json_roundtrip _ Line 50 51
                              [as_value point_a; as_value point_b]
                              None None None false []
                              (top (blank Line 50)) _ (top line) line
                              Hline Hs Hk Hrt)))
      as (o' & Ho & Hcls & Hkeys & _ & H1 & H2).
    exists o'. repeat split; assumption.
Defined.

(** X1 at [Point(1, 2, 3, z=3, allow_partial=1)]: the error is the one
    about [allow_partial], not one about the arguments. *)
Lemma allow_partial_must_be_bool_witness :
  fst (construct Point 20 [PyInt 1; PyInt 2; PyInt 3] (PyInt 1) None None
                 false [("z", PyInt 3)] (top (blank Point 20)))
  = inl (TypeError
           ("Expect bool type for argument 'allow_partial' in "
            ++ "symbolic.Object.__init__ but encountered 1.")).
Proof.
  rewrite (allow_partial_must_be_bool Point 20 [PyInt 1; PyInt 2; PyInt 3]
             (allow_partial := PyInt 1) None None false [("z", PyInt 3)]
             (top (blank Point 20))); [reflexivity | discriminate].
Defined.

(** X2 at [Point(1, 2)] and at [Point(1, 2, sealed=True)]. *)
Lemma new_object_postconditions_witness :
  _sealed point_a = false /\ _sealed sealed_point = true
  /\ in_step point_a
  /\ st_events (snd (construct Point 10 [PyInt 1; PyInt 2] (PyBool false)
                               None None false [] (top (blank Point 10))))
     = [OnInit 10; OnBound 10].
Proof.
  assert (Ha :
    construct Point 10 [PyInt 1; PyInt 2] (PyBool false) None None false []
              (top (blank Point 10))
    = (inr point_a,
       snd (construct Point 10 [PyInt 1; PyInt 2] (PyBool false) None None
                      false [] (top (blank Point 10)))))
    by reflexivity.
  assert (Hs :
    construct Point 13 [PyInt 1; PyInt 2] (PyBool false) (Some true) None
              false [] (top (blank Point 13))
    = (inr sealed_point,
       snd (construct Point 13 [PyInt 1; PyInt 2] (PyBool false) (Some true)
                      None false [] (top (blank Point 13)))))
    by reflexivity.
  apply new_object_postconditions in Ha
    as ((_ & _ & _ & Hsealed & _) & Hstep & _ & Hev & _).
  apply new_object_postconditions in Hs
    as ((_ & _ & _ & Hsealed' & _) & _).
  split; [exact Hsealed|]. split; [exact Hsealed'|].
  split; [exact Hstep | exact Hev].
Defined.

(** X3 at [Line()], which lacks its two required arguments. *)
Lemma failed_call_fires_no_hook_witness :
  fst (construct Line 20 [] (PyBool false) None None false []
                 (top (blank Line 20)))
  = inl (TypeError
           "Line.__init__() missing 2 required arguments: 'start', 'end'.")
  /\ st_events (snd (construct Line 20 [] (PyBool false) None None false []
                               (top (blank Line 20)))) = [].
Proof.
  assert (H :
    construct Line 20 [] (PyBool false) None None false []
              (top (blank Line 20))
    = (inl (TypeError
              "Line.__init__() missing 2 required arguments: 'start', 'end'."),
       snd (construct Line 20 [] (PyBool false) None None false []
                      (top (blank Line 20)))))
    by reflexivity.
  split; [reflexivity|].
  apply failed_call_fires_no_hook in H as [H _]. exact H.
Defined.

(** X4 at [Empty(1)], [Point(1, 1, 1)] and [Stray(1)]. *)
Lemma positional_arguments_refused_witness :
  fst (construct Empty 20 [PyInt 1] (PyBool false) None None false []
                 (top (blank Empty 20)))
  = inl (TypeError "Empty() takes no arguments.")
  /\ fst (construct Point 20 [PyInt 1; PyInt 1; PyInt 1] (PyBool false) None
                    None false [] (top (blank Point 20)))
     = inl (TypeError
              "Point.__init__() takes 2 positional arguments but 3 were given.")
  /\ fst (construct Stray 20 [PyInt 1] (PyBool false) None None false []
                    (top (blank Stray 20)))
     = inl AssertionError.
Proof.
  split; [|split].
  - apply (proj1 (positional_arguments_refused Empty 20 (args := [PyInt 1])
                    false None None false [] (top (blank Empty 20))
                    ltac:(discriminate) eq_refl)).
    reflexivity.
  - apply (proj1 (proj2 (positional_arguments_refused Point 20
                           (args := [PyInt 1; PyInt 1; PyInt 1])
                           false None None false [] (top (blank Point 20))
                           ltac:(discriminate) eq_refl)));
      [discriminate | now right | cbn; lia].
  - apply (proj2 (proj2 (positional_arguments_refused Stray 20
                           (args := [PyInt 1])
                           false None None false [] (top (blank Stray 20))
                           ltac:(discriminate) eq_refl)) [] "rest");
      [discriminate | reflexivity | reflexivity].
Defined.



(** X7 at [Point(1, 2)]. *)
Lemma declared_fields_are_symbolic_attributes_witness :
  sym_hasattr point_a (PyStr "x") = inr true
  /\ (exists v, _sym_getattr point_a "y" = inr v)
  /\ get_field (schema Point) "x" <> None.
Proof.
  assert (Ha :
    construct Point 10 [PyInt 1; PyInt 2] (PyBool false) None None false []
              (top (blank Point 10))
    = (inr point_a,
       snd (construct Point 10 [PyInt 1; PyInt 2] (PyBool false) None None
                      false [] (top (blank Point 10)))))
    by reflexivity.
  apply declared_fields_are_symbolic_attributes in Ha as [Hdeclared Hattr].
  destruct (Hdeclared (nth 0 (fields (schema Point)) field_x))
    as [Hx _]; [cbn; tauto | reflexivity | reflexivity |].
  destruct (Hdeclared (nth 1 (fields (schema Point)) field_x))
    as [_ Hy]; [cbn; tauto | reflexivity | reflexivity |].
  split; [exact Hx|]. split; [exact Hy|].
  exact (Hattr "x" Hx).
Defined.

(** X8 at [Bag.from_json({'sealed': True, 'n': 2})] and at
    [Point.from_json({'allow_partial': True})]. *)
Lemma from_json_binds_parameter_names_witness :
  (exists o,
      fst (from_json Bag 40 [("sealed", PyBool true); ("n", PyInt 2)]
                     (PyBool false) None (top (blank Bag 40))) = inr o
      /\ _sealed o = true
      /\ ~ In "sealed" (keys (dict_items (_sym_attributes o))))
  /\ exists msg,
       fst (from_json Point 40 [("allow_partial", PyBool true)]
                      (PyBool false) None (top (blank Point 40)))
       = inl (TypeError msg).
Proof.
  split.
  - assert (H :
      from_json Bag 40 [("sealed", PyBool true); ("n", PyInt 2)]
                (PyBool false) None (top (blank Bag 40))
      = (inr (instance Bag 40 [] (Some true) [("n", PyInt 2)]),
         snd (from_json Bag 40 [("sealed", PyBool true); ("n", PyInt 2)]
                        (PyBool false) None (top (blank Bag 40)))))
      by reflexivity.
    exists (instance Bag 40 [] (Some true) [("n", PyInt 2)]).
    split; [reflexivity|].
    apply (proj2 (from_json_binds_parameter_names Bag 40
                    [("sealed", PyBool true); ("n", PyInt 2)]
                    (PyBool false) None (top (blank Bag 40)))) in H
      as [Hsealed Hkeys].
    split; [exact Hsealed|].
    apply Hkeys; [cbn; tauto|].
    intros f [<- | []]. discriminate.
  - destruct (proj1 (from_json_binds_parameter_names Point 40
                       [("allow_partial", PyBool true)]
                       (PyBool false) None (top (blank Point 40))))
      as [msg Hmsg]; [now left|].
    exists msg. now rewrite Hmsg.
Defined.


(** X10 at the class [Moved], declared with the serialization key
    ['legacy.Moved']. *)
Lemma serialization_key_names_the_class_witness :
  type_name Moved = "__main__.Moved"
  /\ serialization_key Moved = "legacy.Moved"
  /\ items_get "_type" (sym_jsonify moved) = Some (PyStr "legacy.Moved").
Proof.
  assert (H1 : __init_subclass__ Moved_statement
               = inr (match __init_subclass__ Moved_statement with
                      | inr c => c
                      | inl _ => Moved_statement
                      end))
    by reflexivity.
  assert (H2 : members [field_x] None (Some "legacy.Moved")
                 (match __init_subclass__ Moved_statement with
                  | inr c => c
                  | inl _ => Moved_statement
                  end) = inr Moved)
    by reflexivity.
  assert (Hnew :
    construct Moved 33 [PyInt 1] (PyBool false) None None false []
              (top (blank Moved 33))
    = (inr moved,
       snd (construct Moved 33 [PyInt 1] (PyBool false) None None false []
                      (top (blank Moved 33)))))
    by reflexivity.
  destruct (@serialization_key_names_the_class _ _ _ _ _ _ _ _ _ _ _ _ _ _ _ _ _
              H1 H2 Hnew eq_refl)
    as (_ & Hname & Hkey & Hjson).
  split; [exact Hname|]. split; [exact Hkey | exact Hjson].
Defined.

(** X13 at [w = Writable(1)] and [w.x = 5]. *)
Lemma assignment_stores_the_validated_value_witness :
  fst (__setattr__ instance_setattr "x" (PyInt 5) (top writable_point))
  = inr tt
  /\ _sym_getattr (st_self (snd (__setattr__ instance_setattr "x" (PyInt 5)
                                             (top writable_point)))) "x"
     = inr (PyInt 5).
Proof.
  destruct (assignment_stores_the_validated_value instance_setattr
              (top writable_point) "x"
              (PyInt 5) (v' := PyInt 5)
              (f := nth 0 (fields (schema Writable)) field_x))
    as (Hok & Hget & _);
    try reflexivity; [repeat split|].
  split; [exact Hok | exact Hget].
Defined.

(** X14 at [p = Point(1, 2)] and [p.x = 5]. *)
Lemma assignment_refused_unless_writable_witness :
  __setattr__ instance_setattr "x" (PyInt 5) (top point_a)
  = (inl (WritePermissionError
            ("Cannot set attribute of <class Point> while "
             ++ "`Point.allow_symbolic_assignment` is set to False or "
             ++ "under `pg.as_sealed` context. (path=)")),
     top point_a).
Proof.
  destruct (assignment_refused_unless_writable instance_setattr
              (top point_a) "x" (PyInt 5))
    as (msg & Hcall & Hmsg);
    [reflexivity | discriminate | reflexivity | reflexivity |].
  rewrite Hcall, (Hmsg eq_refl). reflexivity.
Defined.

(** X16 at the sealed [Point(1, 2)]. *)
Lemma refused_mutation_leaves_object_witness :
  snd (__setattr__ instance_setattr "x" (PyInt 5) (top sealed_point))
  = top sealed_point
  /\ snd (_sym_rebind [(["x"], PyInt 5)] (top sealed_point))
     = top sealed_point.
Proof.
  split.
  - apply (proj1 (refused_mutation_leaves_object instance_setattr
                    (top sealed_point)
                    "Cannot set attribute 'x': object is sealed. (path=)")).
    reflexivity.
  - apply (proj2 (refused_mutation_leaves_object instance_setattr
                    (top sealed_point) "Cannot rebind a sealed Point.")).
    reflexivity.
Defined.

(** X17 at [Writable(1)], through an assignment and a [seal]. *)
Lemma methods_keep_object_and_store_in_step_witness :
  in_step writable_point
  /\ in_step (st_self (snd (__setattr__ instance_setattr "x" (PyInt 5)
                                        (top writable_point))))
  /\ in_step (st_self (snd (seal true (top writable_point)))).
Proof.
  assert (H : in_step (st_self (top writable_point))) by (repeat split).
  split; [exact H|].
  destruct (methods_keep_object_and_store_in_step instance_setattr
              (top writable_point) H)
    as (Hseal & _ & Hset & _).
  split; [|exact (proj1 (Hseal true))].
  apply (Hset "x" (PyInt 5)); [reflexivity | discriminate | reflexivity].
Defined.

(** X18 at two points built from the same values, and at a point and an
    integer. *)
Lemma sym_eq_symmetric_witness :
  sym_eq point_a (as_value point_b) = sym_eq point_b (as_value point_a)
  /\ sym_eq point_a (PyInt 1) = false.
Proof.
  destruct (sym_eq_symmetric point_a point_b (PyInt 1)) as (Hsym & _ & Hint).
  split; [exact Hsym | exact (Hint I)].
Defined.

(** X20 at two instances of [ById] built from the same value. *)
Lemma identity_comparison_without_symbolic_comparison_witness :
  dict_items (_sym_attributes by_id_a) = dict_items (_sym_attributes by_id_b)
  /\ __eq__ by_id_a (as_value by_id_b) = None
  /\ __ne__ by_id_a (as_value by_id_b) = None
  /\ __eq__ by_id_a (as_value by_id_a) = Some true.
Proof.
  split; [reflexivity|].
  destruct (identity_comparison_without_symbolic_comparison by_id_a
              (as_value by_id_a) eq_refl) as (Hid & _ & _ & Hother & _).
  destruct (Hother by_id_b) as [Heq Hne]; [discriminate|].
  split; [exact Heq|]. split; [exact Hne|].
  now apply Hid.
Defined.

(** X21 at a bag with the dynamic fields [_hidden] and [n], none of which
    the regular lookup finds, at an instance of a class that turns symbolic
    attributes off, and at an instance of [Point] whose [__init__] has not
    run. *)
Lemma attribute_lookup_falls_back_to_the_store_witness :
  __getattribute__ instance_lookup bag "n" = inr (PyInt 2)
  /\ __getattribute__ instance_lookup bag "_hidden"
     = inl (AttributeError "'Bag' object has no attribute '_hidden'")
  /\ __getattribute__ instance_lookup sealed_plain "x"
     = inl (AttributeError "'Plain' object has no attribute 'x'")
  /\ __getattribute__ instance_lookup (blank Bag 60) "n"
     = inl (ValueError "Bag.__init__ should call `super().__init__`.").
Proof.
  split; [|split; [|split]].
  - apply (proj1 (proj2 (attribute_lookup_falls_back_to_the_store
                           instance_lookup bag "n"))
             "'Bag' object has no attribute 'n'"); reflexivity.
  - apply (proj1 (proj2 (proj2 (proj2
                   (attribute_lookup_falls_back_to_the_store
                      instance_lookup bag "_hidden")))));
      [reflexivity | right; split; [discriminate | now left]].
  - apply (proj1 (proj2 (proj2 (proj2
                   (attribute_lookup_falls_back_to_the_store
                      instance_lookup sealed_plain "x")))));
      [reflexivity | now left].
  - apply (proj1 (proj2 (proj2 (attribute_lookup_falls_back_to_the_store
                                  instance_lookup (blank Bag 60) "n")))
             "'Bag' object has no attribute 'n'");
      [reflexivity | reflexivity | right; split; reflexivity].
Defined.

(** What the regular assignment can reach.  On the sealed [Point(1, 2)],
    [p._sealed = False] unseals the object, and [rebind] then goes through;
    [p.allow_symbolic_attribute = False] is stored on the instance, after
    which [p.x = 5] is a regular assignment, refused by the property of the
    class; and [p.use_symbolic_comparison = False] makes [==] fall back to
    identity. *)
Example raw_assignments_reach_the_flags :
  let assign name v st := snd (__setattr__ instance_setattr name v st) in
  _sealed (st_self (assign "_sealed" (PyBool false) (top sealed_point)))
  = false
  /\ fst (_sym_rebind [(["x"], PyInt 3)]
                      (assign "_sealed" (PyBool false) (top sealed_point)))
     = inr [{| update_path := ["x"]; old_value := PyInt 1;
               new_value := PyInt 3 |}]
  /\ fst (__setattr__ instance_setattr "x" (PyInt 5)
            (assign "allow_symbolic_attribute" (PyBool false)
                    (top sealed_point)))
     = inl (AttributeError "can't set attribute 'x'")
  /\ __eq__ point_a (as_value point_b) = Some true
  /\ __eq__ (st_self (assign "use_symbolic_comparison" (PyBool false)
                             (top point_a)))
            (as_value point_b) = None.
Proof. repeat split. Qed.

End ScenarioChecks.
